(** * The tool-calling agent of [local_llm.agent], embedded in Rocq

    Sources embedded here:
    - [local_llm/exceptions.py]          (exception classes)
    - [local_llm/config.py]              ([AGENT_MAX_RESULT_LENGTH])
    - [local_llm/agent/tool.py]          ([Tool], [ToolRegistry])
    - [local_llm/agent/conversation.py]  ([ConversationHistory])
    - [local_llm/agent/agent.py]         ([Agent])

    Python strings are modelled as [string], one [ascii] per character.
    Python integers are [Z].  Exceptions are values of an error monad;
    the mutable conversation, the outside world touched by tools and by
    the generation backend, and a ghost log of backend calls and tool
    executions are threaded as explicit state. *)

From Stdlib Require Import String Ascii List ZArith Lia Bool DecimalString.
Import ListNotations.
Open Scope string_scope.
Open Scope Z_scope.

(* ================================================================== *)
(** * Exceptions *)

(** The classes of [exceptions.py] together with the built-in ones the
    agent code can meet.  [OtherException] stands for any other class
    derived from [Exception] (a transport error of the HTTP client, an
    error raised by a tool, ...), [OtherBaseException] for any other
    class derived from [BaseException] only; like [SystemExit],
    [KeyboardInterrupt] and [GeneratorExit], such a class passes every
    [except Exception].  The texts of the built-in exceptions are those
    of CPython 3.11. *)
Inductive exc_class : Type :=
| BaseException
| SystemExit
| KeyboardInterrupt
| GeneratorExit
| Exception
| TypeError
| ValueError
| IndexError
| RuntimeError
| RecursionError
| JSONDecodeError
| LocalLLMError
| OllamaNotRunningError
| ModelNotFoundError
| CompletionError
| AgentError
| ToolExecutionError
| MaxIterationsError
| OtherException (cls : string)
| OtherBaseException (cls : string).

(** The base class: as declared in [exceptions.py] and by the
    interpreter. *)
Definition exc_base (c : exc_class) : option exc_class :=
  match c with
  | BaseException => None
  | SystemExit | KeyboardInterrupt | GeneratorExit | Exception
  | OtherBaseException _ => Some BaseException
  | JSONDecodeError => Some ValueError
  | RecursionError => Some RuntimeError
  | OllamaNotRunningError | ModelNotFoundError | CompletionError
  | AgentError | ToolExecutionError => Some LocalLLMError
  | MaxIterationsError => Some AgentError
  | TypeError | ValueError | IndexError | RuntimeError | LocalLLMError
  | OtherException _ => Some Exception
  end.

Definition exc_class_eqb (c d : exc_class) : bool :=
  match c, d with
  | BaseException, BaseException | SystemExit, SystemExit
  | KeyboardInterrupt, KeyboardInterrupt | GeneratorExit, GeneratorExit
  | Exception, Exception | TypeError, TypeError | ValueError, ValueError
  | IndexError, IndexError | RuntimeError, RuntimeError
  | RecursionError, RecursionError | JSONDecodeError, JSONDecodeError
  | LocalLLMError, LocalLLMError
  | OllamaNotRunningError, OllamaNotRunningError
  | ModelNotFoundError, ModelNotFoundError
  | CompletionError, CompletionError | AgentError, AgentError
  | ToolExecutionError, ToolExecutionError
  | MaxIterationsError, MaxIterationsError => true
  | OtherException a, OtherException b => String.eqb a b
  | OtherBaseException a, OtherBaseException b => String.eqb a b
  | _, _ => false
  end.

(** [issubclass c d]; the hierarchy is at most five levels deep. *)
Fixpoint issubclass_fuel (fuel : nat) (c d : exc_class) : bool :=
  exc_class_eqb c d ||
  match fuel with
  | O => false
  | S fuel' =>
      match exc_base c with
      | Some b => issubclass_fuel fuel' b d
      | None => false
      end
  end.

Definition issubclass : exc_class -> exc_class -> bool := issubclass_fuel 4.

Set Warnings "-register-all".

(** A raised exception: its class, [str(e)], and [e.__context__], the
    exception that was being handled when [e] was raised.  No [raise] of
    the code has a [from] clause, so [__cause__] is always [None].  The
    calls into the code are taken to start outside every handler, so an
    exception the code raises outside its own handlers has no
    context. *)
Inductive exn : Type := mk_exn {
  exc_type : exc_class;
  exc_str : string;
  exc_context : option exn
}.

(** [raise cls(msg)] outside every handler. *)
Definition new_exn (cls : exc_class) (msg : string) : exn :=
  mk_exn cls msg None.

(** [raise cls(msg)] inside the handler of [handled]. *)
Definition new_exn_handling (handled : exn) (cls : exc_class) (msg : string)
  : exn :=
  mk_exn cls msg (Some handled).

(** Outcome of a computation that may raise. *)
Inductive Res (A : Type) : Type :=
| Ok (a : A)
| Raise (e : exn).
Arguments Ok {A} a.
Arguments Raise {A} e.

Definition res_bind {A B} (r : Res A) (k : A -> Res B) : Res B :=
  match r with
  | Ok a => k a
  | Raise e => Raise e
  end.

(* ================================================================== *)
(** * Strings the way Python slices and searches them *)

Definition dquote : ascii := "034"%char.
Definition nl : string := String "010"%char EmptyString.

Definition py_len (s : string) : Z := Z.of_nat (String.length s).

(** Index normalisation of a slice bound: negative bounds count from the
    end, and every bound is clamped to [0, len]. *)
Definition norm_index (len i : Z) : Z :=
  if i <? 0 then Z.max 0 (len + i) else Z.min i len.

(** [s[i:j]] *)
Definition str_slice (s : string) (i j : Z) : string :=
  let a := norm_index (py_len s) i in
  let b := norm_index (py_len s) j in
  substring (Z.to_nat a) (Z.to_nat (b - a)) s.

(** [s[:n]] *)
Definition str_slice_to (s : string) (n : Z) : string :=
  substring 0 (Z.to_nat (norm_index (py_len s) n)) s.

(** [l[i:]] *)
Definition list_slice_from {A} (l : list A) (i : Z) : list A :=
  skipn (Z.to_nat (norm_index (Z.of_nat (List.length l)) i)) l.

(** [str.isspace] on one character (code points below 256). *)
Definition is_space (c : ascii) : bool :=
  let n := nat_of_ascii c in
  ((9 <=? n) && (n <=? 13) || (28 <=? n) && (n <=? 32)
   || (n =? 133) || (n =? 160))%nat.

Fixpoint lstrip (s : string) : string :=
  match s with
  | String c r => if is_space c then lstrip r else s
  | EmptyString => EmptyString
  end.

Fixpoint rstrip (s : string) : string :=
  match s with
  | String c r =>
      match rstrip r with
      | EmptyString => if is_space c then EmptyString else String c EmptyString
      | r' => String c r'
      end
  | EmptyString => EmptyString
  end.

(** [s.strip()] *)
Definition strip (s : string) : string := rstrip (lstrip s).

(** Every character is whitespace; so is the empty string. *)
Fixpoint blank (s : string) : bool :=
  match s with
  | String c r => is_space c && blank r
  | EmptyString => true
  end.

Fixpoint find_from (c : ascii) (s : string) (i : Z) : Z :=
  match s with
  | String d r => if Ascii.eqb d c then i else find_from c r (i + 1)
  | EmptyString => -1
  end.

(** [s.find(c)]: the first index of [c], or [-1]. *)
Definition find (s : string) (c : ascii) : Z := find_from c s 0.

Fixpoint rfind_from (c : ascii) (s : string) (i last : Z) : Z :=
  match s with
  | String d r => rfind_from c r (i + 1) (if Ascii.eqb d c then i else last)
  | EmptyString => last
  end.

(** [s.rfind(c)]: the last index of [c], or [-1]. *)
Definition rfind (s : string) (c : ascii) : Z := rfind_from c s 0 (-1).

(** [sub in s] for strings. *)
Fixpoint str_contains (sub s : string) : bool :=
  String.prefix sub s ||
  match s with
  | String _ r => str_contains sub r
  | EmptyString => false
  end.

(** [str(n)] for an integer. *)
Definition str_of_Z (z : Z) : string := NilZero.string_of_int (Z.to_int z).

Fixpoint join (sep : string) (l : list string) : string :=
  match l with
  | [] => EmptyString
  | [x] => x
  | x :: r => x ++ sep ++ join sep r
  end.

Fixpoint replicate_str (n : nat) (s : string) : string :=
  match n with
  | O => EmptyString
  | S n' => s ++ replicate_str n' s
  end.

(* ================================================================== *)
(** * Python values *)

(** The values that cross the agent's boundaries: what [json.loads]
    produces, what a tool receives as keyword arguments and what it
    returns.  A float carries its [repr]; [PObj] is any other object,
    carrying its class name and its [str()]. *)
Inductive pyval : Type :=
| PNone
| PBool (b : bool)
| PInt (z : Z)
| PFloat (repr : string)
| PStr (s : string)
| PList (l : list pyval)
| PDict (kvs : list (pyval * pyval))
| PObj (cls : string) (str : string).

(** Induction on a value together with the values nested in it. *)
Section PyvalInduction.
Variable P : pyval -> Prop.
Hypothesis HNone : P PNone.
Hypothesis HBool : forall b, P (PBool b).
Hypothesis HInt : forall z, P (PInt z).
Hypothesis HFloat : forall r, P (PFloat r).
Hypothesis HStr : forall s, P (PStr s).
Hypothesis HList : forall l, Forall P l -> P (PList l).
Hypothesis HDict : forall kvs, Forall (fun kv => P (snd kv)) kvs -> P (PDict kvs).
Hypothesis HObj : forall cls s, P (PObj cls s).

Fixpoint pyval_nested_ind (v : pyval) : P v :=
  match v with
  | PNone => HNone
  | PBool b => HBool b
  | PInt z => HInt z
  | PFloat r => HFloat r
  | PStr s => HStr s
  | PList l =>
      HList l ((fix go (l : list pyval) : Forall P l :=
                  match l with
                  | [] => Forall_nil P
                  | x :: r => Forall_cons x (pyval_nested_ind x) (go r)
                  end) l)
  | PDict kvs =>
      HDict kvs ((fix go (kvs : list (pyval * pyval))
                    : Forall (fun kv => P (snd kv)) kvs :=
                    match kvs with
                    | [] => Forall_nil _
                    | kv :: r => Forall_cons kv (pyval_nested_ind (snd kv)) (go r)
                    end) kvs)
  | PObj cls s => HObj cls s
  end.
End PyvalInduction.

(** [type(v).__name__] *)
Definition type_name (v : pyval) : string :=
  match v with
  | PNone => "NoneType"
  | PBool _ => "bool"
  | PInt _ => "int"
  | PFloat _ => "float"
  | PStr _ => "str"
  | PList _ => "list"
  | PDict _ => "dict"
  | PObj cls _ => cls
  end.

(** [d.get(k)] for a string key [k]. *)
Fixpoint dict_get (kvs : list (pyval * pyval)) (k : string) : option pyval :=
  match kvs with
  | (PStr k', v) :: r => if String.eqb k' k then Some v else dict_get r k
  | _ :: r => dict_get r k
  | [] => None
  end.

(** The keyword bindings when a dict is unpacked into a call with the
    double-star operator: every key has to be a string. *)
Fixpoint keywords (kvs : list (pyval * pyval)) : option (list (string * pyval)) :=
  match kvs with
  | (PStr k, v) :: r =>
      match keywords r with
      | Some kw => Some ((k, v) :: kw)
      | None => None
      end
  | _ :: _ => None
  | [] => Some []
  end.

(* ================================================================== *)
(** * [json.dumps] *)

Definition hex_digit (n : nat) : ascii :=
  match n with
  | 0 => "0" | 1 => "1" | 2 => "2" | 3 => "3" | 4 => "4" | 5 => "5"
  | 6 => "6" | 7 => "7" | 8 => "8" | 9 => "9" | 10 => "a" | 11 => "b"
  | 12 => "c" | 13 => "d" | 14 => "e" | _ => "f"
  end%nat%char.

(** One character under [ensure_ascii=True]. *)
Definition json_escape_char (c : ascii) : string :=
  let n := nat_of_ascii c in
  let bs := "\" in
  if Ascii.eqb c dquote then bs ++ String dquote EmptyString
  else if Ascii.eqb c "\"%char then bs ++ bs
  else if (n =? 10)%nat then bs ++ "n"
  else if (n =? 13)%nat then bs ++ "r"
  else if (n =? 9)%nat then bs ++ "t"
  else if (n =? 12)%nat then bs ++ "f"
  else if (n =? 8)%nat then bs ++ "b"
  else if ((n <? 32) || (126 <? n))%nat
       then bs ++ "u00"
            ++ String (hex_digit (n / 16))
                      (String (hex_digit (n mod 16)) EmptyString)
  else String c EmptyString.

Fixpoint json_escape (s : string) : string :=
  match s with
  | String c r => json_escape_char c ++ json_escape r
  | EmptyString => EmptyString
  end.

Definition json_encode_str (s : string) : string :=
  String dquote (json_escape s ++ String dquote EmptyString).

(** [sys.get_int_max_str_digits()]: the default of CPython 3.11. *)
Definition int_max_str_digits : Z := 4300.

(** The number of decimal digits of an integer. *)
Definition int_digits (z : Z) : Z := py_len (str_of_Z (Z.abs z)).

(** [int.__repr__], which the encoder calls on an integer: the
    conversion of an integer of more than [int_max_str_digits] digits
    is refused. *)
Definition int_repr (z : Z) : Res string :=
  if int_digits z <=? int_max_str_digits
  then Ok (str_of_Z z)
  else Raise (new_exn ValueError
                "Exceeds the limit (4300 digits) for integer string conversion; use sys.set_int_max_str_digits() to increase the limit").

(** The text the encoder writes for a float with the given [repr]
    ([allow_nan] is left at its default): the [repr] itself, except for
    the three values that are not finite. *)
Definition float_json (repr : string) : string :=
  if String.eqb repr "nan" then "NaN"
  else if String.eqb repr "inf" then "Infinity"
  else if String.eqb repr "-inf" then "-Infinity"
  else repr.

(** The text a dictionary key is written as, when it can be a key. *)
Definition json_key (k : pyval) : Res string :=
  match k with
  | PStr s => Ok s
  | PFloat r => Ok (float_json r)
  | PBool true => Ok "true"
  | PBool false => Ok "false"
  | PNone => Ok "null"
  | PInt z => int_repr z
  | _ => Raise (new_exn TypeError
                  ("keys must be str, int, float, bool or None, not " ++ type_name k))
  end.

Definition newline_indent (indent : option nat) (level : nat) : string :=
  match indent with
  | Some n => nl ++ replicate_str (n * level) " "
  | None => EmptyString
  end.

Definition item_separator (indent : option nat) (level : nat) : string :=
  match indent with
  | Some _ => "," ++ newline_indent indent level
  | None => ", "
  end.

(** A function that may raise, applied to the items of a list in order;
    the first exception ends the traversal. *)
Fixpoint res_map {A B} (f : A -> Res B) (l : list A) : Res (list B) :=
  match l with
  | [] => Ok []
  | x :: r =>
      res_bind (f x) (fun y =>
      res_bind (res_map f r) (fun ys => Ok (y :: ys)))
  end.

(** [json.dumps(v, default=str if default_str else None, indent=indent)],
    at nesting depth [level].  A member that is not JSON-serializable is
    replaced by [str(member)] when [default_str] holds and is a
    [TypeError] otherwise; an integer too long to be converted is a
    [ValueError]. *)
Fixpoint json_dumps_at (default_str : bool) (indent : option nat)
         (level : nat) (v : pyval) {struct v} : Res string :=
  match v with
  | PNone => Ok "null"
  | PBool true => Ok "true"
  | PBool false => Ok "false"
  | PInt z => int_repr z
  | PFloat r => Ok (float_json r)
  | PStr s => Ok (json_encode_str s)
  | PList [] => Ok "[]"
  | PList l =>
      res_bind
        (res_map (json_dumps_at default_str indent (S level)) l)
        (fun ss => Ok ("[" ++ newline_indent indent (S level)
                        ++ join (item_separator indent (S level)) ss
                        ++ newline_indent indent level ++ "]"))
  | PDict [] => Ok "{}"
  | PDict kvs =>
      res_bind
        (res_map
           (fun kv =>
              res_bind (json_key (fst kv)) (fun ks =>
              res_bind (json_dumps_at default_str indent (S level) (snd kv))
                       (fun s => Ok (json_encode_str ks ++ ": " ++ s))))
           kvs)
        (fun ss => Ok ("{" ++ newline_indent indent (S level)
                        ++ join (item_separator indent (S level)) ss
                        ++ newline_indent indent level ++ "}"))
  | PObj cls s =>
      if default_str then Ok (json_encode_str s)
      else Raise (new_exn TypeError
                    ("Object of type " ++ cls ++ " is not JSON serializable"))
  end.

Definition json_dumps (default_str : bool) (indent : option nat) (v : pyval)
  : Res string :=
  json_dumps_at default_str indent 0 v.

(** A value with [str(member)] put in place of every member that is not
    JSON-serializable.  Dictionary keys are left alone: [default] is
    never applied to them. *)
Fixpoint subst_objs (v : pyval) : pyval :=
  match v with
  | PObj _ s => PStr s
  | PList l => PList (map subst_objs l)
  | PDict kvs => PDict (map (fun kv => (fst kv, subst_objs (snd kv))) kvs)
  | _ => v
  end.

(* ================================================================== *)
(** * [conversation.py]: messages and [ConversationHistory] *)

(** A tool call in the OpenAI dictionary format built by
    [Agent._parse_tool_calls]: an id, the constant type [function], and
    under [function] a name and an argument payload.  The name and the
    payload are whatever the parse produced, hence [pyval]. *)
Record ToolCall : Type := mk_tool_call {
  tc_id : string;
  tc_name : pyval;
  tc_arguments : pyval
}.

(** The message dictionaries the history holds, by shape. *)
Inductive Message : Type :=
| MsgSystem (content : string)
| MsgUser (content : string)
| MsgAssistant (content : string)
| MsgAssistantToolCalls (tool_calls : list ToolCall)  (* content is None *)
| MsgTool (tool_call_id : string) (name : pyval) (content : string).

Definition role (m : Message) : string :=
  match m with
  | MsgSystem _ => "system"
  | MsgUser _ => "user"
  | MsgAssistant _ | MsgAssistantToolCalls _ => "assistant"
  | MsgTool _ _ _ => "tool"
  end.

Definition is_system (m : Message) : bool := String.eqb (role m) "system".
Definition not_system (m : Message) : bool := negb (is_system m).

Record ConversationHistory : Type := mk_history {
  _messages : list Message;
  _max_messages : Z
}.

(** [ConversationHistory.__init__]: a falsy prompt ([None] or the empty
    string) adds no system message. *)
Definition ConversationHistory_init (system_prompt : option string)
           (max_messages : Z) : ConversationHistory :=
  match system_prompt with
  | Some (String _ _ as p) => mk_history [MsgSystem p] max_messages
  | _ => mk_history [] max_messages
  end.

(** The [messages] property: a deep copy, that is the value itself. *)
Definition messages (h : ConversationHistory) : list Message := _messages h.

Definition ConversationHistory_len (h : ConversationHistory) : Z :=
  Z.of_nat (List.length (_messages h)).

(** [ConversationHistory._trim_if_needed] *)
Definition ConversationHistory_trim_if_needed (h : ConversationHistory)
  : ConversationHistory :=
  if ConversationHistory_len h <=? _max_messages h then h
  else
    let system := filter is_system (_messages h) in
    let non_system := filter not_system (_messages h) in
    let keep := _max_messages h - Z.of_nat (List.length system) in
    mk_history (system ++ list_slice_from non_system (- keep)) (_max_messages h).

Definition append_message (h : ConversationHistory) (m : Message)
  : ConversationHistory :=
  mk_history (_messages h ++ [m]) (_max_messages h).

Definition ConversationHistory_add_user_message (h : ConversationHistory)
           (content : string) : ConversationHistory :=
  ConversationHistory_trim_if_needed (append_message h (MsgUser content)).

Definition ConversationHistory_add_assistant_message (h : ConversationHistory)
           (content : string) : ConversationHistory :=
  ConversationHistory_trim_if_needed (append_message h (MsgAssistant content)).

Definition ConversationHistory_add_assistant_tool_calls (h : ConversationHistory)
           (message : Message) : ConversationHistory :=
  ConversationHistory_trim_if_needed (append_message h message).

Definition ConversationHistory_add_tool_result (h : ConversationHistory)
           (tool_call_id : string) (name : pyval) (content : string)
  : ConversationHistory :=
  ConversationHistory_trim_if_needed
    (append_message h (MsgTool tool_call_id name content)).

Definition ConversationHistory_clear (h : ConversationHistory)
  : ConversationHistory :=
  mk_history (filter is_system (_messages h)) (_max_messages h).

(** The scan of [get_last_assistant_content], on the reversed list: the
    first assistant message whose content is truthy. *)
Fixpoint first_assistant_content (l : list Message) : option string :=
  match l with
  | MsgAssistant (String _ _ as c) :: _ => Some c
  | _ :: r => first_assistant_content r
  | [] => None
  end.

Definition ConversationHistory_get_last_assistant_content
           (h : ConversationHistory) : option string :=
  first_assistant_content (rev (_messages h)).

(** The most recent assistant message whose content is not null, in the
    words of the specification: any assistant message that is not a
    tool-invocation record counts, whatever its text. *)
Fixpoint first_nonnull_assistant_content (l : list Message) : option string :=
  match l with
  | MsgAssistant c :: _ => Some c
  | _ :: r => first_nonnull_assistant_content r
  | [] => None
  end.

Definition last_assistant_text (h : ConversationHistory) : option string :=
  first_nonnull_assistant_content (rev (_messages h)).

(** No assistant message carries the empty text. *)
Definition assistant_texts_nonempty (l : list Message) : Prop :=
  Forall (fun m => m <> MsgAssistant EmptyString) l.

(** ** Correlation of tool turns with invocations *)

(** The invocation ids a message emits. *)
Definition msg_invocation_ids (m : Message) : list string :=
  match m with
  | MsgAssistantToolCalls tcs => map tc_id tcs
  | _ => []
  end.

Definition invocation_ids (l : list Message) : list string :=
  flat_map msg_invocation_ids l.

(** [accept] judges the number of invocation ids seen so far that equal
    the correlation id of a tool turn. *)
Definition tool_turn_ok (accept : nat -> bool) (seen : list string)
           (m : Message) : bool :=
  match m with
  | MsgTool id _ _ => accept (count_occ string_dec seen id)
  | _ => true
  end.

Fixpoint correlated_from (accept : nat -> bool) (seen : list string)
         (l : list Message) : bool :=
  match l with
  | [] => true
  | m :: r =>
      tool_turn_ok accept seen m
      && correlated_from accept (seen ++ msg_invocation_ids m) r
  end.

(** Every tool turn answers at least one preceding invocation id. *)
Definition correlated (l : list Message) : bool :=
  correlated_from (Nat.leb 1) [] l.

(** Every tool turn answers exactly one preceding invocation id. *)
Definition uniquely_correlated (l : list Message) : bool :=
  correlated_from (Nat.eqb 1) [] l.

(** The correlation invariant of a history that trimming has not
    touched: while the history is below its cap, every tool turn answers
    a preceding invocation id, and the ids [pending] (those of the calls
    being dispatched) have been emitted. *)
Definition correlated_below_cap (pending : list string)
           (h : ConversationHistory) : Prop :=
  ConversationHistory_len h < _max_messages h ->
  correlated (_messages h) = true
  /\ incl pending (invocation_ids (_messages h)).

(** A list of messages without the tool turns at its front. *)
Fixpoint drop_tool_turns (l : list Message) : list Message :=
  match l with
  | MsgTool _ _ _ :: r => drop_tool_turns r
  | _ => l
  end.

(** The invocation ids of the block that is open at the end of [l]: the
    ids of the last assistant tool-invocation message when nothing but
    tool turns follows it, and [cur] when [l] holds tool turns only. *)
Fixpoint open_ids (cur : list string) (l : list Message) : list string :=
  match l with
  | [] => cur
  | MsgAssistantToolCalls tcs :: r => open_ids (map tc_id tcs) r
  | MsgTool _ _ _ :: r => open_ids cur r
  | _ :: r => open_ids [] r
  end.

(** Every tool turn carries the id of a call of its own block: of the
    nearest assistant tool-invocation message before it, with nothing
    but tool turns in between.  [cur] holds the ids of the block that
    is open at the start. *)
Fixpoint answered_from (cur : list string) (l : list Message) : bool :=
  match l with
  | [] => true
  | MsgAssistantToolCalls tcs :: r => answered_from (map tc_id tcs) r
  | MsgTool id _ _ :: r =>
      existsb (String.eqb id) cur && answered_from cur r
  | _ :: r => answered_from [] r
  end.

(** The block invariant of the non-system messages [l] of a history:
    behind the tool turns at the front, which trimming may have cut off
    from their block, every tool turn answers its own block; and while
    the calls with the ids [pending] are dispatched, their block is the
    open one, unless trimming has left tool turns only. *)
Definition block_inv (pending : option (list string)) (l : list Message)
  : Prop :=
  answered_from [] (drop_tool_turns l) = true
  /\ match pending with
     | Some ids =>
         drop_tool_turns l = [] \/ open_ids [] (drop_tool_turns l) = ids
     | None => True
     end.

(** ** What [conversation.py] logs *)

(** A record handed to the module's logger: its level and its text. *)
Record LogRecord : Type := mk_log_record {
  levelname : string;
  log_message : string
}.

(** The records of [_trim_if_needed]: its [logger.debug] call, reached
    only when the history is trimmed, is the only logging call of
    [conversation.py]. *)
Definition ConversationHistory_trim_if_needed_log (h : ConversationHistory)
  : list LogRecord :=
  if ConversationHistory_len h <=? _max_messages h then []
  else [mk_log_record
          "DEBUG"
          ("Trimmed conversation to "
           ++ str_of_Z (ConversationHistory_len
                          (ConversationHistory_trim_if_needed h))
           ++ " messages")].

(** The records of [add_tool_result]: those of the trimming it ends
    with. *)
Definition ConversationHistory_add_tool_result_log (h : ConversationHistory)
           (tool_call_id : string) (name : pyval) (content : string)
  : list LogRecord :=
  ConversationHistory_trim_if_needed_log
    (append_message h (MsgTool tool_call_id name content)).

(* ================================================================== *)
(** * The process environment *)

(** The ways [json.loads] fails on a string: the text is not a JSON
    document ([json.JSONDecodeError], a subclass of [ValueError]); an
    integer literal has more digits than [int] converts (a plain
    [ValueError]); containers are nested more deeply than the
    interpreter's recursion limit allows ([RecursionError]).  Each
    carries the text of the exception. *)
Inductive json_error : Type :=
| NotJSON (msg : string)
| IntegerTooLong (msg : string)
| NestingTooDeep (msg : string).

Definition json_error_exn (f : json_error) : exn :=
  match f with
  | NotJSON msg => new_exn JSONDecodeError msg
  | IntegerTooLong msg => new_exn ValueError msg
  | NestingTooDeep msg => new_exn RecursionError msg
  end.

(** What the code takes from the Python runtime and from the process
    environment: [json.loads] on a string, the per-process salted [hash]
    of a string, [repr], and the constant
    [config.AGENT_MAX_RESULT_LENGTH], read from an environment variable
    with default 4000. *)
Class PyEnv : Type := {
  json_loads : string -> pyval + json_error;
  py_hash : string -> Z;
  py_repr : pyval -> string;
  AGENT_MAX_RESULT_LENGTH : Z
}.

(** [str(v)], as an f-string interpolates it. *)
Definition py_str `{PyEnv} (v : pyval) : string :=
  match v with
  | PStr s => s
  | PObj _ s => s
  | _ => py_repr v
  end.

(** The call [json.loads(s)]. *)
Definition json_loads_res `{PyEnv} (s : string) : Res pyval :=
  match json_loads s with
  | inl v => Ok v
  | inr f => Raise (json_error_exn f)
  end.

(** [try: r except classes: h] *)
Definition res_catch {A} (r : Res A) (classes : list exc_class)
           (h : exn -> Res A) : Res A :=
  match r with
  | Raise e =>
      if existsb (issubclass (exc_type e)) classes then h e else Raise e
  | Ok a => Ok a
  end.

(** [k in v] for a string [k]. *)
Definition py_contains (v : pyval) (k : string) : Res bool :=
  match v with
  | PDict kvs => Ok (match dict_get kvs k with Some _ => true | None => false end)
  | PList l =>
      Ok (existsb (fun x => match x with PStr s => String.eqb s k | _ => false end) l)
  | PStr s => Ok (str_contains k s)
  | _ => Raise (new_exn TypeError
                  ("argument of type '" ++ type_name v ++ "' is not iterable"))
  end.

(** [v[k]] for a string [k]. *)
Definition py_getitem (v : pyval) (k : string) : Res pyval :=
  match v with
  | PDict kvs =>
      match dict_get kvs k with
      | Some x => Ok x
      | None => Raise (new_exn (OtherException "KeyError") ("'" ++ k ++ "'"))
      end
  | PList _ =>
      Raise (new_exn TypeError "list indices must be integers or slices, not str")
  | PStr _ =>
      Raise (new_exn TypeError "string indices must be integers, not 'str'")
  | _ => Raise (new_exn TypeError
                  ("'" ++ type_name v ++ "' object is not subscriptable"))
  end.

(** [v.get(k, default)] *)
Definition py_get (v : pyval) (k : string) (default : pyval) : Res pyval :=
  match v with
  | PDict kvs =>
      match dict_get kvs k with
      | Some x => Ok x
      | None => Ok default
      end
  | _ => Raise (new_exn (OtherException "AttributeError")
                  ("'" ++ type_name v ++ "' object has no attribute 'get'"))
  end.

(* ================================================================== *)
(** * [tool.py] and [agent.py] *)

(** A tool call as the backend's typed response carries it. *)
Record NativeToolCall : Type := mk_native_call {
  ntc_id : string;
  ntc_name : string;
  ntc_arguments : string
}.

(** [response.choices[i].message] *)
Record LLMMessage : Type := mk_llm_message {
  msg_content : option string;
  msg_tool_calls : option (list NativeToolCall)
}.

(** The keyword arguments of [client.chat.completions.create]. *)
Record Request : Type := mk_request {
  req_model : string;
  req_messages : list Message;
  req_temperature : pyval;
  req_tools : option (list pyval)
}.

(** Ghost log: every backend call with what it returned or raised, and
    every call of a tool's function with the keyword arguments it
    received. *)
Inductive Event : Type :=
| EvBackendCall (req : Request) (response : Res (list LLMMessage))
| EvToolFunction (tool : string) (kwargs : list (string * pyval)).

Definition is_backend_call (ev : Event) : bool :=
  match ev with
  | EvBackendCall _ _ => true
  | _ => false
  end.

Definition backend_calls (log : list Event) : nat :=
  List.length (filter is_backend_call log).

Definition is_failed_backend_call (ev : Event) : bool :=
  match ev with
  | EvBackendCall _ (Raise _) => true
  | _ => false
  end.

(** Log entries among which no backend call failed. *)
Definition no_failed_call (added : list Event) : Prop :=
  Forall (fun ev => is_failed_backend_call ev = false) added.

(** Log entries among which there is no backend call. *)
Definition no_backend_call (added : list Event) : Prop :=
  Forall (fun ev => is_backend_call ev = false) added.

(** Assignment [d[k] = v] on an insertion-ordered dictionary. *)
Fixpoint dict_set {V} (d : list (string * V)) (k : string) (v : V)
  : list (string * V) :=
  match d with
  | (k', v') :: r =>
      if String.eqb k' k then (k', v) :: r else (k', v') :: dict_set r k v
  | [] => [(k, v)]
  end.

Fixpoint dict_lookup {V} (d : list (string * V)) (k : string) : option V :=
  match d with
  | (k', v) :: r => if String.eqb k' k then Some v else dict_lookup r k
  | [] => None
  end.

Section AgentModel.

(** The world outside the process: what tools and the generation
    backend read and change. *)
Context {W : Type} {env : PyEnv}.

(** ** [Tool] *)

(** The dataclass [Tool].  [function] is the wrapped callable: given the
    keyword arguments it changes the world and returns a value or
    raises. *)
Record Tool : Type := mk_tool {
  name : string;
  description : string;
  parameters : pyval;
  function : list (string * pyval) -> W -> W * Res pyval;
  requires_browser : bool
}.

(** [Tool.to_openai_tool] *)
Definition Tool_to_openai_tool (t : Tool) : pyval :=
  PDict [(PStr "type", PStr "function");
         (PStr "function",
          PDict [(PStr "name", PStr (name t));
                 (PStr "description", PStr (description t));
                 (PStr "parameters", parameters t)])].

(** [Tool.execute], entered with keyword arguments [kwargs]. *)
Definition Tool_execute (t : Tool) (kwargs : list (string * pyval)) (w : W)
  : W * Res string :=
  let (w', result) := function t kwargs w in
  let body :=
    res_bind result (fun result =>
      match result with
      | PStr s => Ok s
      | _ => json_dumps true (Some 2%nat) result
      end) in
  (w', res_catch body [Exception]
         (fun e => Ok ("Error executing " ++ name t ++ ": " ++ exc_str e))).

(** ** [ToolRegistry] *)

Record ToolRegistry : Type := mk_registry {
  _tools : list (string * Tool)
}.

Definition ToolRegistry_init : ToolRegistry := mk_registry [].

Definition ToolRegistry_register (r : ToolRegistry) (t : Tool) : ToolRegistry :=
  mk_registry (dict_set (_tools r) (name t) t).

(** [ToolRegistry.get]: a lookup with an unhashable key raises. *)
Definition ToolRegistry_get (r : ToolRegistry) (key : pyval)
  : Res (option Tool) :=
  match key with
  | PStr k => Ok (dict_lookup (_tools r) k)
  | PList _ | PDict _ =>
      Raise (new_exn TypeError ("unhashable type: '" ++ type_name key ++ "'"))
  | _ => Ok None
  end.

Definition ToolRegistry_list_tools (r : ToolRegistry) : list Tool :=
  map snd (_tools r).

Definition ToolRegistry_to_openai_tools (r : ToolRegistry) : list pyval :=
  map (fun kv => Tool_to_openai_tool (snd kv)) (_tools r).

Definition ToolRegistry_len (r : ToolRegistry) : Z :=
  Z.of_nat (List.length (_tools r)).

(** ** [Agent] *)

(** The generation backend behind [self.client]: a request changes the
    world and yields the messages of the response's choices, or
    raises. *)
Definition Backend : Type := Request -> W -> W * Res (list LLMMessage).

(** The observers are host callbacks whose return value is ignored; they
    are taken to return normally, so they act on the world only. *)
Record Agent : Type := mk_agent {
  model : string;
  temperature : pyval;
  max_iterations : Z;
  on_tool_start : option (pyval -> pyval -> W -> W);
  on_tool_end : option (pyval -> string -> W -> W);
  on_thinking : option (string -> W -> W);
  client : Backend;
  registry : ToolRegistry;
  conversation : ConversationHistory
}.

(** [Agent.__init__] *)
Definition Agent_init (tools : option (list Tool)) (system_prompt : string)
           (model : string) (client : Backend) (temperature : pyval)
           (max_iterations max_history : Z)
           (on_tool_start : option (pyval -> pyval -> W -> W))
           (on_tool_end : option (pyval -> string -> W -> W))
           (on_thinking : option (string -> W -> W)) : Agent :=
  mk_agent model temperature max_iterations
           on_tool_start on_tool_end on_thinking client
           (fold_left ToolRegistry_register
                      (match tools with Some ts => ts | None => [] end)
                      ToolRegistry_init)
           (ConversationHistory_init (Some system_prompt) max_history).

Definition set_conversation (a : Agent) (h : ConversationHistory) : Agent :=
  mk_agent (model a) (temperature a) (max_iterations a)
           (on_tool_start a) (on_tool_end a) (on_thinking a) (client a)
           (registry a) h.

(** [Agent.add_tool] *)
Definition Agent_add_tool (a : Agent) (t : Tool) : Agent :=
  mk_agent (model a) (temperature a) (max_iterations a)
           (on_tool_start a) (on_tool_end a) (on_thinking a) (client a)
           (ToolRegistry_register (registry a) t) (conversation a).

(** [Agent.reset] *)
Definition Agent_reset (a : Agent) : Agent :=
  set_conversation a (ConversationHistory_clear (conversation a)).

(** [Agent.get_history] *)
Definition Agent_get_history (a : Agent) : list Message :=
  messages (conversation a).

(** ** The state one [chat] call runs in *)

Record LoopState : Type := mk_state {
  st_conv : ConversationHistory;
  st_world : W;
  st_log : list Event
}.

Definition M (A : Type) : Type := LoopState -> Res A * LoopState.

Definition ret {A} (a : A) : M A := fun st => (Ok a, st).

Definition bind {A B} (m : M A) (k : A -> M B) : M B :=
  fun st =>
    match m st with
    | (Ok a, st') => k a st'
    | (Raise e, st') => (Raise e, st')
    end.

Definition raise {A} (e : exn) : M A := fun st => (Raise e, st).

Definition lift {A} (r : Res A) : M A := fun st => (r, st).

(** [try: m except classes: h] *)
Definition catch {A} (m : M A) (classes : list exc_class) (h : exn -> M A)
  : M A :=
  fun st =>
    match m st with
    | (Raise e, st') =>
        if existsb (issubclass (exc_type e)) classes then h e st'
        else (Raise e, st')
    | r => r
    end.

Definition get_conv : M ConversationHistory := fun st => (Ok (st_conv st), st).

Definition update_conv (f : ConversationHistory -> ConversationHistory)
  : M unit :=
  fun st => (Ok tt, mk_state (f (st_conv st)) (st_world st) (st_log st)).

Definition in_world {A} (f : W -> W * Res A) : M A :=
  fun st =>
    let (w', r) := f (st_world st) in
    (r, mk_state (st_conv st) w' (st_log st)).

Definition observe (f : option (W -> W)) : M unit :=
  match f with
  | Some cb => in_world (fun w => (cb w, Ok tt))
  | None => ret tt
  end.

Definition log_event (ev : Event) : M unit :=
  fun st => (Ok tt, mk_state (st_conv st) (st_world st) (st_log st ++ [ev])).

(** [triple m st Q]: running [m] from [st] ends in an outcome and a
    state related by [Q]. *)
Definition triple {A} (m : M A) (st : LoopState)
           (Q : Res A -> LoopState -> Prop) : Prop :=
  Q (fst (m st)) (snd (m st)).

Notation "x <- m ;; k" := (bind m (fun x => k))
  (at level 61, m at next level, right associativity).
Notation "m ;;; k" := (bind m (fun _ => k))
  (at level 61, right associativity).

(** ** [Agent._parse_tool_calls] *)

Definition native_to_tool_call (tc : NativeToolCall) : ToolCall :=
  mk_tool_call (ntc_id tc) (PStr (ntc_name tc)) (PStr (ntc_arguments tc)).

(** The body of the [try] of the textual fallback, once [json_str] has
    been cut out. *)
Definition parse_json_text_tool_call (json_str : string)
  : Res (option (list ToolCall)) :=
  res_bind (json_loads_res json_str) (fun parsed =>
  res_bind (py_contains parsed "name") (fun has_name =>
  res_bind (if has_name
            then res_bind (py_contains parsed "parameters") (fun has_params =>
                   if has_params then Ok true
                   else py_contains parsed "arguments")
            else Ok false) (fun is_tool_call =>
  if is_tool_call then
    res_bind (py_getitem parsed "name") (fun tool_name =>
    res_bind (py_get parsed "arguments" (PDict [])) (fun dflt =>
    res_bind (py_get parsed "parameters" dflt) (fun tool_args =>
    res_bind (match tool_args with
              | PDict _ =>
                  res_bind (json_dumps false None tool_args)
                           (fun s => Ok (PStr s))
              | _ => Ok tool_args
              end) (fun args_str =>
    Ok (Some [mk_tool_call
                ("call_" ++ str_of_Z (Z.abs (py_hash json_str) mod 100000))
                tool_name args_str])))))
  else Ok None))).

Definition Agent_parse_tool_calls (message : LLMMessage)
  : Res (option (list ToolCall)) :=
  match msg_tool_calls message with
  | Some ((_ :: _) as tcs) => Ok (Some (map native_to_tool_call tcs))
  | _ =>
      match msg_content message with
      | Some (String _ _ as c) =>
          let content := strip c in
          let json_start := find content "{" in
          let json_end := rfind content "}" in
          if negb (json_start =? -1) && negb (json_end =? -1)
             && (json_start <? json_end)
          then
            let json_str := str_slice content json_start (json_end + 1) in
            res_catch (parse_json_text_tool_call json_str)
                      [JSONDecodeError; ValueError]
                      (fun _ => Ok None)
          else Ok None
      | _ => Ok None
      end
  end.

(** ** [Agent._run_loop] *)

(** The argument payload of a tool call, decoded when it is a string:
    [json.loads] under [except json.JSONDecodeError], whose handler
    puts the empty mapping in place of the payload.  Any other
    exception of [json.loads] leaves the loop. *)
Definition decode_arguments (args : pyval) : Res pyval :=
  match args with
  | PStr s =>
      res_catch (json_loads_res s) [JSONDecodeError] (fun _ => Ok (PDict []))
  | _ => Ok args
  end.

(** The call [tool.execute( **args )]: the unpacking of [args] happens
    at the call site, before [Tool.execute] is entered. *)
Definition call_tool_execute (t : Tool) (args : pyval) : M string :=
  match args with
  | PDict kvs =>
      match keywords kvs with
      | Some kwargs =>
          if existsb (fun kv => String.eqb (fst kv) "self") kwargs
          then raise (new_exn TypeError
                 "Tool.execute() got multiple values for argument 'self'")
          else
            log_event (EvToolFunction (name t) kwargs) ;;;
            in_world (Tool_execute t kwargs)
      | None => raise (new_exn TypeError "keywords must be strings")
      end
  | _ => raise (new_exn TypeError
                  ("local_llm.agent.tool.Tool.execute() argument after ** must be a mapping, not "
                   ++ type_name args))
  end.

Definition unknown_tool_result (r : ToolRegistry) (tool_name : pyval) : string :=
  "Error: Unknown tool '" ++ py_str tool_name ++ "'. Available tools: "
  ++ py_repr (PList (map (fun t => PStr (name t)) (ToolRegistry_list_tools r))).

(** The truncation of a tool result. *)
Definition truncate_result (result : string) : string :=
  if AGENT_MAX_RESULT_LENGTH <? py_len result
  then str_slice_to result AGENT_MAX_RESULT_LENGTH
       ++ nl ++ "... [truncated, " ++ str_of_Z (py_len result) ++ " chars total]"
  else result.

(** Lookup and execution: the [if tool: ... else: ...] of the loop. *)
Definition lookup_and_execute (a : Agent) (tool_name args : pyval) : M string :=
  tool <- lift (ToolRegistry_get (registry a) tool_name) ;;
  match tool with
  | Some t => call_tool_execute t args
  | None => ret (unknown_tool_result (registry a) tool_name)
  end.

(** Truncation, the second observer, and the append of the tool turn. *)
Definition record_tool_result (a : Agent) (tc : ToolCall) (result : string)
  : M unit :=
  let result := truncate_result result in
  observe (option_map (fun cb => cb (tc_name tc) result) (on_tool_end a)) ;;;
  update_conv (fun h =>
    ConversationHistory_add_tool_result h (tc_id tc) (tc_name tc) result).

(** One turn of [for tc in tool_calls]. *)
Definition execute_tool_call (a : Agent) (tc : ToolCall) : M unit :=
  let tool_name := tc_name tc in
  args <- lift (decode_arguments (tc_arguments tc)) ;;
  observe (option_map (fun cb => cb tool_name args) (on_tool_start a)) ;;;
  result <- lookup_and_execute a tool_name args ;;
  record_tool_result a tc result.

Fixpoint execute_tool_calls (a : Agent) (tcs : list ToolCall) : M unit :=
  match tcs with
  | tc :: r => execute_tool_call a tc ;;; execute_tool_calls a r
  | [] => ret tt
  end.

(** The backend call itself, entered in the ghost log. *)
Definition backend_call (a : Agent) (req : Request) : M (list LLMMessage) :=
  fun st =>
    let (w', r) := client a req (st_world st) in
    (r, mk_state (st_conv st) w' (st_log st ++ [EvBackendCall req r])).

(** [self.client.chat.completions.create( **kwargs )] under its [try]. *)
Definition call_llm (a : Agent) (req : Request) : M (list LLMMessage) :=
  catch (backend_call a req)
        [Exception]
        (fun e => raise (new_exn_handling e CompletionError
                           ("LLM call failed: " ++ exc_str e))).

(** [response.choices[0].message] *)
Definition first_choice (choices : list LLMMessage) : Res LLMMessage :=
  match choices with
  | m :: _ => Ok m
  | [] => Raise (new_exn IndexError "list index out of range")
  end.

(** The iterations of [for iteration in range(self.max_iterations)] that
    remain, [n] of them, followed by the [raise] after the loop. *)
Fixpoint run_iterations (a : Agent) (openai_tools : option (list pyval))
         (n : nat) : M string :=
  match n with
  | O => raise (new_exn MaxIterationsError
                  ("Agent exceeded " ++ str_of_Z (max_iterations a)
                   ++ " iterations"))
  | S n' =>
      h <- get_conv ;;
      let req := mk_request (model a) (messages h) (temperature a)
                   (match openai_tools with
                    | Some ((_ :: _) as ts) => Some ts
                    | _ => None
                    end) in
      choices <- call_llm a req ;;
      message <- lift (first_choice choices) ;;
      tool_calls <- lift (Agent_parse_tool_calls message) ;;
      match tool_calls with
      | Some ((_ :: _) as tcs) =>
          update_conv (fun h =>
            ConversationHistory_add_assistant_tool_calls
              h (MsgAssistantToolCalls tcs)) ;;;
          execute_tool_calls a tcs ;;;
          run_iterations a openai_tools n'
      | _ =>
          let final_content :=
            match msg_content message with
            | Some c => c
            | None => EmptyString
            end in
          match final_content with
          | String _ _ =>
              update_conv (fun h =>
                ConversationHistory_add_assistant_message h final_content)
          | EmptyString => ret tt
          end ;;;
          ret (strip final_content)
      end
  end.

Definition Agent_run_loop (a : Agent) : M string :=
  let openai_tools :=
    if 0 <? ToolRegistry_len (registry a)
    then Some (ToolRegistry_to_openai_tools (registry a))
    else None in
  run_iterations a openai_tools (Z.to_nat (max_iterations a)).

(** ** [Agent.chat] *)

Definition stopped_notice : string :=
  nl ++ nl ++ "[Stopped: reached maximum tool iterations]".

Definition no_answer_message : string :=
  "[Agent reached maximum iterations without producing a final answer. Please try rephrasing your question.]".

(** The two handlers of [chat], applied to what [_run_loop] raised. *)
Definition chat_handlers (r : Res string) (h : ConversationHistory)
  : Res string :=
  match r with
  | Ok s => Ok s
  | Raise e =>
      if issubclass (exc_type e) MaxIterationsError then
        match ConversationHistory_get_last_assistant_content h with
        | Some (String _ _ as last) => Ok (last ++ stopped_notice)
        | _ => Ok no_answer_message
        end
      else if issubclass (exc_type e) Exception then
        Raise (new_exn_handling e AgentError ("Agent failed: " ++ exc_str e))
      else Raise e
  end.

(** What a [chat] call leaves behind: its outcome, the agent with its
    updated conversation, the world, and the ghost log of the call. *)
Record ChatRun : Type := mk_run {
  run_result : Res string;
  run_agent : Agent;
  run_world : W;
  run_log : list Event
}.

Definition Agent_chat (a : Agent) (message : string) (w : W) : ChatRun :=
  let st0 := mk_state
               (ConversationHistory_add_user_message (conversation a) message)
               w [] in
  let (r, st) := Agent_run_loop a st0 in
  mk_run (chat_handlers r (st_conv st))
         (set_conversation a (st_conv st))
         (st_world st) (st_log st).

(** [ToolRegistry.__contains__]: membership of an unhashable key
    raises, as the lookup does. *)
Definition ToolRegistry_contains (r : ToolRegistry) (key : pyval) : Res bool :=
  match key with
  | PStr k => Ok (existsb (fun kv => String.eqb (fst kv) k) (_tools r))
  | PList _ | PDict _ =>
      Raise (new_exn TypeError ("unhashable type: '" ++ type_name key ++ "'"))
  | _ => Ok false
  end.

(** The keys of the registry, in insertion order. *)
Definition registry_keys (r : ToolRegistry) : list string :=
  map fst (_tools r).

(** What every registry filled through [register] satisfies: no key
    occurs twice, and every tool is stored under its own name. *)
Definition registry_wf (r : ToolRegistry) : Prop :=
  NoDup (registry_keys r)
  /\ Forall (fun kv => fst kv = name (snd kv)) (_tools r).


(** The request that an iteration of [_run_loop] sends when the history
    is [h]: the [tools] field is left out for an empty registry. *)
Definition chat_request (a : Agent) (h : ConversationHistory) : Request :=
  mk_request (model a) (messages h) (temperature a)
             (if 0 <? ToolRegistry_len (registry a)
              then Some (ToolRegistry_to_openai_tools (registry a))
              else None).

(** The agents that the operations of [Agent] produce. *)
Inductive reachable : Agent -> Prop :=
| reach_init tools system_prompt model client temperature
             max_iterations max_history on_start on_end on_think :
    reachable (Agent_init tools system_prompt model client temperature
                          max_iterations max_history on_start on_end on_think)
| reach_chat a message w :
    reachable a -> reachable (run_agent (Agent_chat a message w))
| reach_reset a :
    reachable a -> reachable (Agent_reset a)
| reach_add_tool a t :
    reachable a -> reachable (Agent_add_tool a t).

End AgentModel.

Arguments Tool : clear implicits.
Arguments ToolRegistry : clear implicits.
Arguments Backend : clear implicits.
Arguments Agent : clear implicits.
Arguments LoopState : clear implicits.
Arguments M : clear implicits.
Arguments ChatRun : clear implicits.

Notation "x <- m ;; k" := (bind m (fun x => k))
  (at level 61, m at next level, right associativity).
Notation "m ;;; k" := (bind m (fun _ => k))
  (at level 61, right associativity).

(* ================================================================== *)
(** * A concrete environment, to run the code on examples *)

(** [json_loads_subset] decodes the JSON documents made of objects,
    arrays, strings with the two-character escapes, integer literals and
    [true], [false], [null], and on those returns what [json.loads]
    returns or raises: a value; [ValueError] for an integer literal of
    more than 4300 digits; [RecursionError] where containers are nested
    more deeply than the recursion limit leaves room for.  Every other
    text is reported as undecodable, under one text for all
    [json.JSONDecodeError]s: both handlers of the code discard it.  It
    is used only to evaluate the code on concrete texts of that
    fragment. *)

Definition is_json_ws (c : ascii) : bool :=
  let n := nat_of_ascii c in
  ((n =? 32) || (n =? 9) || (n =? 10) || (n =? 13))%nat.

Fixpoint skip_ws (s : string) : string :=
  match s with
  | String c r => if is_json_ws c then skip_ws r else s
  | EmptyString => EmptyString
  end.

Definition simple_escape (c : ascii) : option ascii :=
  let n := nat_of_ascii c in
  if Ascii.eqb c dquote then Some dquote
  else if Ascii.eqb c "\"%char then Some "\"%char
  else if Ascii.eqb c "/"%char then Some "/"%char
  else if Ascii.eqb c "n"%char then Some "010"%char
  else if Ascii.eqb c "t"%char then Some "009"%char
  else if Ascii.eqb c "r"%char then Some "013"%char
  else if Ascii.eqb c "b"%char then Some "008"%char
  else if Ascii.eqb c "f"%char then Some "012"%char
  else None.

(** The characters of a string literal after its opening quote, and the
    text after its closing quote. *)
Fixpoint parse_string_body (s : string) : option (string * string) :=
  match s with
  | EmptyString => None
  | String c r =>
      if Ascii.eqb c dquote then Some (EmptyString, r)
      else if Ascii.eqb c "\"%char then
        match r with
        | String e r' =>
            match simple_escape e, parse_string_body r' with
            | Some ch, Some (body, rest) => Some (String ch body, rest)
            | _, _ => None
            end
        | EmptyString => None
        end
      else if (nat_of_ascii c <? 32)%nat then None
      else
        match parse_string_body r with
        | Some (body, rest) => Some (String c body, rest)
        | None => None
        end
  end.

Definition digit_value (c : ascii) : option Z :=
  let n := nat_of_ascii c in
  if ((48 <=? n) && (n <=? 57))%nat then Some (Z.of_nat (n - 48)) else None.

Fixpoint parse_digits (s : string) (acc : Z) : Z * string :=
  match s with
  | String c r =>
      match digit_value c with
      | Some d => parse_digits r (10 * acc + d)
      | None => (acc, s)
      end
  | EmptyString => (acc, s)
  end.

Definition starts_number_tail (s : string) : bool :=
  match s with
  | String c _ =>
      Ascii.eqb c "."%char || Ascii.eqb c "e"%char || Ascii.eqb c "E"%char
  | EmptyString => false
  end.

(** An integer literal without sign: no leading zero, no fraction, no
    exponent. *)
Definition parse_nat_literal (s : string) : option (Z * string) :=
  match s with
  | String c r =>
      match digit_value c with
      | Some 0 =>
          match r with
          | String c' _ =>
              match digit_value c' with
              | Some _ => None
              | None => if starts_number_tail r then None else Some (0, r)
              end
          | EmptyString => Some (0, r)
          end
      | Some _ =>
          let (z, rest) := parse_digits s 0 in
          if starts_number_tail rest then None else Some (z, rest)
      | None => None
      end
  | EmptyString => None
  end.

Fixpoint pdict_set (kvs : list (pyval * pyval)) (k : string) (v : pyval)
  : list (pyval * pyval) :=
  match kvs with
  | (PStr k', v') :: r =>
      if String.eqb k' k then (PStr k', v) :: r
      else (PStr k', v') :: pdict_set r k v
  | kv :: r => kv :: pdict_set r k v
  | [] => [(PStr k, v)]
  end.

Definition strip_prefix (p s : string) : option string :=
  if String.prefix p s
  then Some (substring (String.length p) (String.length s - String.length p) s)
  else None.

(** The outcome of parsing a prefix of a text: a result and the rest of
    the text, or the failure of the whole decode. *)
Inductive Parse (A : Type) : Type :=
| Parsed (a : A) (rest : string)
| Failed (f : json_error).
Arguments Parsed {A} a rest.
Arguments Failed {A} f.

Definition not_json {A} : Parse A := Failed (NotJSON "Expecting value").

(** [int(literal)] on the digits between [s] and [rest], [sign] being
    [1] or [-1]. *)
Definition int_of_literal (sign z : Z) (s rest : string) : Parse pyval :=
  let digits := py_len s - py_len rest in
  if digits <=? int_max_str_digits
  then Parsed (PInt (sign * z)) rest
  else Failed (IntegerTooLong
                 ("Exceeds the limit (4300 digits) for integer string conversion: value has "
                  ++ str_of_Z digits
                  ++ " digits; use sys.set_int_max_str_digits() to increase the limit")).

Definition too_deep (container : string) : json_error :=
  NestingTooDeep ("maximum recursion depth exceeded while decoding a JSON "
                  ++ container ++ " from a unicode string").

(** [room] is the number of nested containers that the recursion limit
    still allows; [fuel] bounds the recursion of the model and is never
    exhausted on a text shorter than it. *)
Fixpoint parse_value (fuel room : nat) (s : string) : Parse pyval :=
  match fuel with
  | O => not_json
  | S fuel' =>
      match skip_ws s with
      | String c r =>
          if Ascii.eqb c "{"%char then
            match room with
            | O => Failed (too_deep "object")
            | S room' =>
                match skip_ws r with
                | String "}"%char rest => Parsed (PDict []) rest
                | r' => parse_members fuel' room' r' []
                end
            end
          else if Ascii.eqb c "["%char then
            match room with
            | O => Failed (too_deep "array")
            | S room' =>
                match skip_ws r with
                | String "]"%char rest => Parsed (PList []) rest
                | r' => parse_elements fuel' room' r' []
                end
            end
          else if Ascii.eqb c dquote then
            match parse_string_body r with
            | Some (body, rest) => Parsed (PStr body) rest
            | None => not_json
            end
          else if Ascii.eqb c "-"%char then
            match parse_nat_literal r with
            | Some (z, rest) => int_of_literal (-1) z r rest
            | None => not_json
            end
          else
            match strip_prefix "true" (String c r),
                  strip_prefix "false" (String c r),
                  strip_prefix "null" (String c r) with
            | Some rest, _, _ => Parsed (PBool true) rest
            | _, Some rest, _ => Parsed (PBool false) rest
            | _, _, Some rest => Parsed PNone rest
            | _, _, _ =>
                match parse_nat_literal (String c r) with
                | Some (z, rest) => int_of_literal 1 z (String c r) rest
                | None => not_json
                end
            end
      | EmptyString => not_json
      end
  end

with parse_elements (fuel room : nat) (s : string) (acc : list pyval)
  : Parse pyval :=
  match fuel with
  | O => not_json
  | S fuel' =>
      match parse_value fuel' room s with
      | Parsed v rest =>
          match skip_ws rest with
          | String ","%char rest' =>
              parse_elements fuel' room rest' (acc ++ [v])
          | String "]"%char rest' => Parsed (PList (acc ++ [v])) rest'
          | _ => not_json
          end
      | Failed f => Failed f
      end
  end

with parse_members (fuel room : nat) (s : string) (acc : list (pyval * pyval))
  : Parse pyval :=
  match fuel with
  | O => not_json
  | S fuel' =>
      match skip_ws s with
      | String c r =>
          if Ascii.eqb c dquote then
            match parse_string_body r with
            | Some (key, rest) =>
                match skip_ws rest with
                | String ":"%char rest' =>
                    match parse_value fuel' room rest' with
                    | Parsed v rest'' =>
                        match skip_ws rest'' with
                        | String ","%char more =>
                            parse_members fuel' room more (pdict_set acc key v)
                        | String "}"%char more =>
                            Parsed (PDict (pdict_set acc key v)) more
                        | _ => not_json
                        end
                    | Failed f => Failed f
                    end
                | _ => not_json
                end
            | None => not_json
            end
          else not_json
      | EmptyString => not_json
      end
  end.

(** The nesting that the recursion limit (1000 by default) leaves to the
    decoder in the example process; it depends on the depth of the call
    stack at the call of [chat]. *)
Definition example_nesting_room : nat := 990.

Definition json_loads_subset (s : string) : pyval + json_error :=
  match parse_value (2 * String.length s + 2) example_nesting_room s with
  | Parsed v rest =>
      match skip_ws rest with
      | EmptyString => inl v
      | _ => inr (NotJSON "Extra data")
      end
  | Failed f => inr f
  end.

(** A string written with apostrophes in place of double quotes. *)
Fixpoint dq (s : string) : string :=
  match s with
  | String c r => String (if Ascii.eqb c "'"%char then dquote else c) (dq r)
  | EmptyString => EmptyString
  end.

(** [repr] on the values the examples print: strings that need no
    escape, and lists of them. *)
Fixpoint example_repr (v : pyval) : string :=
  match v with
  | PNone => "None"
  | PBool true => "True"
  | PBool false => "False"
  | PInt z => str_of_Z z
  | PFloat r => r
  | PStr s => "'" ++ s ++ "'"
  | PList l => "[" ++ join ", " (map example_repr l) ++ "]"
  | PDict _ => "{...}"
  | PObj cls _ => "<" ++ cls ++ " object>"
  end.

(** A stand-in for the string hash of one process. *)
Fixpoint example_hash (s : string) : Z :=
  match s with
  | String c r => (Z.of_nat (nat_of_ascii c) + 31 * example_hash r) mod 1000003
  | EmptyString => 7
  end.

Definition example_env : PyEnv := {|
  json_loads := json_loads_subset;
  py_hash := example_hash;
  py_repr := example_repr;
  AGENT_MAX_RESULT_LENGTH := 4000
|}.

(** ** Example tools, backends and agents

    The example world is the number of backend requests served so far. *)

Definition web_search_tool : Tool nat :=
  mk_tool "web_search" "Search the web."
    (PDict [(PStr "type", PStr "object");
            (PStr "properties",
             PDict [(PStr "query", PDict [(PStr "type", PStr "string")])]);
            (PStr "required", PList [PStr "query"])])
    (fun kwargs w =>
       (w, match kwargs with
           | [("query", PStr q)] => Ok (PStr ("results for " ++ q))
           | _ => Raise (new_exn TypeError
                           "web_search() missing 1 required positional argument: 'query'")
           end))
    false.

Definition example_agent (client : Backend nat) (max_iterations max_history : Z)
  : Agent nat :=
  Agent_init (Some [web_search_tool]) "You are a helpful assistant."
             "llama3.1:8b" client (PFloat "0.1") max_iterations max_history
             None None None.

(** A backend that answers every request with one structured call of
    [web_search] whose argument payload is the JSON array [[1]]. *)
Definition backend_array_arguments : Backend nat :=
  fun _ w =>
    (S w, Ok [mk_llm_message None
                (Some [mk_native_call "call_1" "web_search" "[1]"])]).

(** A backend that answers every request with the same free text, a
    JSON object naming [web_search]. *)
Definition web_search_text : string :=
  dq "{'name': 'web_search', 'parameters': {'query': 'x'}}".

Definition backend_text_call : Backend nat :=
  fun _ w => (S w, Ok [mk_llm_message (Some web_search_text) None]).

(** A backend whose transport fails. *)
Definition backend_unreachable : Backend nat :=
  fun _ w =>
    (S w, Raise (new_exn (OtherException "APIConnectionError") "Connection error.")).

(** A backend whose response has no choices. *)
Definition backend_no_choices : Backend nat :=
  fun _ w => (S w, Ok []).

(** A backend whose message has neither content nor tool calls. *)
Definition backend_silent : Backend nat :=
  fun _ w => (S w, Ok [mk_llm_message None None]).

(** A backend that first answers in plain text and from then on asks
    for [web_search] with a payload that is not JSON. *)
Definition backend_text_then_calls : Backend nat :=
  fun _ w =>
    (S w,
     match w with
     | O => Ok [mk_llm_message (Some "Hello!") None]
     | _ => Ok [mk_llm_message None
                  (Some [mk_native_call "call_7" "web_search" "query=x"])]
     end).

(** The environment of a process started with
    [AGENT_MAX_RESULT_LENGTH=5]. *)
Definition short_cap_env : PyEnv := {|
  json_loads := json_loads_subset;
  py_hash := example_hash;
  py_repr := example_repr;
  AGENT_MAX_RESULT_LENGTH := 5
|}.

(** ** Example runs of [chat] *)

Definition run_array_arguments : ChatRun nat :=
  Agent_chat (env := example_env)
             (example_agent backend_array_arguments 10 100) "hi" 0%nat.

Definition run_text_call : ChatRun nat :=
  Agent_chat (env := example_env)
             (example_agent backend_text_call 2 100) "hi" 0%nat.

Definition run_unreachable : ChatRun nat :=
  Agent_chat (env := example_env)
             (example_agent backend_unreachable 10 100) "hi" 0%nat.

Definition run_no_choices : ChatRun nat :=
  Agent_chat (env := example_env)
             (example_agent backend_no_choices 10 100) "hi" 0%nat.

Definition run_silent : ChatRun nat :=
  Agent_chat (env := example_env)
             (example_agent backend_silent 10 100) "hi" 0%nat.

Definition run_hello : ChatRun nat :=
  Agent_chat (env := example_env)
             (example_agent backend_text_then_calls 2 100) "hi" 0%nat.

Definition example_state : LoopState nat :=
  mk_state (conversation (example_agent backend_text_call 2 100)) 0%nat [].

(* ================================================================== *)
(** * [scrappers/tools/__init__.py]: the default tools *)

Section DefaultTools.

Context {W : Type}.

(** The tool functions of [web_search.py], [fetch_page.py],
    [extract_links.py], [analyze_data.py], [browse_page.py] and
    [query_copart.py]: they reach the network, a browser or the model,
    and are taken as they come. *)
Variable web_search : list (string * pyval) -> W -> W * Res pyval.
Variable fetch_page : list (string * pyval) -> W -> W * Res pyval.
Variable extract_links : list (string * pyval) -> W -> W * Res pyval.
Variable analyze_data : list (string * pyval) -> W -> W * Res pyval.
Variable browse_page : list (string * pyval) -> W -> W * Res pyval.
Variable query_copart : list (string * pyval) -> W -> W * Res pyval.

(** [_make_tool] *)
Definition make_tool (name description : string) (parameters : pyval)
           (function : list (string * pyval) -> W -> W * Res pyval)
           (requires_browser : bool) : Tool W :=
  mk_tool name description parameters function requires_browser.

(** A JSON-Schema object with the given properties and required names. *)
Definition schema_object (properties : list (pyval * pyval))
           (required : list string) : pyval :=
  PDict [(PStr "type", PStr "object");
         (PStr "properties", PDict properties);
         (PStr "required", PList (map PStr required))].

Definition schema_property (type description : string) : pyval :=
  PDict [(PStr "type", PStr type); (PStr "description", PStr description)].

Definition schema_property_default (type description : string)
           (default : pyval) : pyval :=
  PDict [(PStr "type", PStr type); (PStr "description", PStr description);
         (PStr "default", default)].

(** [get_default_tools] *)
Definition get_default_tools (include_browser_tools include_copart : bool)
  : list (Tool W) :=
  ([make_tool "web_search"
      "Search the web using DuckDuckGo when the user explicitly asks to search OR when you need very recent/current information you don't have. Returns titles, URLs, and snippets."
      (schema_object
         [(PStr "query", schema_property "string" "The search query");
          (PStr "max_results",
           schema_property_default "integer"
             "Maximum results to return (default 5, max 10)" (PInt 5))]
         ["query"])
      web_search false;
    make_tool "fetch_page"
      "Fetch a web page and extract its text content. Best for articles, documentation, and static pages. Use browse_page instead for JavaScript-heavy sites."
      (schema_object
         [(PStr "url", schema_property "string" "The URL to fetch");
          (PStr "extract_mode",
           schema_property_default "string"
             "How to extract: 'text' (default), 'html', or 'summary'"
             (PStr "text"))]
         ["url"])
      fetch_page false;
    make_tool "extract_links"
      "Extract all links from a web page. Useful for finding specific pages, navigation, or discovering content on a site."
      (schema_object
         [(PStr "url",
           schema_property "string" "The URL to extract links from");
          (PStr "filter_pattern",
           schema_property_default "string"
             "Optional keyword to filter links" (PStr EmptyString))]
         ["url"])
      extract_links false;
    make_tool "analyze_data"
      "Analyze data (JSON, CSV, or text) and answer questions about it. Good for summarizing, finding patterns, or comparing values."
      (schema_object
         [(PStr "data", schema_property "string" "The data to analyze");
          (PStr "question",
           schema_property "string" "Question to answer about the data")]
         ["data"; "question"])
      analyze_data false]
   ++ (if include_browser_tools
       then [make_tool "browse_page"
               "Open a URL in a headless browser with JavaScript support. Use for JS-heavy sites, SPAs, or dynamically loaded content. Slower than fetch_page."
               (schema_object
                  [(PStr "url", schema_property "string" "The URL to browse");
                   (PStr "wait_seconds",
                    schema_property_default "integer"
                      "Seconds to wait for JS rendering (default 3)" (PInt 3))]
                  ["url"])
               browse_page true]
       else [])
   ++ (if include_copart
       then [make_tool "query_copart"
               "Query the Copart data portal using natural language. Converts to SQL and executes. Requires manual login."
               (schema_object
                  [(PStr "query",
                    schema_property "string"
                      "Natural language query about Copart data");
                   (PStr "database_name",
                    schema_property "string"
                      "Specific database to select (optional)")]
                  ["query"])
               query_copart true]
       else []))%list.

End DefaultTools.

(** ** Further example inputs *)

(** A tool whose function ends the process with [sys.exit(1)]. *)
Definition exit_tool : Tool nat :=
  mk_tool "exit" "Stop the process."
    (PDict [(PStr "type", PStr "object"); (PStr "properties", PDict [])])
    (fun _ w => (w, Raise (new_exn SystemExit "1")))
    false.

(** A value with a member of every kind, and the text that
    [json.dumps(value, default=str, indent=2)] returns for it.  The
    second string holds a backslash, a newline, a tab, and the
    characters with the codes 1, 127 and 233. *)
Definition example_tool_value : pyval :=
  PDict [(PStr "n", PInt (-12));
         (PStr "xs", PList [PNone; PBool true; PBool false; PFloat "2.5";
                            PFloat "inf"; PFloat "-inf"; PStr (dq "a'b");
                            PStr ("\" ++ nl
                                  ++ String "009"%char
                                       (String "001"%char
                                          (String "127"%char
                                             (String "233"%char
                                                EmptyString))))]);
         (PStr "o", PObj "date" "2024-01-01");
         (PStr "e", PList []);
         (PStr "d", PDict []);
         (PInt 7, PDict [(PStr "k", PFloat "nan")])].

Definition example_tool_value_json : string :=
  dq (join nl ["{";
               "  'n': -12,";
               "  'xs': [";
               "    null,";
               "    true,";
               "    false,";
               "    2.5,";
               "    Infinity,";
               "    -Infinity,";
               "    'a\'b',";
               "    '\\\n\t\u0001\u007f\u00e9'";
               "  ],";
               "  'o': '2024-01-01',";
               "  'e': [],";
               "  'd': {},";
               "  '7': {";
               "    'k': NaN";
               "  }";
               "}"]).


(** A history with a system prompt and one user message, at its cap of
    two, and the same history with one message too many. *)
Definition example_history : ConversationHistory :=
  ConversationHistory_add_user_message
    (ConversationHistory_init (Some "s") 2) "a".

Definition example_history_over_cap : ConversationHistory :=
  append_message example_history (MsgUser "b").

(** The first request of a [chat] call with the message [hi] on an
    example agent. *)
Definition example_request : Request :=
  mk_request "llama3.1:8b"
             [MsgSystem "You are a helpful assistant."; MsgUser "hi"]
             (PFloat "0.1")
             (Some [Tool_to_openai_tool web_search_tool]).

Definition example_web_search_call : ToolCall :=
  mk_tool_call "call_3126" (PStr "web_search") (PStr (dq "{'query': 'x'}")).

(** A tool whose function returns [example_tool_value]. *)
Definition value_tool : Tool nat :=
  mk_tool "value" "Return a value."
    (PDict [(PStr "type", PStr "object"); (PStr "properties", PDict [])])
    (fun _ w => (w, Ok example_tool_value))
    false.

(** A backend that answers every request with one structured call of
    [web_search] whose argument payload is not JSON. *)
Definition backend_bad_arguments : Backend nat :=
  fun _ w =>
    (S w, Ok [mk_llm_message None
                (Some [mk_native_call "call_7" "web_search" "query=x"])]).

(** Two thousand opening brackets: a text that is not JSON and on which
    [json.loads] exceeds the recursion limit. *)
Definition deep_brackets : string := replicate_str 2000 "[".

(** A backend that answers every request with one structured call of
    [web_search] whose argument payload is [deep_brackets]. *)
Definition backend_deep_arguments : Backend nat :=
  fun _ w =>
    (S w, Ok [mk_llm_message None
                (Some [mk_native_call "call_8" "web_search" deep_brackets])]).

(** A backend that answers every request with a free text between
    braces in which [deep_brackets] stands for a value. *)
Definition deep_text : string := dq "{'a': " ++ deep_brackets ++ "}".

Definition backend_deep_text : Backend nat :=
  fun _ w => (S w, Ok [mk_llm_message (Some deep_text) None]).

(** A backend that answers every request with one structured call of
    the tool [exit] whose argument payload is not JSON. *)
Definition backend_exit_call : Backend nat :=
  fun _ w =>
    (S w, Ok [mk_llm_message None
                (Some [mk_native_call "call_9" "exit" "now"])]).

Definition exit_agent : Agent nat :=
  Agent_init (Some [exit_tool]) "You are a helpful assistant."
             "llama3.1:8b" backend_exit_call (PFloat "0.1") 10 100
             None None None.

Definition run_deep_arguments : ChatRun nat :=
  Agent_chat (env := example_env)
             (example_agent backend_deep_arguments 10 100) "hi" 0%nat.

Definition run_deep_text : ChatRun nat :=
  Agent_chat (env := example_env)
             (example_agent backend_deep_text 10 100) "hi" 0%nat.

Definition run_exit_call : ChatRun nat :=
  Agent_chat (env := example_env) exit_agent "hi" 0%nat.

(** A [chat] call on an agent whose history holds at most four
    messages. *)
Definition run_trimmed : ChatRun nat :=
  Agent_chat (env := example_env)
             (example_agent backend_text_call 2 4) "hi" 0%nat.

(** The state in which the loop of a [chat] call with the message [hi]
    starts on an example agent. *)
Definition example_loop_state : LoopState nat :=
  mk_state (ConversationHistory_add_user_message
              (conversation (example_agent backend_bad_arguments 2 100)) "hi")
           0%nat [].

(* ================================================================== *)
(** * Properties *)

(** ** Exceptions *)

(** A class outside the [Exception] hierarchy is none of the classes of
    [exceptions.py]. *)
Lemma not_Exception_not_LocalLLMError (c : exc_class) :
  issubclass c Exception = false -> issubclass c LocalLLMError = false.
Proof. destruct c; cbn; congruence. Qed.

Lemma not_LocalLLMError_not_MaxIterationsError (c : exc_class) :
  issubclass c LocalLLMError = false ->
  issubclass c MaxIterationsError = false.
Proof. destruct c; cbn; congruence. Qed.

(** ** Strings *)

Lemma length_substring_0 (n : nat) (s : string) :
  (n <= String.length s)%nat -> String.length (substring 0 n s) = n.
Proof.
  revert s; induction n as [|n IH]; intros [|c s] Hn; simpl in *;
    try reflexivity; try lia.
  rewrite IH; [reflexivity | lia].
Qed.

Lemma substring_0_all (n : nat) (s : string) :
  (String.length s <= n)%nat -> substring 0 n s = s.
Proof.
  revert s; induction n as [|n IH]; intros [|c s] Hn; simpl in *;
    try reflexivity; try lia.
  rewrite IH; [reflexivity | lia].
Qed.

(** [strip] returns the empty string on the blank strings and on no
    other. *)
Lemma rstrip_empty_iff_blank (s : string) :
  rstrip s = EmptyString <-> blank s = true.
Proof.
  induction s as [|c r IH]; [split; reflexivity|].
  cbn [rstrip blank]. destruct (rstrip r) as [|c' r'] eqn:Hr.
  - destruct (is_space c); cbn [andb].
    + split; [intros _; now apply IH | reflexivity].
    + split; discriminate.
  - split; [discriminate|]. intro Hb. apply andb_prop in Hb.
    destruct Hb as [_ Hb]. apply IH in Hb. discriminate.
Qed.

Lemma blank_lstrip (s : string) : blank (lstrip s) = blank s.
Proof.
  induction s as [|c r IH]; [reflexivity|].
  cbn [lstrip]. destruct (is_space c) eqn:Hc; [|reflexivity].
  cbn [blank]. now rewrite Hc, IH.
Qed.

Lemma strip_empty_iff_blank (s : string) :
  strip s = EmptyString <-> blank s = true.
Proof.
  unfold strip. rewrite rstrip_empty_iff_blank. now rewrite blank_lstrip.
Qed.

(** ** [json.dumps] with [default=str] *)

(** With [default=str] the encoder writes what the plain encoder writes
    for the value in which every non-serializable member has been
    replaced by its [str()]. *)
Lemma res_map_ext_Forall {A B} (f g : A -> Res B) (h : A -> A) (l : list A) :
  Forall (fun x => f x = g (h x)) l ->
  res_map f l = res_map g (map h l).
Proof.
  induction 1 as [|x r Hx Hr IH]; [reflexivity|].
  cbn [map res_map]. now rewrite Hx, IH.
Qed.

Lemma json_dumps_default_str (indent : option nat) (v : pyval) :
  forall level,
    json_dumps_at true indent level v
    = json_dumps_at false indent level (subst_objs v).
Proof.
  induction v using pyval_nested_ind; intro level; try reflexivity.
  - destruct l as [|x l]; [reflexivity|].
    cbn [subst_objs].
    change (map subst_objs (x :: l)) with (subst_objs x :: map subst_objs l).
    change (json_dumps_at true indent level (PList (x :: l)))
      with (res_bind
              (res_map (json_dumps_at true indent (S level)) (x :: l))
              (fun ss => Ok ("[" ++ newline_indent indent (S level)
                              ++ join (item_separator indent (S level)) ss
                              ++ newline_indent indent level ++ "]"))).
    rewrite (res_map_ext_Forall _ (json_dumps_at false indent (S level))
               subst_objs (x :: l)).
    + reflexivity.
    + eapply Forall_impl; [|exact H]. intros y Hy. apply Hy.
  - destruct kvs as [|kv kvs]; [reflexivity|].
    cbn [subst_objs].
    change (json_dumps_at true indent level (PDict (kv :: kvs)))
      with (res_bind
              (res_map
                 (fun kv =>
                    res_bind (json_key (fst kv)) (fun ks =>
                    res_bind (json_dumps_at true indent (S level) (snd kv))
                             (fun s => Ok (json_encode_str ks ++ ": " ++ s))))
                 (kv :: kvs))
              (fun ss => Ok ("{" ++ newline_indent indent (S level)
                              ++ join (item_separator indent (S level)) ss
                              ++ newline_indent indent level ++ "}"))).
    rewrite (res_map_ext_Forall _
               (fun kv =>
                  res_bind (json_key (fst kv)) (fun ks =>
                  res_bind (json_dumps_at false indent (S level) (snd kv))
                           (fun s => Ok (json_encode_str ks ++ ": " ++ s))))
               (fun kv => (fst kv, subst_objs (snd kv))) (kv :: kvs)).
    + destruct kv. reflexivity.
    + eapply Forall_impl; [|exact H]. intros y Hy. cbn [fst snd].
      now rewrite Hy.
Qed.

Lemma res_map_raises {A B} (f : A -> Res B) (P : exn -> Prop) (l : list A) :
  Forall (fun x => forall e, f x = Raise e -> P e) l ->
  forall e, res_map f l = Raise e -> P e.
Proof.
  induction 1 as [|x r Hx Hr IH]; intros e He; [discriminate|].
  cbn [res_map] in He.
  destruct (f x) as [y|e1] eqn:Hfx; cbn [res_bind] in He.
  - destruct (res_map f r) as [ys|e2]; cbn [res_bind] in He; [discriminate|].
    inversion He; subst. now apply IH.
  - inversion He; subst. now apply Hx.
Qed.

Lemma int_repr_raises (z : Z) (e : exn) :
  int_repr z = Raise e -> exc_type e = ValueError.
Proof.
  unfold int_repr. destruct (int_digits z <=? int_max_str_digits);
    intro He; inversion He; reflexivity.
Qed.

(** The encoder raises nothing but [TypeError] (a member or a key it
    cannot write) and [ValueError] (an integer too long to convert). *)
Lemma json_dumps_at_raises (d : bool) (indent : option nat) (v : pyval) :
  forall level e,
    json_dumps_at d indent level v = Raise e ->
    exc_type e = TypeError \/ exc_type e = ValueError.
Proof.
  induction v using pyval_nested_ind; intros level e He;
    try (destruct b; discriminate); try discriminate.
  - right. exact (int_repr_raises _ _ He).
  - destruct l as [|x l]; [discriminate|].
    change (json_dumps_at d indent level (PList (x :: l)))
      with (res_bind
              (res_map (json_dumps_at d indent (S level)) (x :: l))
              (fun ss => Ok ("[" ++ newline_indent indent (S level)
                              ++ join (item_separator indent (S level)) ss
                              ++ newline_indent indent level ++ "]"))) in He.
    destruct (res_map _ (x :: l)) as [ss|e1] eqn:Hmap; [discriminate|].
    inversion He; subst.
    eapply (res_map_raises
              _ (fun e => exc_type e = TypeError \/ exc_type e = ValueError));
      [|exact Hmap].
    eapply Forall_impl; [|exact H]. intros y Hy e' He'. eapply Hy, He'.
  - destruct kvs as [|kv kvs]; [discriminate|].
    change (json_dumps_at d indent level (PDict (kv :: kvs)))
      with (res_bind
              (res_map
                 (fun kv =>
                    res_bind (json_key (fst kv)) (fun ks =>
                    res_bind (json_dumps_at d indent (S level) (snd kv))
                             (fun s => Ok (json_encode_str ks ++ ": " ++ s))))
                 (kv :: kvs))
              (fun ss => Ok ("{" ++ newline_indent indent (S level)
                              ++ join (item_separator indent (S level)) ss
                              ++ newline_indent indent level ++ "}"))) in He.
    destruct (res_map _ (kv :: kvs)) as [ss|e1] eqn:Hmap; [discriminate|].
    inversion He; subst.
    eapply (res_map_raises
              _ (fun e => exc_type e = TypeError \/ exc_type e = ValueError));
      [|exact Hmap].
    eapply Forall_impl; [|exact H]. intros [k y] Hy e' He'.
    cbn [fst snd] in *.
    destruct (json_key k) as [ks|e2] eqn:Hk; cbn [res_bind] in He'.
    + destruct (json_dumps_at d indent (S level) y) as [s|e3] eqn:Hd;
        cbn [res_bind] in He'; [discriminate|].
      inversion He'; subst. eapply Hy, Hd.
    + inversion He'; subst.
      destruct k; try destruct b; cbn [json_key] in Hk;
        try (right; exact (int_repr_raises _ _ Hk));
        inversion Hk; left; reflexivity.
  - cbn in He. destruct d; inversion He; left; reflexivity.
Qed.

Lemma json_dumps_raises_Exception (d : bool) (indent : option nat)
      (v : pyval) (e : exn) :
  json_dumps d indent v = Raise e ->
  issubclass (exc_type e) Exception = true
  /\ issubclass (exc_type e) LocalLLMError = false.
Proof.
  intro He. apply json_dumps_at_raises in He.
  destruct He as [-> | ->]; split; reflexivity.
Qed.

(** ** [ConversationHistory]: trimming *)

Lemma trim_unchanged (h : ConversationHistory) :
  ConversationHistory_len h <= _max_messages h ->
  ConversationHistory_trim_if_needed h = h.
Proof.
  intro Hle. unfold ConversationHistory_trim_if_needed.
  apply Z.leb_le in Hle. now rewrite Hle.
Qed.

Lemma trim_max_messages (h : ConversationHistory) :
  _max_messages (ConversationHistory_trim_if_needed h) = _max_messages h.
Proof.
  unfold ConversationHistory_trim_if_needed.
  destruct (ConversationHistory_len h <=? _max_messages h); reflexivity.
Qed.

Lemma filter_system_split (l : list Message) :
  (List.length (filter is_system l) + List.length (filter not_system l)
   = List.length l)%nat.
Proof.
  induction l as [|m l IH]; [reflexivity|].
  unfold not_system in *. simpl. destruct (is_system m); simpl; lia.
Qed.

(** Where the cap leaves room for at least one message besides the
    system messages, a trimmed history has at most [max_messages]
    messages. *)
Lemma trim_length_le (h : ConversationHistory) :
  Z.of_nat (List.length (filter is_system (_messages h))) < _max_messages h ->
  ConversationHistory_len (ConversationHistory_trim_if_needed h)
  <= _max_messages h.
Proof.
  intro Hsys. unfold ConversationHistory_trim_if_needed.
  destruct (ConversationHistory_len h <=? _max_messages h) eqn:Hlen.
  - now apply Z.leb_le.
  - unfold ConversationHistory_len, list_slice_from, norm_index. simpl.
    rewrite length_app, length_skipn.
    pose proof (filter_system_split (_messages h)) as Hsplit.
    destruct (- (_max_messages h
                 - Z.of_nat (List.length (filter is_system (_messages h)))) <? 0)
      eqn:Hneg.
    + lia.
    + apply Z.ltb_ge in Hneg. lia.
Qed.

(** When a history is over its cap, trimming never brings it below the
    cap. *)
Lemma trim_length_ge (h : ConversationHistory) :
  _max_messages h < ConversationHistory_len h ->
  _max_messages h
  <= ConversationHistory_len (ConversationHistory_trim_if_needed h).
Proof.
  intro Hover. unfold ConversationHistory_trim_if_needed.
  destruct (ConversationHistory_len h <=? _max_messages h) eqn:Hlen.
  - apply Z.leb_le in Hlen. lia.
  - unfold ConversationHistory_len in *. simpl.
    unfold list_slice_from, norm_index.
    rewrite length_app, length_skipn.
    pose proof (filter_system_split (_messages h)) as Hsplit.
    destruct (- (_max_messages h
                 - Z.of_nat (List.length (filter is_system (_messages h)))) <? 0)
      eqn:Hneg.
    + apply Z.ltb_lt in Hneg. lia.
    + apply Z.ltb_ge in Hneg. lia.
Qed.

(** C6.  The code at the input on which the trimming invariant fails: a
    history created with a system prompt and cap 1.  Both appended user
    messages are retained, so the history holds three messages under a
    cap of one. *)
Theorem trim_keeps_everything_at_cap_one :
  let h0 := ConversationHistory_init (Some "s") 1 in
  let h1 := ConversationHistory_add_user_message h0 "a" in
  let h2 := ConversationHistory_add_user_message h1 "b" in
  messages h1 = [MsgSystem "s"; MsgUser "a"]
  /\ messages h2 = [MsgSystem "s"; MsgUser "a"; MsgUser "b"]
  /\ _max_messages h2 = 1
  /\ ConversationHistory_len h2 = 3.
Proof. repeat split. Qed.

Section Properties.

Context {W : Type} {env : PyEnv}.

(** ** [Tool.execute] *)

(** [Tool.execute], outcome by outcome of the tool's function. *)
Lemma Tool_execute_spec (t : Tool W) kwargs w :
  Tool_execute t kwargs w
  = (fst (function t kwargs w),
     match snd (function t kwargs w) with
     | Raise e =>
         if issubclass (exc_type e) Exception
         then Ok ("Error executing " ++ name t ++ ": " ++ exc_str e)
         else Raise e
     | Ok (PStr x) => Ok x
     | Ok v =>
         match json_dumps true (Some 2%nat) v with
         | Ok j => Ok j
         | Raise e => Ok ("Error executing " ++ name t ++ ": " ++ exc_str e)
         end
     end).
Proof.
  unfold Tool_execute. destruct (function t kwargs w) as [w' r].
  cbn [fst snd]. f_equal.
  destruct r as [v|e]; cbn [res_bind res_catch existsb].
  - destruct v; try reflexivity;
      match goal with
      | |- context [json_dumps ?d ?i ?v] =>
          destruct (json_dumps d i v) as [j|e] eqn:Hd; [reflexivity|];
          apply json_dumps_raises_Exception in Hd; destruct Hd as [Hd _];
          cbn [res_catch existsb]; now rewrite Hd
      end.
  - rewrite orb_false_r. reflexivity.
Qed.

(** [Tool.execute] returns a string, unless the tool's function raised
    an exception that is not derived from [Exception]: that exception
    leaves [Tool.execute]. *)
Lemma Tool_execute_cases (t : Tool W) kwargs w :
  (exists s, Tool_execute t kwargs w = (fst (function t kwargs w), Ok s))
  \/ (exists e,
         Tool_execute t kwargs w = (fst (function t kwargs w), Raise e)
         /\ snd (function t kwargs w) = Raise e
         /\ issubclass (exc_type e) Exception = false).
Proof.
  rewrite Tool_execute_spec.
  destruct (snd (function t kwargs w)) as [v|e].
  - left. destruct v; eauto;
      match goal with
      | |- context [json_dumps ?d ?i ?v] => destruct (json_dumps d i v); eauto
      end.
  - destruct (issubclass (exc_type e) Exception) eqn:Hcls; [left; eauto|].
    right. exists e. auto.
Qed.

(** C7, as the code has it.  [Tool.execute] absorbs every exception of
    the tool's function that is derived from [Exception] and returns the
    diagnostic in its place; an exception outside that hierarchy
    ([SystemExit], [KeyboardInterrupt], ...) leaves [Tool.execute] as it
    is.  A string returned by the function is returned as it is; any
    other value is returned as its JSON text with an indent of two, in
    which each non-serializable member is replaced by its string
    representation, and where even that cannot be encoded the
    diagnostic is returned.  The last part shows the text on a value
    that has a member of every kind. *)
Theorem Tool_execute_absorbs_Exception (t : Tool W) kwargs w :
  let diagnostic e := "Error executing " ++ name t ++ ": " ++ exc_str e in
  Tool_execute t kwargs w
  = (fst (function t kwargs w),
     match snd (function t kwargs w) with
     | Raise e =>
         if issubclass (exc_type e) Exception then Ok (diagnostic e)
         else Raise e
     | Ok (PStr x) => Ok x
     | Ok v =>
         match json_dumps false (Some 2%nat) (subst_objs v) with
         | Ok j => Ok j
         | Raise e => Ok (diagnostic e)
         end
     end)
  /\ (snd (function t kwargs w) = Ok example_tool_value ->
      snd (Tool_execute t kwargs w) = Ok example_tool_value_json).
Proof.
  cbv zeta. split.
  - rewrite Tool_execute_spec. f_equal.
    destruct (snd (function t kwargs w)) as [v|e]; [|reflexivity].
    unfold json_dumps.
    destruct v; try reflexivity; now rewrite json_dumps_default_str.
  - intro Hv. rewrite Tool_execute_spec. cbn [snd]. rewrite Hv.
    vm_compute. reflexivity.
Qed.

(** ** Truncation of tool results *)

(** C4.  With a non-negative cap, the tool turn recorded for a result
    [r] holds [r] itself when [r] is no longer than the cap, and
    otherwise the first cap-many characters of [r] followed by a marker
    that states the original length and the truncation. *)
Theorem tool_result_truncation (a : Agent W) (tc : ToolCall) (r : string)
        (st : LoopState W) :
  0 <= AGENT_MAX_RESULT_LENGTH ->
  exists recorded,
    record_tool_result a tc r st =
      (Ok tt,
       mk_state
         (ConversationHistory_add_tool_result
            (st_conv st) (tc_id tc) (tc_name tc) recorded)
         (match on_tool_end a with
          | Some cb => cb (tc_name tc) recorded (st_world st)
          | None => st_world st
          end)
         (st_log st))
    /\ (AGENT_MAX_RESULT_LENGTH < py_len r ->
        recorded = substring 0 (Z.to_nat AGENT_MAX_RESULT_LENGTH) r
                   ++ nl ++ "... [truncated, " ++ str_of_Z (py_len r)
                   ++ " chars total]"
        /\ py_len (substring 0 (Z.to_nat AGENT_MAX_RESULT_LENGTH) r)
           = AGENT_MAX_RESULT_LENGTH)
    /\ (py_len r <= AGENT_MAX_RESULT_LENGTH -> recorded = r).
Proof.
  intro Hcap. exists (truncate_result r). split; [|split].
  - unfold record_tool_result, observe, bind, in_world, update_conv, ret.
    destruct (on_tool_end a); reflexivity.
  - intro Hlong. unfold truncate_result, str_slice_to, norm_index.
    apply Z.ltb_lt in Hlong as Hlong'. rewrite Hlong'.
    assert (Hnn : (AGENT_MAX_RESULT_LENGTH <? 0) = false) by now apply Z.ltb_ge.
    rewrite Hnn. rewrite Z.min_l by lia. split; [reflexivity|].
    unfold py_len in *. rewrite length_substring_0; lia.
  - intro Hshort. unfold truncate_result.
    apply Z.ltb_ge in Hshort. now rewrite Hshort.
Qed.

(** ** Dispatch of one tool call *)

(** The dispatch of a call of a registered tool whose decoded arguments
    bind as keyword arguments: the tool's function runs once, and what
    [Tool.execute] returns is recorded, truncated; an exception that
    leaves [Tool.execute] leaves the dispatch, after the first observer
    and with no tool turn recorded. *)
Lemma execute_tool_call_registered (a : Agent W) (tc : ToolCall) (t : Tool W)
      (kvs : list (pyval * pyval)) (kwargs : list (string * pyval))
      (st : LoopState W) :
  ToolRegistry_get (registry a) (tc_name tc) = Ok (Some t) ->
  decode_arguments (tc_arguments tc) = Ok (PDict kvs) ->
  keywords kvs = Some kwargs ->
  existsb (fun kv => String.eqb (fst kv) "self") kwargs = false ->
  let w1 := match on_tool_start a with
            | Some cb => cb (tc_name tc) (PDict kvs) (st_world st)
            | None => st_world st
            end in
  let w2 := fst (function t kwargs w1) in
  let log1 := (st_log st ++ [EvToolFunction (name t) kwargs])%list in
  execute_tool_call a tc st
  = match snd (Tool_execute t kwargs w1) with
    | Ok r =>
        (Ok tt,
         mk_state
           (ConversationHistory_add_tool_result
              (st_conv st) (tc_id tc) (tc_name tc) (truncate_result r))
           (match on_tool_end a with
            | Some cb => cb (tc_name tc) (truncate_result r) w2
            | None => w2
            end)
           log1)
    | Raise e => (Raise e, mk_state (st_conv st) w2 log1)
    end.
Proof.
  intros Hget Hargs Hkw Hself w1 w2 log1.
  pose proof (Tool_execute_spec t kwargs w1) as Hspec.
  unfold execute_tool_call, lookup_and_execute, record_tool_result,
    call_tool_execute.
  unfold bind at 1, lift at 1. rewrite Hargs.
  unfold observe, bind, lift, in_world, update_conv, log_event, ret.
  rewrite Hget, Hkw, Hself.
  subst w1 w2 log1.
  destruct (on_tool_start a) as [cb|]; cbn [option_map st_world st_conv st_log];
    destruct (Tool_execute t kwargs _) as [w2 [r|e]];
    cbn [fst snd] in *; inversion Hspec; subst;
    destruct (on_tool_end a); reflexivity.
Qed.

(** ** The textual fallback of [_parse_tool_calls] *)

Lemma parse_tool_calls_text (m : LLMMessage) (c : string) :
  msg_tool_calls m = None \/ msg_tool_calls m = Some [] ->
  msg_content m = Some c ->
  Agent_parse_tool_calls m =
    match c with
    | EmptyString => Ok None
    | _ =>
        let content := strip c in
        let json_start := find content "{" in
        let json_end := rfind content "}" in
        if negb (json_start =? -1) && negb (json_end =? -1)
           && (json_start <? json_end)
        then res_catch
               (parse_json_text_tool_call
                  (str_slice content json_start (json_end + 1)))
               [JSONDecodeError; ValueError] (fun _ => Ok None)
        else Ok None
    end.
Proof.
  intros Hcalls Hcontent. unfold Agent_parse_tool_calls.
  rewrite Hcontent. destruct Hcalls as [-> | ->]; destruct c; reflexivity.
Qed.

(** ** One iteration of the loop, case by case *)

Lemma run_iterations_step (a : Agent W) (tools : option (list pyval))
      (n : nat) (st : LoopState W) :
  let req := mk_request (model a) (messages (st_conv st)) (temperature a)
               (match tools with
                | Some ((_ :: _) as ts) => Some ts
                | _ => None
                end) in
  let w' := fst (client a req (st_world st)) in
  let resp := snd (client a req (st_world st)) in
  let log1 := (st_log st ++ [EvBackendCall req resp])%list in
  match resp with
  | Raise e0 =>
      run_iterations a tools (S n) st
      = (Raise (if issubclass (exc_type e0) Exception
                then new_exn_handling e0 CompletionError
                       ("LLM call failed: " ++ exc_str e0)
                else e0),
         mk_state (st_conv st) w' log1)
  | Ok [] =>
      run_iterations a tools (S n) st
      = (Raise (new_exn IndexError "list index out of range"),
         mk_state (st_conv st) w' log1)
  | Ok (m :: _) =>
      match Agent_parse_tool_calls m with
      | Raise e =>
          run_iterations a tools (S n) st
          = (Raise e, mk_state (st_conv st) w' log1)
      | Ok (Some ((_ :: _) as tcs)) =>
          let st2 := mk_state
                       (ConversationHistory_add_assistant_tool_calls
                          (st_conv st) (MsgAssistantToolCalls tcs))
                       w' log1 in
          match execute_tool_calls a tcs st2 with
          | (Ok _, st3) =>
              run_iterations a tools (S n) st = run_iterations a tools n st3
          | (Raise e, st3) =>
              run_iterations a tools (S n) st = (Raise e, st3)
          end
      | Ok _ =>
          let final := match msg_content m with
                       | Some c => c
                       | None => EmptyString
                       end in
          run_iterations a tools (S n) st
          = (Ok (strip final),
             mk_state
               (match final with
                | EmptyString => st_conv st
                | _ => ConversationHistory_add_assistant_message
                         (st_conv st) final
                end)
               w' log1)
      end
  end.
Proof.
  cbv zeta. cbn [run_iterations].
  unfold bind, get_conv, call_llm, catch, backend_call, lift, update_conv,
    ret, raise.
  cbn [st_conv st_world st_log].
  destruct (client a _ (st_world st)) as [w' [choices|e0]]; cbn [fst snd].
  - destruct choices as [|m ms]; [reflexivity|].
    cbn [first_choice].
    destruct (Agent_parse_tool_calls m) as [[[|tc tcs]|]|e]; try reflexivity.
    + destruct (msg_content m) as [[|ch c]|]; reflexivity.
    + cbn [st_conv st_world st_log].
      destruct (execute_tool_calls a (tc :: tcs) _) as [[[]|e] st3]; reflexivity.
    + destruct (msg_content m) as [[|ch c]|]; reflexivity.
  - cbn [existsb]. rewrite orb_false_r.
    destruct (issubclass (exc_type e0) Exception); reflexivity.
Qed.

(** ** An iteration that dispatches tool calls *)

Lemma execute_tool_calls_app (a : Agent W) (l1 l2 : list ToolCall)
      (st : LoopState W) :
  execute_tool_calls a (l1 ++ l2) st
  = (execute_tool_calls a l1 ;;; execute_tool_calls a l2) st.
Proof.
  revert st. induction l1 as [|tc l1 IH]; intro st; [reflexivity|].
  cbn [app execute_tool_calls]. unfold bind.
  destruct (execute_tool_call a tc st) as [[[]|e] st1]; [|reflexivity].
  rewrite IH. reflexivity.
Qed.

(** When the parse of the first message of the response yields calls,
    the iteration records them in one assistant message and dispatches
    all of them, in order, before the next iteration. *)
Lemma run_iterations_dispatch (a : Agent W) (tools : option (list pyval))
      (n : nat) (st : LoopState W) (m : LLMMessage) (ms : list LLMMessage)
      (tc : ToolCall) (tcs : list ToolCall) :
  let req := mk_request (model a) (messages (st_conv st)) (temperature a)
               (match tools with
                | Some ((_ :: _) as ts) => Some ts
                | _ => None
                end) in
  snd (client a req (st_world st)) = Ok (m :: ms) ->
  Agent_parse_tool_calls m = Ok (Some (tc :: tcs)) ->
  run_iterations a tools (S n) st
  = (execute_tool_calls a (tc :: tcs) ;;; run_iterations a tools n)
      (mk_state
         (ConversationHistory_add_assistant_tool_calls
            (st_conv st) (MsgAssistantToolCalls (tc :: tcs)))
         (fst (client a req (st_world st)))
         (st_log st ++ [EvBackendCall req (Ok (m :: ms))])).
Proof.
  intros req Hresp Hparse.
  pose proof (run_iterations_step a tools n st) as Hstep.
  cbv zeta in Hstep. fold req in Hstep. rewrite Hresp, Hparse in Hstep.
  unfold bind.
  destruct (execute_tool_calls a (tc :: tcs) _) as [[[]|e] st3]; exact Hstep.
Qed.

(** C10, as the code has it.  A structured tool call whose argument
    payload is a string on which [json.loads] raises
    [json.JSONDecodeError] is dispatched all the same, whatever its
    place among the calls of the response: once the calls before it
    have been dispatched, the function of the registered tool is called
    with no keyword arguments; what [Tool.execute] returns (a result or
    a diagnostic), truncated like every result, is recorded under the
    call's id; and the loop goes on with the calls after it and with the
    next iteration.  Only an exception of the tool's function that is
    not derived from [Exception] leaves the loop.  A payload on which
    [json.loads] raises anything else ends the loop with that
    exception, before the observer and the tool are called. *)
Theorem undecodable_arguments_run_with_empty_mapping
        (a : Agent W) (tools : option (list pyval)) (n : nat)
        (st st1 : LoopState W) (t : Tool W)
        (m : LLMMessage) (ms : list LLMMessage)
        (before after : list NativeToolCall) (ntc : NativeToolCall) :
  let req := mk_request (model a) (messages (st_conv st)) (temperature a)
               (match tools with
                | Some ((_ :: _) as ts) => Some ts
                | _ => None
                end) in
  let tcs := map native_to_tool_call (before ++ ntc :: after)%list in
  snd (client a req (st_world st)) = Ok (m :: ms) ->
  msg_tool_calls m = Some (before ++ ntc :: after)%list ->
  ToolRegistry_get (registry a) (PStr (ntc_name ntc)) = Ok (Some t) ->
  execute_tool_calls a (map native_to_tool_call before)
    (mk_state
       (ConversationHistory_add_assistant_tool_calls
          (st_conv st) (MsgAssistantToolCalls tcs))
       (fst (client a req (st_world st)))
       (st_log st ++ [EvBackendCall req (Ok (m :: ms))]))
  = (Ok tt, st1) ->
  let w1 := match on_tool_start a with
            | Some cb => cb (PStr (ntc_name ntc)) (PDict []) (st_world st1)
            | None => st_world st1
            end in
  let w2 := fst (function t [] w1) in
  let log1 := (st_log st1 ++ [EvToolFunction (name t) []])%list in
  match json_loads (ntc_arguments ntc) with
  | inl _ => True
  | inr (NotJSON _) =>
      match snd (Tool_execute t [] w1) with
      | Ok r =>
          run_iterations a tools (S n) st
          = (execute_tool_calls a (map native_to_tool_call after) ;;;
             run_iterations a tools n)
              (mk_state
                 (ConversationHistory_add_tool_result
                    (st_conv st1) (ntc_id ntc) (PStr (ntc_name ntc))
                    (truncate_result r))
                 (match on_tool_end a with
                  | Some cb => cb (PStr (ntc_name ntc)) (truncate_result r) w2
                  | None => w2
                  end)
                 log1)
      | Raise e =>
          run_iterations a tools (S n) st
          = (Raise e, mk_state (st_conv st1) w2 log1)
          /\ snd (function t [] w1) = Raise e
          /\ issubclass (exc_type e) Exception = false
      end
  | inr f =>
      run_iterations a tools (S n) st = (Raise (json_error_exn f), st1)
  end.
Proof.
  intros req tcs Hresp Hcalls Hget Hbefore w1 w2 log1.
  assert (Hparse : Agent_parse_tool_calls m = Ok (Some tcs)).
  { unfold Agent_parse_tool_calls. rewrite Hcalls. subst tcs.
    destruct before; reflexivity. }
  assert (Hne : exists tc0 rest, tcs = tc0 :: rest).
  { subst tcs. destruct before; cbn; eauto. }
  destruct Hne as (tc0 & rest & Hne).
  assert (Hrun : run_iterations a tools (S n) st
                 = (execute_tool_calls a tcs ;;; run_iterations a tools n)
                     (mk_state
                        (ConversationHistory_add_assistant_tool_calls
                           (st_conv st) (MsgAssistantToolCalls tcs))
                        (fst (client a req (st_world st)))
                        (st_log st ++ [EvBackendCall req (Ok (m :: ms))]))).
  { rewrite Hne in *. now apply run_iterations_dispatch. }
  assert (Hgen : run_iterations a tools (S n) st
                 = match execute_tool_call a (native_to_tool_call ntc) st1 with
                   | (Ok _, st2) =>
                       (execute_tool_calls a (map native_to_tool_call after) ;;;
                        run_iterations a tools n) st2
                   | (Raise e, st2) => (Raise e, st2)
                   end).
  { rewrite Hrun.
    replace (execute_tool_calls a tcs)
      with (execute_tool_calls a
              (map native_to_tool_call before
               ++ native_to_tool_call ntc :: map native_to_tool_call after)%list)
      by (unfold tcs; now rewrite map_app).
    unfold bind at 1. rewrite execute_tool_calls_app.
    unfold bind at 1. rewrite Hbefore.
    cbn [execute_tool_calls]. unfold bind.
    destruct (execute_tool_call a (native_to_tool_call ntc) st1)
      as [[[]|e] st2]; reflexivity. }
  assert (Hfail : forall f,
             json_loads (ntc_arguments ntc) = inr f ->
             (forall msg, f <> NotJSON msg) ->
             run_iterations a tools (S n) st
             = (Raise (json_error_exn f), st1)).
  { intros f Hf Hkind. rewrite Hgen.
    unfold execute_tool_call, bind, lift.
    cbn [native_to_tool_call tc_arguments decode_arguments].
    unfold json_loads_res. rewrite Hf.
    destruct f as [msg|msg|msg]; [now destruct (Hkind msg)| |]; reflexivity. }
  destruct (json_loads (ntc_arguments ntc)) as [v|[msg|msg|msg]] eqn:Hbad;
    [exact I | | apply Hfail; [reflexivity | discriminate]
     | apply Hfail; [reflexivity | discriminate]].
  rewrite Hgen. clear Hgen Hrun Hne Hparse Hfail.
  pose proof (execute_tool_call_registered a (native_to_tool_call ntc) t
                [] [] st1 Hget) as Hone.
  cbn [native_to_tool_call tc_arguments tc_name tc_id decode_arguments] in Hone.
  unfold json_loads_res in Hone. rewrite Hbad in Hone.
  specialize (Hone eq_refl eq_refl eq_refl). cbv zeta in Hone.
  fold w1 in Hone. fold w2 in Hone. fold log1 in Hone.
  destruct (Tool_execute_cases t [] w1) as [[r Hr] | (e & Hr & Hfun & Hcls)];
    rewrite Hr in *; cbn [snd] in *; rewrite Hone; auto.
Qed.

(** C3, as the code has it.  When the first message of a backend
    response has no structured calls and its content is the text of the
    object with name [web_search] and parameters [query = x], the parse
    yields exactly one tool call, taken from the text between the first
    opening and the last closing brace, and the iteration dispatches
    it: the function of the registered tool [web_search] is called with
    the keyword argument [query = x], what [Tool.execute] returns is
    recorded, and the loop goes on.  Whenever [json.loads] raises
    [json.JSONDecodeError] or [ValueError] on the text between the
    braces, the parse reports no call and does not raise; a
    [RecursionError] of [json.loads] leaves the parse. *)
Theorem text_fallback_dispatches_web_search
        (a : Agent W) (tools : option (list pyval)) (n : nat)
        (st : LoopState W) (t : Tool W)
        (m : LLMMessage) (ms : list LLMMessage) :
  let req := mk_request (model a) (messages (st_conv st)) (temperature a)
               (match tools with
                | Some ((_ :: _) as ts) => Some ts
                | _ => None
                end) in
  snd (client a req (st_world st)) = Ok (m :: ms) ->
  msg_tool_calls m = None \/ msg_tool_calls m = Some [] ->
  msg_content m = Some web_search_text ->
  json_loads web_search_text
  = inl (PDict [(PStr "name", PStr "web_search");
                (PStr "parameters", PDict [(PStr "query", PStr "x")])]) ->
  json_loads (dq "{'query': 'x'}") = inl (PDict [(PStr "query", PStr "x")]) ->
  ToolRegistry_get (registry a) (PStr "web_search") = Ok (Some t) ->
  let tc := mk_tool_call
              ("call_" ++ str_of_Z (Z.abs (py_hash web_search_text) mod 100000))
              (PStr "web_search") (PStr (dq "{'query': 'x'}")) in
  let h1 := ConversationHistory_add_assistant_tool_calls
              (st_conv st) (MsgAssistantToolCalls [tc]) in
  let w1 := match on_tool_start a with
            | Some cb => cb (PStr "web_search")
                            (PDict [(PStr "query", PStr "x")])
                            (fst (client a req (st_world st)))
            | None => fst (client a req (st_world st))
            end in
  let w2 := fst (function t [("query", PStr "x")] w1) in
  let log1 := (st_log st
               ++ [EvBackendCall req (Ok (m :: ms));
                   EvToolFunction (name t) [("query", PStr "x")]])%list in
  Agent_parse_tool_calls m = Ok (Some [tc])
  /\ match snd (Tool_execute t [("query", PStr "x")] w1) with
     | Ok r =>
         run_iterations a tools (S n) st
         = run_iterations a tools n
             (mk_state
                (ConversationHistory_add_tool_result
                   h1 (tc_id tc) (PStr "web_search") (truncate_result r))
                (match on_tool_end a with
                 | Some cb => cb (PStr "web_search") (truncate_result r) w2
                 | None => w2
                 end)
                log1)
     | Raise e =>
         run_iterations a tools (S n) st = (Raise e, mk_state h1 w2 log1)
         /\ snd (function t [("query", PStr "x")] w1) = Raise e
         /\ issubclass (exc_type e) Exception = false
     end
  /\ (forall m' c msg,
        msg_tool_calls m' = None \/ msg_tool_calls m' = Some [] ->
        msg_content m' = Some c ->
        let json_str := str_slice (strip c) (find (strip c) "{")
                                  (rfind (strip c) "}" + 1) in
        json_loads json_str = inr (NotJSON msg)
        \/ json_loads json_str = inr (IntegerTooLong msg) ->
        Agent_parse_tool_calls m' = Ok None)
  /\ (forall m' c msg,
        msg_tool_calls m' = None \/ msg_tool_calls m' = Some [] ->
        msg_content m' = Some c ->
        let json_str := str_slice (strip c) (find (strip c) "{")
                                  (rfind (strip c) "}" + 1) in
        negb (find (strip c) "{" =? -1) && negb (rfind (strip c) "}" =? -1)
        && (find (strip c) "{" <? rfind (strip c) "}") = true ->
        json_loads json_str = inr (NestingTooDeep msg) ->
        Agent_parse_tool_calls m' = Raise (new_exn RecursionError msg)).
Proof.
  intros req Hresp Hcalls Hcontent Hloads Hargs Hget tc h1 w1 w2 log1.
  assert (Hparse : Agent_parse_tool_calls m = Ok (Some [tc])).
  { rewrite (parse_tool_calls_text m web_search_text Hcalls Hcontent).
    assert (Hcut : str_slice (strip web_search_text)
                     (find (strip web_search_text) "{")
                     (rfind (strip web_search_text) "}" + 1)
                   = web_search_text) by (vm_compute; reflexivity).
    assert (Hguard : negb (find (strip web_search_text) "{" =? -1)
                     && negb (rfind (strip web_search_text) "}" =? -1)
                     && (find (strip web_search_text) "{"
                         <? rfind (strip web_search_text) "}") = true)
      by (vm_compute; reflexivity).
    assert (Hne : exists ch r, web_search_text = String ch r)
      by (vm_compute; eauto).
    destruct Hne as (ch & r & Hne).
    cbv zeta. rewrite Hguard, Hcut.
    rewrite Hne at 1.
    unfold parse_json_text_tool_call, json_loads_res. rewrite Hloads.
    reflexivity. }
  split; [exact Hparse|]. split; [|split].
  - set (st0 := mk_state h1 (fst (client a req (st_world st)))
                  (st_log st ++ [EvBackendCall req (Ok (m :: ms))])).
    assert (Hgen : run_iterations a tools (S n) st
                   = match execute_tool_call a tc st0 with
                     | (Ok _, st2) => run_iterations a tools n st2
                     | (Raise e, st2) => (Raise e, st2)
                     end).
    { rewrite (run_iterations_dispatch a tools n st m ms tc [] Hresp Hparse).
      fold req. fold h1. fold st0.
      unfold bind. cbn [execute_tool_calls]. unfold bind, ret.
      destruct (execute_tool_call a tc st0) as [[[]|e] st2]; reflexivity. }
    rewrite Hgen. clear Hgen.
    pose proof (execute_tool_call_registered a tc t
                  [(PStr "query", PStr "x")] [("query", PStr "x")] st0
                  Hget) as Hone.
    cbn [tc tc_arguments tc_name tc_id decode_arguments] in Hone.
    unfold json_loads_res in Hone. rewrite Hargs in Hone.
    specialize (Hone eq_refl eq_refl eq_refl). cbv zeta in Hone.
    cbn [st0 st_world st_conv st_log] in Hone.
    fold w1 in Hone. fold w2 in Hone.
    rewrite <- app_assoc in Hone. cbn [app] in Hone. fold log1 in Hone.
    destruct (Tool_execute_cases t [("query", PStr "x")] w1)
      as [[r Hr] | (e & Hr & Hfun & Hcls)];
      rewrite Hr in *; cbn [snd] in *; rewrite Hone; auto.
  - intros m' c msg Hcalls' Hcontent' json_str Hfail.
    rewrite (parse_tool_calls_text m' c Hcalls' Hcontent').
    destruct c as [|ch r]; [reflexivity|].
    cbv zeta.
    match goal with
    | |- (if ?g then _ else _) = _ => destruct g; [|reflexivity]
    end.
    fold json_str.
    unfold parse_json_text_tool_call, json_loads_res.
    destruct Hfail as [-> | ->]; reflexivity.
  - intros m' c msg Hcalls' Hcontent' json_str Hguard Hfail.
    rewrite (parse_tool_calls_text m' c Hcalls' Hcontent').
    destruct c as [|ch r]; [discriminate|].
    cbv zeta. rewrite Hguard. fold json_str.
    unfold parse_json_text_tool_call, json_loads_res. rewrite Hfail.
    reflexivity.
Qed.

(** ** What the dispatch of tool calls can do *)

Lemma triple_bind {A B} (m : M W A) (k : A -> M W B) st Q :
  triple m st (fun r st1 =>
                 match r with
                 | Ok x => triple (k x) st1 Q
                 | Raise e => Q (Raise e) st1
                 end) ->
  triple (bind m k) st Q.
Proof.
  unfold triple, bind. destruct (m st) as [[x|e] st1]; cbn [fst snd]; auto.
Qed.

Lemma triple_observe (f : option (W -> W)) st (Q : Res unit -> LoopState W -> Prop) :
  (forall w1, Q (Ok tt) (mk_state (st_conv st) w1 (st_log st))) ->
  triple (observe f) st Q.
Proof.
  intro H. unfold triple, observe. destruct f as [cb|]; cbn.
  - apply H.
  - destruct st. apply H.
Qed.

Lemma decode_arguments_raises (args : pyval) (e : exn) :
  decode_arguments args = Raise e ->
  issubclass (exc_type e) LocalLLMError = false.
Proof.
  destruct args; try discriminate.
  unfold decode_arguments, json_loads_res.
  destruct (json_loads s) as [v|[msg|msg|msg]]; cbn; intro He;
    inversion He; reflexivity.
Qed.


Lemma execute_tool_call_effect (a : Agent W) (tc : ToolCall) (st : LoopState W) :
  triple (execute_tool_call a tc) st (fun r st' =>
    exists added,
      st_log st' = (st_log st ++ added)%list
      /\ no_backend_call added
      /\ match r with
         | Ok _ =>
             exists result,
               st_conv st'
               = ConversationHistory_add_tool_result
                   (st_conv st) (tc_id tc) (tc_name tc) result
         | Raise e =>
             issubclass (exc_type e) LocalLLMError = false
             /\ st_conv st' = st_conv st
         end).
Proof.
  assert (Hrecord : forall result w1 lg added,
             lg = (st_log st ++ added)%list ->
             no_backend_call added ->
             triple (record_tool_result a tc result)
                    (mk_state (st_conv st) w1 lg)
                    (fun r st' =>
                       exists added,
                         st_log st' = (st_log st ++ added)%list
                         /\ no_backend_call added
                         /\ match r with
                            | Ok _ =>
                                exists result,
                                  st_conv st'
                                  = ConversationHistory_add_tool_result
                                      (st_conv st) (tc_id tc) (tc_name tc) result
                            | Raise e =>
                                issubclass (exc_type e) LocalLLMError = false
                                /\ st_conv st' = st_conv st
                            end)).
  { intros result w1 lg added -> Hadded. unfold record_tool_result.
    apply triple_bind, triple_observe. intro w2.
    unfold triple, update_conv. cbn.
    exists added. repeat split; [assumption|]. eexists; reflexivity. }
  assert (Hraise : forall P : Prop,
             P ->
             exists added,
               st_log st = (st_log st ++ added)%list
               /\ no_backend_call added
               /\ P /\ st_conv st = st_conv st).
  { intros P HP. exists []. rewrite app_nil_r. repeat split; [constructor | exact HP]. }
  unfold execute_tool_call.
  apply triple_bind. unfold triple at 1, lift. cbn [fst snd].
  destruct (decode_arguments (tc_arguments tc)) as [args|e] eqn:Hdec;
    [|destruct st; apply Hraise; exact (decode_arguments_raises _ _ Hdec)].
  apply triple_bind, triple_observe. intro w1.
  apply triple_bind. unfold lookup_and_execute.
  apply triple_bind. unfold triple at 1, lift. cbn [fst snd].
  destruct (ToolRegistry_get (registry a) (tc_name tc)) as [[t|]|e] eqn:Hget.
  - unfold call_tool_execute.
    destruct args as [ |b|z|r0|s0|l|kvs|cls s0];
      try (unfold triple, raise; cbn; apply Hraise; reflexivity).
    destruct (keywords kvs) as [kwargs|];
      [|unfold triple, raise; cbn; apply Hraise; reflexivity].
    destruct (existsb _ kwargs);
      [unfold triple, raise; cbn; apply Hraise; reflexivity|].
    apply triple_bind. unfold triple at 1, log_event. cbn [fst snd].
    unfold triple at 1, in_world. cbn [st_world st_conv st_log].
    destruct (Tool_execute_cases t kwargs w1) as [[r Hr] | (e & Hr & _ & Hcls)];
      rewrite Hr; cbn [fst snd].
    + apply (Hrecord _ _ _ [EvToolFunction (name t) kwargs]);
        [reflexivity | repeat constructor].
    + exists [EvToolFunction (name t) kwargs].
      repeat split; [repeat constructor|].
      now apply not_Exception_not_LocalLLMError.
  - unfold triple at 1, ret. cbn [fst snd].
    apply (Hrecord _ _ _ []); [symmetry; apply app_nil_r | constructor].
  - unfold ToolRegistry_get in Hget.
    destruct (tc_name tc); inversion Hget; cbn; apply Hraise; reflexivity.
Qed.

(** The dispatch of a list of tool calls only appends tool turns for
    calls of that list, adds no backend call to the log, and raises
    none of the exceptions of [exceptions.py]. *)
Lemma execute_tool_calls_effect (a : Agent W) (tcs : list ToolCall) :
  forall st,
    (exists added,
        st_log (snd (execute_tool_calls a tcs st)) = (st_log st ++ added)%list
        /\ no_backend_call added)
    /\ (forall e, fst (execute_tool_calls a tcs st) = Raise e ->
                  issubclass (exc_type e) LocalLLMError = false)
    /\ (forall I : ConversationHistory -> Prop,
           (forall h tc result,
               In tc tcs -> I h ->
               I (ConversationHistory_add_tool_result
                    h (tc_id tc) (tc_name tc) result)) ->
           I (st_conv st) ->
           I (st_conv (snd (execute_tool_calls a tcs st)))).
Proof.
  induction tcs as [|tc tcs IH]; intro st.
  - cbn. repeat split.
    + exists []. rewrite app_nil_r. split; [reflexivity | constructor].
    + intros e He. discriminate.
    + auto.
  - cbn [execute_tool_calls]. unfold bind at 1 2 3.
    pose proof (execute_tool_call_effect a tc st) as Heff. unfold triple in Heff.
    destruct Heff as (added & Hlog & Hnb & Hres).
    destruct (execute_tool_call a tc st) as [[[]|e] st1]; cbn [fst snd] in *.
    + destruct Hres as [result Hconv].
      destruct (IH st1) as ((added' & Hlog' & Hnb') & Hexc & Hinv).
      repeat split.
      * exists (added ++ added')%list. rewrite Hlog', Hlog, app_assoc.
        split; [reflexivity | now apply Forall_app].
      * exact Hexc.
      * intros I Hstep H0. apply Hinv.
        -- intros h tc' result' Hin. apply Hstep. now right.
        -- rewrite Hconv. apply Hstep; [now left | exact H0].
    + destruct Hres as [Hty Hconv]. repeat split.
      * exists added. split; assumption.
      * intros e' He'. inversion He'; subst. exact Hty.
      * intros I _ H0. now rewrite Hconv.
Qed.

(** ** What the parse of a response can raise *)

Lemma parse_json_text_tool_call_raises (json_str : string) (e : exn) :
  parse_json_text_tool_call json_str = Raise e ->
  issubclass (exc_type e) LocalLLMError = false.
Proof.
  unfold parse_json_text_tool_call, json_loads_res.
  destruct (json_loads json_str) as [parsed|[msg|msg|msg]]; cbn [res_bind];
    try (intro He; inversion He; reflexivity).
  destruct parsed; cbn [py_contains res_bind];
    try (intro He; inversion He; reflexivity).
  - (* a string *)
    destruct (str_contains "name" s); cbn [res_bind];
      [|intro He; discriminate].
    destruct (str_contains "parameters" s); cbn [res_bind];
      [intro He; inversion He; reflexivity|].
    destruct (str_contains "arguments" s); cbn [res_bind];
      intro He; inversion He; reflexivity.
  - (* a list *)
    destruct (existsb _ l); cbn [res_bind]; [|intro He; discriminate].
    destruct (existsb _ l); cbn [res_bind];
      [intro He; inversion He; reflexivity|].
    destruct (existsb _ l); cbn [res_bind];
      intro He; inversion He; reflexivity.
  - (* a dictionary *)
    assert (Hbody :
      forall r : Res (option (list ToolCall)),
        r = res_bind (py_getitem (PDict kvs) "name") (fun tool_name =>
            res_bind (py_get (PDict kvs) "arguments" (PDict [])) (fun dflt =>
            res_bind (py_get (PDict kvs) "parameters" dflt) (fun tool_args =>
            res_bind (match tool_args with
                      | PDict _ =>
                          res_bind (json_dumps false None tool_args)
                                   (fun s => Ok (PStr s))
                      | _ => Ok tool_args
                      end) (fun args_str =>
            Ok (Some [mk_tool_call
                        ("call_" ++ str_of_Z (Z.abs (py_hash json_str) mod 100000))
                        tool_name args_str]))))) ->
        r = Raise e -> issubclass (exc_type e) LocalLLMError = false).
    { intros r -> He. cbn [py_getitem py_get] in He.
      destruct (dict_get kvs "name"); cbn [res_bind] in He;
        [|inversion He; reflexivity].
      destruct (dict_get kvs "arguments"); cbn [res_bind] in He;
        destruct (dict_get kvs "parameters"); cbn [res_bind] in He;
        repeat match type of He with
          | context [match ?v with PDict _ => _ | _ => _ end] =>
              destruct v; cbn [res_bind] in He; try discriminate
          end;
        match type of He with
        | context [json_dumps ?d ?i ?v] =>
            destruct (json_dumps d i v) eqn:Hd; cbn [res_bind] in He;
            [discriminate|];
            inversion He; subst;
            apply json_dumps_raises_Exception in Hd; apply Hd
        end. }
    destruct (dict_get kvs "name"); cbn [res_bind]; [|intro He; discriminate].
    destruct (dict_get kvs "parameters"); cbn [res_bind].
    + intro He. eapply Hbody; [reflexivity | exact He].
    + destruct (dict_get kvs "arguments"); cbn [res_bind];
        [|intro He; discriminate].
      intro He. eapply Hbody; [reflexivity | exact He].
Qed.

Lemma Agent_parse_tool_calls_raises (m : LLMMessage) (e : exn) :
  Agent_parse_tool_calls m = Raise e ->
  issubclass (exc_type e) LocalLLMError = false.
Proof.
  unfold Agent_parse_tool_calls.
  assert (Htext : forall c,
             match c with
             | Some (String _ _ as c) =>
                 let content := strip c in
                 let json_start := find content "{" in
                 let json_end := rfind content "}" in
                 if negb (json_start =? -1) && negb (json_end =? -1)
                    && (json_start <? json_end)
                 then res_catch
                        (parse_json_text_tool_call
                           (str_slice content json_start (json_end + 1)))
                        [JSONDecodeError; ValueError] (fun _ => Ok None)
                 else Ok None
             | _ => Ok None
             end = Raise e ->
             issubclass (exc_type e) LocalLLMError = false).
  { intros [[|ch c]|]; try discriminate. cbv zeta.
    match goal with
    | |- (if ?g then _ else _) = _ -> _ => destruct g; [|discriminate]
    end.
    unfold res_catch.
    match goal with
    | |- context [parse_json_text_tool_call ?s] =>
        pose proof (parse_json_text_tool_call_raises s) as Hr;
        destruct (parse_json_text_tool_call s) as [x|e']
    end; [discriminate|].
    destruct (existsb _ _); [discriminate|].
    intro He. inversion He; subst. now apply Hr. }
  destruct (msg_tool_calls m) as [[|tc tcs]|]; try discriminate; apply Htext.
Qed.

(** ** The ghost log of a run of the loop *)

Lemma backend_calls_app (l1 l2 : list Event) :
  backend_calls (l1 ++ l2) = (backend_calls l1 + backend_calls l2)%nat.
Proof. unfold backend_calls. now rewrite filter_app, length_app. Qed.

Lemma no_backend_call_count (l : list Event) :
  no_backend_call l -> backend_calls l = 0%nat.
Proof.
  induction 1 as [|ev l Hev Hl IH]; [reflexivity|].
  unfold backend_calls in *. cbn [filter]. now rewrite Hev.
Qed.

Lemma no_backend_call_no_failed (l : list Event) :
  no_backend_call l -> no_failed_call l.
Proof.
  unfold no_backend_call, no_failed_call. apply Forall_impl.
  intros [req [x|e]|t k]; cbn; congruence.
Qed.

(** How a run of [n] iterations ends, read off the log entries [added]
    by the run:
    - with a final answer: the last entry is a backend call that
      succeeded, and the answer is the content of its first message,
      stripped;
    - on exhaustion, with the [MaxIterationsError] raised after the
      loop: exactly [n] backend calls were made, none failed;
    - with an exception that is none of the classes of [exceptions.py],
      no backend call having failed;
    - after a backend call that failed, the last entry: with the
      [CompletionError] built from its exception when that is derived
      from [Exception], and with that exception itself otherwise. *)
Lemma run_iterations_log (a : Agent W) (tools : option (list pyval)) (n : nat) :
  forall st,
  exists added,
    st_log (snd (run_iterations a tools n st)) = (st_log st ++ added)%list
    /\ (backend_calls added <= n)%nat
    /\ match fst (run_iterations a tools n st) with
       | Ok s =>
           exists l req m ms,
             added = (l ++ [EvBackendCall req (Ok (m :: ms))])%list
             /\ no_failed_call l
             /\ s = strip (match msg_content m with
                           | Some c => c
                           | None => EmptyString
                           end)
       | Raise e =>
           (e = new_exn MaxIterationsError
                  ("Agent exceeded " ++ str_of_Z (max_iterations a)
                   ++ " iterations")
            /\ backend_calls added = n /\ no_failed_call added)
           \/ (issubclass (exc_type e) LocalLLMError = false
               /\ no_failed_call added)
           \/ (exists l req e0,
                  added = (l ++ [EvBackendCall req (Raise e0)])%list
                  /\ no_failed_call l
                  /\ e = if issubclass (exc_type e0) Exception
                         then new_exn_handling e0 CompletionError
                                ("LLM call failed: " ++ exc_str e0)
                         else e0)
       end.
Proof.
  induction n as [|n IH]; intro st.
  - exists []. cbn. rewrite app_nil_r. repeat split; [lia|].
    left. repeat split. constructor.
  - pose proof (run_iterations_step a tools n st) as Hstep.
    cbv zeta in Hstep.
    destruct (client a _ (st_world st)) as [w' resp]. cbn [fst snd] in Hstep.
    destruct resp as [[|m ms]|e0].
    + (* no choice in the response *)
      rewrite Hstep. cbn [fst snd st_log]. eexists. split; [reflexivity|].
      split; [cbn; lia|]. right. left. split; [reflexivity|].
      repeat constructor.
    + destruct (Agent_parse_tool_calls m) as [[[|tc tcs]|]|e] eqn:Hparse.
      * (* an empty list of calls: final answer *)
        rewrite Hstep. cbn [fst snd st_log]. eexists. split; [reflexivity|].
        split; [cbn; lia|]. eexists [], _, m, ms.
        repeat split. constructor.
      * (* tool calls *)
        match type of Hstep with
        | context [execute_tool_calls a ?l ?s2] =>
            destruct (execute_tool_calls_effect a l s2)
              as ((added_t & Hlog_t & Hnb) & Hexc & _);
            destruct (execute_tool_calls a l s2) as [[[]|e] st3]
        end; cbn [fst snd st_log] in *;
        match type of Hlog_t with
        | _ = ((_ ++ [?ev0]) ++ _)%list => set (ev := ev0) in *
        end.
        -- rewrite Hstep.
           destruct (IH st3) as (added' & Hlog' & Hcount & Hend).
           exists ([ev] ++ added_t ++ added')%list.
           split; [rewrite Hlog', Hlog_t; now rewrite <- !app_assoc|].
           split.
           { rewrite !backend_calls_app, (no_backend_call_count _ Hnb).
             cbn. lia. }
           assert (Hpre : forall l, no_failed_call l ->
                      no_failed_call ([ev] ++ added_t ++ l)).
           { intros l Hl. apply Forall_app. split; [repeat constructor|].
             apply Forall_app. split; [|exact Hl].
             now apply no_backend_call_no_failed. }
           destruct (fst (run_iterations a tools n st3)) as [s|e].
           ++ destruct Hend as (l & req & m' & ms' & Hadd & Hnf & Hs).
              exists ([ev] ++ added_t ++ l)%list, req, m', ms'.
              split; [rewrite Hadd; now rewrite <- !app_assoc|].
              split; [now apply Hpre | exact Hs].
           ++ destruct Hend as [(Hmax & Hn & Hnf)
                               | [(Hother & Hnf)
                                 | (l & req & e0 & Hadd & Hnf & He)]].
              ** left. split; [exact Hmax|]. split; [|now apply Hpre].
                 rewrite !backend_calls_app, (no_backend_call_count _ Hnb).
                 cbn. lia.
              ** right. left. split; [exact Hother | now apply Hpre].
              ** right. right. exists ([ev] ++ added_t ++ l)%list, req, e0.
                 split; [rewrite Hadd; now rewrite <- !app_assoc|].
                 split; [now apply Hpre | exact He].
        -- rewrite Hstep. cbn [fst snd].
           exists ([ev] ++ added_t)%list.
           split; [rewrite Hlog_t; now rewrite <- !app_assoc|].
           split.
           { rewrite !backend_calls_app, (no_backend_call_count _ Hnb).
             cbn. lia. }
           right. left. split; [exact (Hexc e eq_refl)|].
           apply Forall_app. split; [repeat constructor|].
           now apply no_backend_call_no_failed.
      * (* no call: final answer *)
        rewrite Hstep. cbn [fst snd st_log]. eexists. split; [reflexivity|].
        split; [cbn; lia|]. eexists [], _, m, ms.
        repeat split. constructor.
      * (* the parse raised *)
        rewrite Hstep. cbn [fst snd st_log]. eexists. split; [reflexivity|].
        split; [cbn; lia|]. right. left.
        split; [now apply Agent_parse_tool_calls_raises with (m := m)|].
        repeat constructor.
    + (* the backend call raised *)
      rewrite Hstep. cbn [fst snd st_log]. eexists. split; [reflexivity|].
      split; [cbn; lia|]. right. right.
      eexists [], _, e0. repeat split. constructor.
Qed.

(** ** How a run of the loop changes the conversation *)

(** The loop changes the conversation only by appending the final
    assistant text, an assistant message with tool calls, and tool turns
    for the calls of the message appended last.  [I] is asserted between
    iterations and [J tcs] while the calls [tcs] are dispatched. *)
Lemma run_iterations_conv (a : Agent W) (tools : option (list pyval))
      (I : ConversationHistory -> Prop)
      (J : list ToolCall -> ConversationHistory -> Prop) :
  (forall h ch c,
      I h -> I (ConversationHistory_add_assistant_message h (String ch c))) ->
  (forall h tcs,
      I h ->
      J tcs (ConversationHistory_add_assistant_tool_calls
               h (MsgAssistantToolCalls tcs))) ->
  (forall h tcs tc result,
      In tc tcs -> J tcs h ->
      J tcs (ConversationHistory_add_tool_result
               h (tc_id tc) (tc_name tc) result)) ->
  (forall h tcs, J tcs h -> I h) ->
  forall n st,
    I (st_conv st) -> I (st_conv (snd (run_iterations a tools n st))).
Proof.
  intros Htext Hcalls Hresult Hdone.
  induction n as [|n IH]; intros st H0; [exact H0|].
  pose proof (run_iterations_step a tools n st) as Hstep.
  cbv zeta in Hstep.
  destruct (client a _ (st_world st)) as [w' resp]. cbn [fst snd] in Hstep.
  destruct resp as [[|m ms]|e0]; try (rewrite Hstep; exact H0).
  destruct (Agent_parse_tool_calls m) as [[[|tc tcs]|]|e];
    try (rewrite Hstep; cbn [snd st_conv];
         destruct (msg_content m) as [[|ch c]|]; auto).
  match type of Hstep with
  | context [execute_tool_calls a ?l ?s2] =>
      destruct (execute_tool_calls_effect a l s2) as (_ & _ & Hinv);
      specialize (Hinv (J l) (fun h tc' r => Hresult h l tc' r));
      destruct (execute_tool_calls a l s2) as [[[]|e] st3]
  end; cbn [fst snd st_conv] in *; rewrite Hstep.
  - apply IH. eapply Hdone, Hinv, Hcalls, H0.
  - cbn [snd]. eapply Hdone, Hinv, Hcalls, H0.
Qed.

(** ** Assistant texts are never empty *)

Lemma skipn_In {A} (n : nat) (l : list A) (x : A) :
  In x (skipn n l) -> In x l.
Proof.
  intro H. rewrite <- (firstn_skipn n l). apply in_or_app. now right.
Qed.

Lemma Forall_trim (P : Message -> Prop) (h : ConversationHistory) :
  Forall P (_messages h) ->
  Forall P (_messages (ConversationHistory_trim_if_needed h)).
Proof.
  intro H. unfold ConversationHistory_trim_if_needed.
  destruct (ConversationHistory_len h <=? _max_messages h); [exact H|].
  cbn [_messages]. apply Forall_app. split.
  - apply Forall_forall. intros m Hm. apply filter_In in Hm.
    eapply Forall_forall in H; [exact H | tauto].
  - apply Forall_forall. intros m Hm. unfold list_slice_from in Hm.
    apply skipn_In in Hm. apply filter_In in Hm.
    eapply Forall_forall in H; [exact H | tauto].
Qed.

Lemma Forall_append_trim (P : Message -> Prop) (h : ConversationHistory)
      (m : Message) :
  P m -> Forall P (_messages h) ->
  Forall P (_messages (ConversationHistory_trim_if_needed (append_message h m))).
Proof.
  intros Hm H. apply Forall_trim. cbn [append_message _messages].
  apply Forall_app. split; [exact H | now constructor].
Qed.

Lemma chat_keeps_assistant_texts_nonempty (a : Agent W) message w :
  assistant_texts_nonempty (messages (conversation a)) ->
  assistant_texts_nonempty
    (messages (conversation (run_agent (Agent_chat a message w)))).
Proof.
  intro H0. unfold Agent_chat, Agent_run_loop.
  match goal with
  | |- context [run_iterations a ?tools ?n ?st0] =>
      pose proof (run_iterations_conv a tools
                    (fun h => assistant_texts_nonempty (messages h))
                    (fun _ h => assistant_texts_nonempty (messages h))) as Hinv;
      specialize (fun H1 H2 H3 H4 => Hinv H1 H2 H3 H4 n st0);
      destruct (run_iterations a tools n st0) as [r st]
  end.
  cbn [run_agent set_conversation conversation snd] in *.
  apply Hinv; clear Hinv; unfold assistant_texts_nonempty, messages in *.
  - intros h ch c Hh. apply Forall_append_trim; [discriminate | exact Hh].
  - intros h tcs Hh. apply Forall_append_trim; [discriminate | exact Hh].
  - intros h tcs tc result _ Hh.
    apply Forall_append_trim; [discriminate | exact Hh].
  - auto.
  - cbn [st_conv]. apply Forall_append_trim; [discriminate | exact H0].
Qed.

Lemma reachable_assistant_texts_nonempty (a : Agent W) :
  reachable a -> assistant_texts_nonempty (messages (conversation a)).
Proof.
  induction 1 as [tools p mdl cl tmp mi mh c1 c2 c3
                 | a message w _ IH | a _ IH | a t _ IH].
  - cbn. destruct p; repeat constructor; discriminate.
  - now apply chat_keeps_assistant_texts_nonempty.
  - cbn. unfold assistant_texts_nonempty, messages in *. cbn.
    apply Forall_forall. intros m Hm. apply filter_In in Hm.
    eapply Forall_forall in IH; [exact IH | tauto].
  - exact IH.
Qed.

(** On a history without empty assistant texts the scan of the code
    (truthy content) finds what the scan of the specification (non-null
    content) finds, and what it finds is not empty. *)
Lemma first_assistant_content_nonnull (l : list Message) :
  assistant_texts_nonempty l ->
  first_assistant_content l = first_nonnull_assistant_content l
  /\ first_assistant_content l <> Some EmptyString.
Proof.
  induction 1 as [|m l Hm Hl IH]; [split; [reflexivity | discriminate]|].
  destruct m as [c|c|c|tcs|id nm c]; cbn; try exact IH.
  destruct c as [|ch c]; [contradiction|]. split; [reflexivity | discriminate].
Qed.

(** ** [Agent.chat] *)

Lemma Agent_chat_unfold (a : Agent W) (message : string) (w : W) :
  let R := Agent_run_loop a
             (mk_state (ConversationHistory_add_user_message
                          (conversation a) message) w []) in
  Agent_chat a message w
  = mk_run (chat_handlers (fst R) (st_conv (snd R)))
           (set_conversation a (st_conv (snd R)))
           (st_world (snd R)) (st_log (snd R)).
Proof.
  cbv zeta. unfold Agent_chat.
  destruct (Agent_run_loop a _) as [r st]. reflexivity.
Qed.

(** The log of a [chat] call, as [run_iterations_log] describes it. *)
Lemma Agent_chat_log (a : Agent W) (message : string) (w : W) :
  let R := Agent_run_loop a
             (mk_state (ConversationHistory_add_user_message
                          (conversation a) message) w []) in
  (backend_calls (run_log (Agent_chat a message w))
   <= Z.to_nat (max_iterations a))%nat
  /\ match fst R with
     | Ok s =>
         exists l req m ms,
           run_log (Agent_chat a message w)
           = (l ++ [EvBackendCall req (Ok (m :: ms))])%list
           /\ no_failed_call l
           /\ s = strip (match msg_content m with
                         | Some c => c
                         | None => EmptyString
                         end)
     | Raise e =>
         (e = new_exn MaxIterationsError
                ("Agent exceeded " ++ str_of_Z (max_iterations a)
                 ++ " iterations")
          /\ backend_calls (run_log (Agent_chat a message w))
             = Z.to_nat (max_iterations a)
          /\ no_failed_call (run_log (Agent_chat a message w)))
         \/ (issubclass (exc_type e) LocalLLMError = false
             /\ no_failed_call (run_log (Agent_chat a message w)))
         \/ (exists l req e0,
                run_log (Agent_chat a message w)
                = (l ++ [EvBackendCall req (Raise e0)])%list
                /\ no_failed_call l
                /\ e = if issubclass (exc_type e0) Exception
                       then new_exn_handling e0 CompletionError
                              ("LLM call failed: " ++ exc_str e0)
                       else e0)
     end.
Proof.
  cbv zeta. rewrite Agent_chat_unfold. cbv zeta. cbn [run_log].
  unfold Agent_run_loop.
  match goal with
  | |- context [run_iterations a ?tools ?n ?st0] =>
      destruct (run_iterations_log a tools n st0) as (added & Hlog & Hcount & Hend);
      destruct (run_iterations a tools n st0) as [r st]
  end.
  cbn [fst snd st_log app] in *. subst. split; [exact Hcount | exact Hend].
Qed.

(** The loop raises [MaxIterationsError] only after the last iteration:
    whatever else leaves the loop is no [MaxIterationsError]. *)
Lemma loop_exception_classes (a : Agent W) (message : string) (w : W) (e : exn) :
  fst (Agent_run_loop a
         (mk_state (ConversationHistory_add_user_message
                      (conversation a) message) w [])) = Raise e ->
  (issubclass (exc_type e) MaxIterationsError = true
   /\ backend_calls (run_log (Agent_chat a message w))
      = Z.to_nat (max_iterations a)
   /\ no_failed_call (run_log (Agent_chat a message w)))
  \/ (issubclass (exc_type e) MaxIterationsError = false
      /\ issubclass (exc_type e) LocalLLMError = false
      /\ no_failed_call (run_log (Agent_chat a message w)))
  \/ (issubclass (exc_type e) MaxIterationsError = false
      /\ exists l req e0,
           run_log (Agent_chat a message w)
           = (l ++ [EvBackendCall req (Raise e0)])%list
           /\ no_failed_call l
           /\ e = if issubclass (exc_type e0) Exception
                  then new_exn_handling e0 CompletionError
                         ("LLM call failed: " ++ exc_str e0)
                  else e0).
Proof.
  intro Hloop. destruct (Agent_chat_log a message w) as [_ Hend].
  cbv zeta in Hend. rewrite Hloop in Hend.
  destruct Hend as [(-> & Hn & Hnf)
                   | [(Hother & Hnf) | (l & req & e0 & Hlog & Hnf & He)]].
  - left. auto.
  - right. left.
    auto using not_LocalLLMError_not_MaxIterationsError.
  - right. right. split; [|eauto 6].
    subst e. destruct (issubclass (exc_type e0) Exception) eqn:Hcls;
      [reflexivity|].
    now apply not_LocalLLMError_not_MaxIterationsError,
      not_Exception_not_LocalLLMError.
Qed.

(** The true half of the termination property: a [chat] call never
    makes more than [max_iterations] backend calls, and makes exactly
    that many when the loop ends in exhaustion. *)
Lemma chat_backend_calls_bounded (a : Agent W) (message : string) (w : W) :
  (backend_calls (run_log (Agent_chat a message w))
   <= Z.to_nat (max_iterations a))%nat
  /\ (forall e,
         fst (Agent_run_loop a
                (mk_state (ConversationHistory_add_user_message
                             (conversation a) message) w [])) = Raise e ->
         exc_type e = MaxIterationsError ->
         backend_calls (run_log (Agent_chat a message w))
         = Z.to_nat (max_iterations a)).
Proof.
  destruct (Agent_chat_log a message w) as [Hcount _].
  split; [exact Hcount|]. intros e He Hmax.
  destruct (loop_exception_classes a message w e He)
    as [(_ & Hn & _) | [(Hother & _) | (Hother & _)]];
    [exact Hn | |]; rewrite Hmax in Hother; discriminate.
Qed.

(** C2.  When the loop of a [chat] call on a reachable agent ends in
    exhaustion, [chat] returns text and does not raise: the content of
    the most recent assistant message with non-null content, followed by
    a blank line and the bracketed notice that the iteration bound was
    reached, or, when the history has no such message, the fixed
    bracketed message that asks to rephrase. *)
Theorem chat_exhaustion_degrades_to_text
        (a : Agent W) (message : string) (w : W) (e : exn) :
  reachable a ->
  fst (Agent_run_loop a
         (mk_state (ConversationHistory_add_user_message
                      (conversation a) message) w [])) = Raise e ->
  exc_type e = MaxIterationsError ->
  run_result (Agent_chat a message w)
  = Ok (match last_assistant_text
                (conversation (run_agent (Agent_chat a message w))) with
        | Some last =>
            last ++ nl ++ nl ++ "[Stopped: reached maximum tool iterations]"
        | None =>
            "[Agent reached maximum iterations without producing a final answer. Please try rephrasing your question.]"
        end).
Proof.
  intros Hreach Hloop Hmax.
  pose proof (chat_keeps_assistant_texts_nonempty a message w
                (reachable_assistant_texts_nonempty a Hreach)) as Htexts.
  rewrite Agent_chat_unfold in *. cbv zeta in *.
  cbn [run_result run_agent set_conversation conversation] in *.
  rewrite Hloop. unfold chat_handlers. rewrite Hmax.
  change (issubclass MaxIterationsError MaxIterationsError) with true.
  cbv iota.
  unfold ConversationHistory_get_last_assistant_content, last_assistant_text.
  unfold assistant_texts_nonempty, messages in Htexts.
  apply Forall_rev in Htexts.
  destruct (first_assistant_content_nonnull _ Htexts) as [Heq Hne].
  rewrite <- Heq.
  destruct (first_assistant_content _) as [[|ch c]|];
    [congruence | reflexivity | reflexivity].
Qed.

(** The content that the scan of [get_last_assistant_content] finds is
    never empty. *)
Lemma first_assistant_content_truthy (l : list Message) (c : string) :
  first_assistant_content l = Some c -> c <> EmptyString.
Proof.
  induction l as [|m l IH]; [discriminate|].
  destruct m as [x|x|x|tcs|id nm x]; cbn; auto.
  destruct x; auto. intro H. inversion H. discriminate.
Qed.

(** C9, as the code has it.  A [chat] call ends in one of these ways.
    The loop returned a final answer, and [chat] returns it: the
    stripped content of the first message of the last backend response,
    which is the empty string exactly when that content is null, empty
    or blank.  The loop ended in exhaustion, and [chat] returns a text
    that is not empty: the last assistant content of the history with
    the notice, or the fixed message.  The loop raised anything else,
    and [chat] raises: [AgentError] in place of an exception derived
    from [Exception], and any other exception as it is. *)
Theorem chat_returns_text_or_raises
        (a : Agent W) (message : string) (w : W) :
  match fst (Agent_run_loop a
               (mk_state (ConversationHistory_add_user_message
                            (conversation a) message) w [])) with
  | Ok s =>
      run_result (Agent_chat a message w) = Ok s
      /\ exists l req m ms,
           let final := match msg_content m with
                        | Some c => c
                        | None => EmptyString
                        end in
           run_log (Agent_chat a message w)
           = (l ++ [EvBackendCall req (Ok (m :: ms))])%list
           /\ s = strip final
           /\ (s = EmptyString <-> blank final = true)
  | Raise e =>
      if issubclass (exc_type e) MaxIterationsError
      then
        exists s,
          run_result (Agent_chat a message w) = Ok s
          /\ s <> EmptyString
          /\ s = match ConversationHistory_get_last_assistant_content
                         (conversation (run_agent (Agent_chat a message w)))
                 with
                 | Some last =>
                     last ++ nl ++ nl
                     ++ "[Stopped: reached maximum tool iterations]"
                 | None =>
                     "[Agent reached maximum iterations without producing a final answer. Please try rephrasing your question.]"
                 end
      else if issubclass (exc_type e) Exception
      then run_result (Agent_chat a message w)
           = Raise (mk_exn AgentError ("Agent failed: " ++ exc_str e) (Some e))
      else run_result (Agent_chat a message w) = Raise e
  end.
Proof.
  destruct (Agent_chat_log a message w) as [_ Hend].
  rewrite Agent_chat_unfold in *. cbv zeta in *.
  cbn [run_result run_log run_agent set_conversation conversation] in *.
  destruct (fst (Agent_run_loop a _)) as [s|e].
  - split; [reflexivity|].
    destruct Hend as (l & req & m & ms & Hlog & _ & Hs).
    exists l, req, m, ms. split; [exact Hlog|]. split; [exact Hs|].
    subst s. apply strip_empty_iff_blank.
  - unfold chat_handlers.
    destruct (issubclass (exc_type e) MaxIterationsError);
      [|destruct (issubclass (exc_type e) Exception); reflexivity].
    unfold ConversationHistory_get_last_assistant_content.
    destruct (first_assistant_content _) as [last|] eqn:Hlast.
    + apply first_assistant_content_truthy in Hlast.
      destruct last as [|ch c]; [congruence|].
      eexists. split; [reflexivity|]. split; [discriminate | reflexivity].
    + eexists. split; [reflexivity|]. split; [discriminate | reflexivity].
Qed.

(** C8, as the code has it.  When a backend call of a [chat] call
    fails, it is the last entry of the log, so the call is not retried
    and nothing follows it.  When its exception is derived from
    [Exception], [chat] raises [AgentError] with the text of that
    exception after the prefixes [Agent failed: ] and
    [LLM call failed: ], chained to the [CompletionError] of the loop,
    which is chained to the backend's exception; any other exception of
    the backend leaves [chat] as it is.  Every other fault of the loop
    leaves [chat] in the same two ways, so its class is [AgentError] as
    well; the exception chained to it is none of the classes of
    [exceptions.py]. *)
Theorem backend_failure_ends_chat
        (a : Agent W) (message : string) (w : W) (req : Request) (e0 : exn) :
  In (EvBackendCall req (Raise e0)) (run_log (Agent_chat a message w)) ->
  (exists l,
      run_log (Agent_chat a message w)
      = (l ++ [EvBackendCall req (Raise e0)])%list
      /\ no_failed_call l)
  /\ run_result (Agent_chat a message w)
     = Raise (if issubclass (exc_type e0) Exception
              then mk_exn AgentError
                     ("Agent failed: LLM call failed: " ++ exc_str e0)
                     (Some (mk_exn CompletionError
                              ("LLM call failed: " ++ exc_str e0)
                              (Some e0)))
              else e0)
  /\ (forall (a' : Agent W) message' w' e,
         run_result (Agent_chat a' message' w') = Raise e ->
         no_failed_call (run_log (Agent_chat a' message' w')) ->
         (exc_type e = AgentError
          /\ exists e',
               exc_context e = Some e'
               /\ exc_str e = "Agent failed: " ++ exc_str e'
               /\ issubclass (exc_type e') Exception = true
               /\ issubclass (exc_type e') LocalLLMError = false)
         \/ issubclass (exc_type e) Exception = false).
Proof.
  intro Hin.
  assert (Hnot : forall rq e1 l, no_failed_call l ->
                                 ~ In (EvBackendCall rq (Raise e1)) l).
  { intros rq e1 l Hl Hinl. unfold no_failed_call in Hl.
    eapply Forall_forall in Hl; [|exact Hinl]. discriminate. }
  split; [|split].
  - destruct (Agent_chat_log a message w) as [_ Hend]. cbv zeta in Hend.
    destruct (fst (Agent_run_loop a _)) as [s|e].
    + destruct Hend as (l & rq & m & ms & Hlog & Hnf & _).
      rewrite Hlog in Hin. apply in_app_or in Hin.
      destruct Hin as [Hin | [Hin | []]];
        [now apply Hnot in Hin | discriminate].
    + destruct Hend as [(_ & _ & Hnf)
                       | [(_ & Hnf) | (l & rq & e1 & Hlog & Hnf & _)]];
        try (now apply Hnot in Hin).
      rewrite Hlog in Hin. apply in_app_or in Hin.
      destruct Hin as [Hin | [Hin | []]]; [now apply Hnot in Hin|].
      inversion Hin; subst rq e1. exists l. split; assumption.
  - destruct (Agent_chat_log a message w) as [_ Hend].
    pose proof (Agent_chat_unfold a message w) as Hunf. cbv zeta in *.
    destruct (fst (Agent_run_loop a _)) as [s|e] eqn:Hloop.
    + destruct Hend as (l & rq & m & ms & Hlog & Hnf & _).
      rewrite Hlog in Hin. apply in_app_or in Hin.
      destruct Hin as [Hin | [Hin | []]];
        [now apply Hnot in Hin | discriminate].
    + destruct Hend as [(_ & _ & Hnf)
                       | [(_ & Hnf) | (l & rq & e1 & Hlog & Hnf & He)]];
        try (now apply Hnot in Hin).
      assert (Hsame : EvBackendCall rq (Raise e1)
                      = EvBackendCall req (Raise e0)).
      { rewrite Hlog in Hin. apply in_app_or in Hin.
        destruct Hin as [Hin | [Hin | []]];
          [now apply Hnot in Hin | exact Hin]. }
      inversion Hsame; subst rq e1.
      rewrite Hunf. cbn [run_result]. subst e. unfold chat_handlers.
      destruct (issubclass (exc_type e0) Exception) eqn:Hcls.
      * reflexivity.
      * rewrite (not_LocalLLMError_not_MaxIterationsError _
                   (not_Exception_not_LocalLLMError _ Hcls)), Hcls.
        reflexivity.
  - intros a' message' w' e He Hnf.
    destruct (Agent_chat_log a' message' w') as [_ Hend].
    pose proof (Agent_chat_unfold a' message' w') as Hunf. cbv zeta in *.
    rewrite Hunf in He. cbn [run_result] in He.
    destruct (fst (Agent_run_loop a' _)) as [s|e1]; [discriminate|].
    unfold chat_handlers in He.
    destruct Hend as [(-> & _) | [(Hother & _) | (l & rq & e2 & Hlog & _)]].
    + cbn in He.
      destruct (ConversationHistory_get_last_assistant_content _)
        as [[|ch c]|]; discriminate.
    + rewrite (not_LocalLLMError_not_MaxIterationsError _ Hother) in He.
      destruct (issubclass (exc_type e1) Exception) eqn:Hcls;
        inversion He; subst e.
      * left. split; [reflexivity|]. exists e1. auto.
      * right. exact Hcls.
    + exfalso. rewrite Hlog in Hnf. apply (Hnot rq e2 _ Hnf).
      apply in_or_app. right. now left.
Qed.

(** ** Correlation of tool turns *)

Lemma correlated_from_snoc (accept : nat -> bool) (l : list Message) (m : Message) :
  forall seen,
    correlated_from accept seen (l ++ [m])
    = correlated_from accept seen l
      && tool_turn_ok accept (seen ++ invocation_ids l) m.
Proof.
  induction l as [|x l IH]; intro seen; cbn [app correlated_from].
  - cbn. now rewrite app_nil_r, andb_true_r.
  - rewrite IH. unfold invocation_ids. cbn [flat_map].
    now rewrite app_assoc, andb_assoc.
Qed.

Lemma correlated_from_system (accept : nat -> bool) (l : list Message) :
  Forall (fun m => is_system m = true) l ->
  forall seen, correlated_from accept seen l = true.
Proof.
  induction 1 as [|m l Hm Hl IH]; intro seen; [reflexivity|].
  destruct m; try discriminate. cbn. rewrite app_nil_r. apply IH.
Qed.

(** ** [ToolRegistry] *)

Lemma dict_lookup_set {V} (d : list (string * V)) (k k' : string) (v : V) :
  dict_lookup (dict_set d k v) k'
  = if String.eqb k' k then Some v else dict_lookup d k'.
Proof.
  induction d as [|[k0 v0] d IH]; cbn [dict_set dict_lookup].
  - rewrite String.eqb_sym. reflexivity.
  - destruct (String.eqb k0 k) eqn:Hk0; cbn [dict_lookup].
    + apply String.eqb_eq in Hk0. subst k0.
      rewrite (String.eqb_sym k k'). destruct (String.eqb k' k); reflexivity.
    + rewrite IH. destruct (String.eqb k0 k') eqn:Hk0'; [|reflexivity].
      apply String.eqb_eq in Hk0'. subst k0.
      now rewrite Hk0.
Qed.

Lemma dict_set_keys {V} (d : list (string * V)) (k : string) (v : V) :
  map fst (dict_set d k v)
  = if existsb (fun kv => String.eqb (fst kv) k) d
    then map fst d
    else (map fst d ++ [k])%list.
Proof.
  induction d as [|[k0 v0] d IH]; [reflexivity|].
  cbn [dict_set existsb fst].
  destruct (String.eqb k0 k) eqn:Hk0; cbn [orb map fst]; [reflexivity|].
  rewrite IH. destruct (existsb _ d); reflexivity.
Qed.

Lemma existsb_key_In {V} (d : list (string * V)) (k : string) :
  existsb (fun kv => String.eqb (fst kv) k) d = true <-> In k (map fst d).
Proof.
  rewrite existsb_exists. split.
  - intros ([k0 v0] & Hin & Heq). apply String.eqb_eq in Heq. cbn in Heq.
    subst k0. now apply (in_map fst) in Hin.
  - intro Hin. apply in_map_iff in Hin. destruct Hin as ([k0 v0] & Heq & Hin).
    cbn in Heq. subst k0. exists (k, v0). split; [exact Hin|].
    apply String.eqb_refl.
Qed.

Lemma dict_lookup_In {V} (d : list (string * V)) (k : string) (v : V) :
  NoDup (map fst d) -> In (k, v) d -> dict_lookup d k = Some v.
Proof.
  induction d as [|[k0 v0] d IH]; intros Hnd Hin; [contradiction|].
  cbn [map fst] in Hnd. inversion Hnd as [|? ? Hnotin Hnd']; subst.
  cbn [dict_lookup]. destruct Hin as [Heq | Hin].
  - inversion Heq; subst. now rewrite String.eqb_refl.
  - destruct (String.eqb k0 k) eqn:Hk0.
    + apply String.eqb_eq in Hk0. subst k0.
      exfalso. apply Hnotin. now apply (in_map fst) in Hin.
    + now apply IH.
Qed.

(** X1.  Lookup after registration: the registered tool is found under
    its name, and every other name is looked up as before. *)
Theorem ToolRegistry_get_after_register (r : ToolRegistry W) (t : Tool W)
        (k : string) :
  ToolRegistry_get (ToolRegistry_register r t) (PStr k)
  = if String.eqb k (name t) then Ok (Some t)
    else ToolRegistry_get r (PStr k).
Proof.
  unfold ToolRegistry_get, ToolRegistry_register. cbn [_tools].
  rewrite dict_lookup_set. destruct (String.eqb k (name t)); reflexivity.
Qed.

(** X2.  Registration is last-write-wins without duplicates: a name
    that is already registered keeps its place and the registry its
    size; a new name goes to the end and the size grows by one. *)
Theorem ToolRegistry_register_keys (r : ToolRegistry W) (t : Tool W) :
  match ToolRegistry_contains r (PStr (name t)) with
  | Ok true =>
      registry_keys (ToolRegistry_register r t) = registry_keys r
      /\ ToolRegistry_len (ToolRegistry_register r t) = ToolRegistry_len r
  | _ =>
      registry_keys (ToolRegistry_register r t)
      = (registry_keys r ++ [name t])%list
      /\ ToolRegistry_len (ToolRegistry_register r t)
         = ToolRegistry_len r + 1
  end.
Proof.
  unfold ToolRegistry_contains, registry_keys, ToolRegistry_register,
    ToolRegistry_len. cbn [_tools].
  pose proof (dict_set_keys (_tools r) (name t) t) as Hkeys.
  assert (Hlen : forall d : list (string * Tool W),
             List.length d = List.length (map fst d))
    by (intro d; now rewrite length_map).
  destruct (existsb _ (_tools r));
    (split; [exact Hkeys|]);
    rewrite (Hlen (dict_set _ _ _)), Hkeys, ?length_app, <- ?Hlen;
    cbn [List.length]; lia.
Qed.

(** X3.  Membership agrees with lookup on every key: [in] answers
    whether [get] finds a tool, and raises where [get] raises. *)
Theorem ToolRegistry_contains_get (r : ToolRegistry W) (key : pyval) :
  ToolRegistry_contains r key
  = match ToolRegistry_get r key with
    | Ok (Some _) => Ok true
    | Ok None => Ok false
    | Raise e => Raise e
    end.
Proof.
  destruct key; try reflexivity. cbn [ToolRegistry_contains ToolRegistry_get].
  induction (_tools r) as [|[k0 v0] d IH]; [reflexivity|].
  cbn [existsb dict_lookup fst].
  destruct (String.eqb k0 s); [reflexivity|]. exact IH.
Qed.

Lemma register_keeps_registry_wf (r : ToolRegistry W) (t : Tool W) :
  registry_wf r -> registry_wf (ToolRegistry_register r t).
Proof.
  intros [Hnd Hnames]. unfold registry_wf, registry_keys, ToolRegistry_register.
  cbn [_tools]. split.
  - rewrite dict_set_keys.
    destruct (existsb _ (_tools r)) eqn:Hex; [exact Hnd|].
    apply NoDup_app; [exact Hnd | repeat constructor; intros [] |].
    intros k Hin [Heq | []]. subst k.
    apply existsb_key_In in Hin. congruence.
  - clear Hnd. unfold registry_keys in *.
    induction Hnames as [|[k0 v0] d Hk0 Hd IH]; cbn [dict_set].
    + repeat constructor.
    + destruct (String.eqb k0 (name t)) eqn:Hk.
      * apply String.eqb_eq in Hk. constructor; [exact Hk | exact Hd].
      * constructor; [exact Hk0 | exact IH].
Qed.

Lemma reachable_registry_wf (a : Agent W) :
  reachable a -> registry_wf (registry a).
Proof.
  induction 1 as [tools p mdl cl tmp mi mh c1 c2 c3
                 | a message w _ IH | a _ IH | a t _ IH].
  - cbn [Agent_init registry].
    assert (Hfold : forall (ts : list (Tool W)) r,
               registry_wf r -> registry_wf (fold_left ToolRegistry_register ts r)).
    { induction ts as [|t ts IHts]; intros r Hr; [exact Hr|].
      cbn [fold_left]. apply IHts. now apply register_keeps_registry_wf. }
    apply Hfold. split; constructor.
  - rewrite Agent_chat_unfold. exact IH.
  - exact IH.
  - cbn [Agent_add_tool registry]. now apply register_keeps_registry_wf.
Qed.

(** X4.  The registry of every agent reachable through the operations
    of [Agent] holds no name twice, and each tool it lists is the one
    that a lookup of the tool's name returns. *)
Theorem listed_tools_are_found (a : Agent W) (t : Tool W) :
  reachable a ->
  In t (ToolRegistry_list_tools (registry a)) ->
  NoDup (registry_keys (registry a))
  /\ ToolRegistry_get (registry a) (PStr (name t)) = Ok (Some t).
Proof.
  intros Hreach Hin.
  destruct (reachable_registry_wf a Hreach) as [Hnd Hnames].
  split; [exact Hnd|].
  unfold ToolRegistry_list_tools in Hin. apply in_map_iff in Hin.
  destruct Hin as ([k0 t0] & Heq & Hin). cbn in Heq. subst t0.
  pose proof Hin as Hin'.
  eapply Forall_forall in Hnames; [|exact Hin]. cbn in Hnames. subst k0.
  unfold ToolRegistry_get. f_equal.
  now apply dict_lookup_In.
Qed.

(** ** [ConversationHistory]: what trimming and appending keep *)

Lemma filter_filter_same {A} (p : A -> bool) (l : list A) :
  filter p (filter p l) = filter p l.
Proof.
  induction l as [|x l IH]; [reflexivity|]. cbn [filter].
  destruct (p x) eqn:Hp; [|exact IH]. cbn [filter]. now rewrite Hp, IH.
Qed.

Lemma filter_none {A} (p : A -> bool) (l : list A) :
  (forall x, In x l -> p x = false) -> filter p l = [].
Proof.
  induction l as [|x l IH]; intro H; [reflexivity|]. cbn [filter].
  rewrite (H x (or_introl eq_refl)). apply IH. intros y Hy. apply H. now right.
Qed.

Lemma filter_all {A} (p : A -> bool) (l : list A) :
  (forall x, In x l -> p x = true) -> filter p l = l.
Proof.
  induction l as [|x l IH]; intro H; [reflexivity|]. cbn [filter].
  rewrite (H x (or_introl eq_refl)). f_equal. apply IH.
  intros y Hy. apply H. now right.
Qed.

Lemma slice_of_non_system (l : list Message) (i : Z) (m : Message) :
  In m (list_slice_from (filter not_system l) i) -> is_system m = false.
Proof.
  intro Hin. unfold list_slice_from in Hin. apply skipn_In in Hin.
  apply filter_In in Hin. destruct Hin as [_ Hns].
  unfold not_system in Hns. now apply negb_true_iff in Hns.
Qed.

Lemma trimmed_system_part (l : list Message) (i : Z) :
  filter is_system (filter is_system l ++ list_slice_from (filter not_system l) i)
  = filter is_system l.
Proof.
  rewrite filter_app, filter_filter_same.
  rewrite (filter_none is_system (list_slice_from (filter not_system l) i)).
  - apply app_nil_r.
  - intros m Hm. now apply slice_of_non_system in Hm.
Qed.

Lemma trimmed_non_system_part (l : list Message) (i : Z) :
  filter not_system
         (filter is_system l ++ list_slice_from (filter not_system l) i)
  = list_slice_from (filter not_system l) i.
Proof.
  rewrite filter_app.
  rewrite (filter_none not_system (filter is_system l)).
  - cbn [app]. apply filter_all. intros m Hm.
    apply slice_of_non_system in Hm. unfold not_system. now rewrite Hm.
  - intros m Hm. apply filter_In in Hm. unfold not_system.
    destruct Hm as [_ ->]. reflexivity.
Qed.

Lemma trim_keeps_system_messages (h : ConversationHistory) :
  filter is_system (messages (ConversationHistory_trim_if_needed h))
  = filter is_system (messages h).
Proof.
  unfold ConversationHistory_trim_if_needed, messages.
  destruct (ConversationHistory_len h <=? _max_messages h); [reflexivity|].
  cbn [_messages]. apply trimmed_system_part.
Qed.

(** X5.  Trimming never drops a system message, and what it drops of
    the other messages is a prefix: the retained non-system messages
    are the most recent ones, in their order, each once. *)
Theorem trim_drops_only_oldest_non_system (h : ConversationHistory) :
  filter is_system (messages (ConversationHistory_trim_if_needed h))
  = filter is_system (messages h)
  /\ exists dropped,
       filter not_system (messages h)
       = (dropped
          ++ filter not_system
               (messages (ConversationHistory_trim_if_needed h)))%list.
Proof.
  split; [apply trim_keeps_system_messages|].
  unfold ConversationHistory_trim_if_needed, messages.
  destruct (ConversationHistory_len h <=? _max_messages h).
  - now exists [].
  - cbn [_messages]. rewrite trimmed_non_system_part.
    unfold list_slice_from. eexists. symmetry. apply firstn_skipn.
Qed.

Lemma append_trim_newest_last (h : ConversationHistory) (m : Message) :
  is_system m = false ->
  Z.of_nat (List.length (filter is_system (messages h))) < _max_messages h ->
  exists older,
    messages (ConversationHistory_trim_if_needed (append_message h m))
    = (older ++ [m])%list.
Proof.
  intros Hm Hroom. unfold ConversationHistory_trim_if_needed, messages in *.
  destruct (ConversationHistory_len (append_message h m)
            <=? _max_messages (append_message h m)) eqn:Hfits.
  - now exists (_messages h).
  - cbn [append_message _messages _max_messages].
    assert (Hsys : filter is_system (_messages h ++ [m])
                   = filter is_system (_messages h)).
    { rewrite filter_app. cbn [filter]. rewrite Hm. apply app_nil_r. }
    assert (Hnon : filter not_system (_messages h ++ [m])
                   = (filter not_system (_messages h) ++ [m])%list).
    { rewrite filter_app. cbn [filter]. unfold not_system at 2.
      now rewrite Hm. }
    rewrite Hsys, Hnon. unfold list_slice_from, norm_index.
    rewrite length_app. cbn [List.length].
    set (ns := List.length (filter not_system (_messages h))).
    set (keep := _max_messages h
                 - Z.of_nat (List.length (filter is_system (_messages h)))).
    assert (Hneg : (- keep <? 0) = true) by (apply Z.ltb_lt; lia).
    rewrite Hneg. rewrite skipn_app. fold ns.
    replace (Z.to_nat (Z.max 0 (Z.of_nat (ns + 1) + - keep)) - ns)%nat
      with 0%nat by lia.
    cbn [skipn]. eexists. apply app_assoc.
Qed.

(** X6.  Every append is [_trim_if_needed] after [append].  When the
    cap leaves room beside the system messages, appending a message
    that is not a system message leaves at most [max_messages]
    messages, keeps the system messages as they were, and the appended
    message is the last one: it is never the one that is trimmed. *)
Theorem append_within_cap_keeps_newest (h : ConversationHistory) (m : Message) :
  is_system m = false ->
  Z.of_nat (List.length (filter is_system (messages h))) < _max_messages h ->
  let h' := ConversationHistory_add_assistant_tool_calls h m in
  ConversationHistory_len h' <= _max_messages h'
  /\ filter is_system (messages h') = filter is_system (messages h)
  /\ (exists older, messages h' = (older ++ [m])%list)
  /\ (forall c, ConversationHistory_add_user_message h c
                = ConversationHistory_add_assistant_tool_calls h (MsgUser c))
  /\ (forall c, ConversationHistory_add_assistant_message h c
                = ConversationHistory_add_assistant_tool_calls h (MsgAssistant c))
  /\ (forall id nm c,
         ConversationHistory_add_tool_result h id nm c
         = ConversationHistory_add_assistant_tool_calls h (MsgTool id nm c)).
Proof.
  intros Hm Hroom h'. subst h'.
  unfold ConversationHistory_add_assistant_tool_calls.
  assert (Hsys : filter is_system (messages (append_message h m))
                 = filter is_system (messages h)).
  { unfold messages. cbn [append_message _messages].
    rewrite filter_app. cbn [filter]. rewrite Hm. apply app_nil_r. }
  split; [|split; [|split; [|repeat split]]].
  - rewrite trim_max_messages. apply trim_length_le.
    unfold messages in *. rewrite Hsys. exact Hroom.
  - rewrite trim_keeps_system_messages. exact Hsys.
  - now apply append_trim_newest_last.
Qed.

Lemma clear_splits (h : ConversationHistory) :
  filter is_system (messages (ConversationHistory_clear h))
  = filter is_system (messages h)
  /\ filter not_system (messages (ConversationHistory_clear h)) = [].
Proof.
  unfold ConversationHistory_clear, messages. cbn [_messages]. split.
  - apply filter_filter_same.
  - apply filter_none. intros m Hm. apply filter_In in Hm.
    unfold not_system. destruct Hm as [_ ->]. reflexivity.
Qed.

(** X7.  [clear] keeps the system messages and nothing else, keeps the
    cap, can be repeated without effect, and leaves no assistant text
    behind. *)
Theorem clear_keeps_only_system_messages (h : ConversationHistory) :
  filter is_system (messages (ConversationHistory_clear h))
  = filter is_system (messages h)
  /\ filter not_system (messages (ConversationHistory_clear h)) = []
  /\ _max_messages (ConversationHistory_clear h) = _max_messages h
  /\ ConversationHistory_clear (ConversationHistory_clear h)
     = ConversationHistory_clear h
  /\ ConversationHistory_get_last_assistant_content
       (ConversationHistory_clear h) = None.
Proof.
  destruct (clear_splits h) as [Hsys Hnon].
  split; [exact Hsys|]. split; [exact Hnon|]. split; [reflexivity|].
  unfold ConversationHistory_clear, messages,
    ConversationHistory_get_last_assistant_content. cbn [_messages _max_messages].
  split; [now rewrite filter_filter_same|].
  assert (Hrev : forall m, In m (rev (filter is_system (_messages h))) ->
                           is_system m = true).
  { intros m Hm. apply in_rev in Hm. apply filter_In in Hm. tauto. }
  induction (rev (filter is_system (_messages h))) as [|m l IH];
    [reflexivity|].
  pose proof (Hrev m (or_introl eq_refl)) as Hm.
  destruct m; try discriminate. cbn [first_assistant_content].
  apply IH. intros x Hx. apply Hrev. now right.
Qed.

(** X8.  While the history is below its cap, the last assistant content
    after an append is: the appended text for an assistant message with
    a non-empty text; unchanged for an assistant message with the empty
    text, for a user message, for a tool turn and for a record of tool
    calls. *)
Theorem last_assistant_content_after_append (h : ConversationHistory) :
  ConversationHistory_len h < _max_messages h ->
  (forall c,
      ConversationHistory_get_last_assistant_content
        (ConversationHistory_add_assistant_message h c)
      = match c with
        | EmptyString => ConversationHistory_get_last_assistant_content h
        | _ => Some c
        end)
  /\ (forall c,
         ConversationHistory_get_last_assistant_content
           (ConversationHistory_add_user_message h c)
         = ConversationHistory_get_last_assistant_content h)
  /\ (forall id nm c,
         ConversationHistory_get_last_assistant_content
           (ConversationHistory_add_tool_result h id nm c)
         = ConversationHistory_get_last_assistant_content h)
  /\ (forall tcs,
         ConversationHistory_get_last_assistant_content
           (ConversationHistory_add_assistant_tool_calls
              h (MsgAssistantToolCalls tcs))
         = ConversationHistory_get_last_assistant_content h).
Proof.
  intro Hroom.
  assert (Happ : forall m,
             ConversationHistory_get_last_assistant_content
               (ConversationHistory_trim_if_needed (append_message h m))
             = first_assistant_content (m :: rev (_messages h))).
  { intro m. rewrite trim_unchanged.
    - unfold ConversationHistory_get_last_assistant_content.
      cbn [append_message _messages]. now rewrite rev_app_distr.
    - unfold ConversationHistory_len in *.
      cbn [append_message _messages _max_messages].
      rewrite length_app. cbn [List.length]. lia. }
  repeat split; intros;
    unfold ConversationHistory_add_assistant_message,
      ConversationHistory_add_user_message,
      ConversationHistory_add_tool_result,
      ConversationHistory_add_assistant_tool_calls;
    rewrite Happ; reflexivity.
Qed.

(** X9.  When the cap leaves room beside the system messages, trimming
    a trimmed history changes nothing. *)
Theorem trim_idempotent (h : ConversationHistory) :
  Z.of_nat (List.length (filter is_system (messages h))) < _max_messages h ->
  ConversationHistory_trim_if_needed (ConversationHistory_trim_if_needed h)
  = ConversationHistory_trim_if_needed h.
Proof.
  intro Hroom. apply trim_unchanged. rewrite trim_max_messages.
  now apply trim_length_le.
Qed.

(** ** Correlation of tool turns: below the cap *)

(** What trimming drops of the non-system messages is a prefix of
    them, and nothing when the history is within its cap. *)
Lemma trim_non_system_suffix (h : ConversationHistory) :
  exists dropped,
    filter not_system (_messages h)
    = (dropped
       ++ filter not_system
            (_messages (ConversationHistory_trim_if_needed h)))%list
    /\ (ConversationHistory_len h <= _max_messages h -> dropped = []).
Proof.
  unfold ConversationHistory_trim_if_needed.
  destruct (ConversationHistory_len h <=? _max_messages h) eqn:Hfits.
  - exists []. split; reflexivity.
  - cbn [_messages]. rewrite trimmed_non_system_part.
    unfold list_slice_from. eexists. split.
    + symmetry. apply firstn_skipn.
    + intro Hle. apply Z.leb_le in Hle. congruence.
Qed.

Lemma correlated_below_cap_append (h : ConversationHistory) (m : Message)
      (pending pending' : list string) :
  correlated_below_cap pending h ->
  (forall seen, incl pending seen -> tool_turn_ok (Nat.leb 1) seen m = true) ->
  incl pending' (pending ++ msg_invocation_ids m) ->
  correlated_below_cap pending'
    (ConversationHistory_trim_if_needed (append_message h m)).
Proof.
  intros Hh Hm Hincl Hbelow.
  rewrite trim_max_messages in Hbelow. cbn [append_message _max_messages] in Hbelow.
  destruct (Z_le_gt_dec (ConversationHistory_len (append_message h m))
                        (_max_messages (append_message h m))) as [Hfits|Hover].
  - rewrite (trim_unchanged _ Hfits) in *.
    unfold correlated_below_cap in Hh.
    unfold ConversationHistory_len in *.
    cbn [append_message _messages _max_messages] in *.
    rewrite length_app in Hbelow. cbn [List.length] in Hbelow.
    assert (Hlt : Z.of_nat (List.length (_messages h)) < _max_messages h) by lia.
    destruct (Hh Hlt) as [Hcorr Hpending].
    unfold correlated in *. rewrite correlated_from_snoc, Hcorr.
    cbn [app andb]. split.
    + now apply Hm.
    + unfold invocation_ids in *. rewrite flat_map_app. cbn [flat_map].
      rewrite app_nil_r. intros id Hid. apply Hincl in Hid.
      apply in_or_app. apply in_app_or in Hid.
      destruct Hid as [Hid | Hid]; [left; now apply Hpending | now right].
  - pose proof (trim_length_ge (append_message h m)) as Hge.
    cbn [append_message _max_messages] in *. lia.
Qed.

Lemma tool_turn_answers_pending (pending seen : list string) (tc : ToolCall)
      (nm : pyval) (result : string) :
  In (tc_id tc) pending -> incl pending seen ->
  tool_turn_ok (Nat.leb 1) seen (MsgTool (tc_id tc) nm result) = true.
Proof.
  intros Hin Hincl.
  pose proof (proj1 (count_occ_In string_dec seen (tc_id tc)) (Hincl _ Hin))
    as Hpos.
  unfold tool_turn_ok.
  destruct (count_occ string_dec seen (tc_id tc)); [lia | reflexivity].
Qed.

Lemma chat_keeps_correlated_below_cap (a : Agent W) message w :
  correlated_below_cap [] (conversation a) ->
  correlated_below_cap [] (conversation (run_agent (Agent_chat a message w))).
Proof.
  intro H0. rewrite Agent_chat_unfold. cbv zeta.
  cbn [run_agent set_conversation conversation]. unfold Agent_run_loop.
  apply (run_iterations_conv a _
           (correlated_below_cap [])
           (fun tcs => correlated_below_cap (map tc_id tcs))).
  - intros h ch c Hh.
    apply (correlated_below_cap_append h _ [] []); auto using incl_nil_l.
  - intros h tcs Hh.
    apply (correlated_below_cap_append h _ [] (map tc_id tcs));
      [exact Hh | reflexivity | apply incl_refl].
  - intros h tcs tc result Hin Hh.
    apply (correlated_below_cap_append h _ (map tc_id tcs) (map tc_id tcs)).
    + exact Hh.
    + intros seen Hseen.
      apply (tool_turn_answers_pending (map tc_id tcs));
        [now apply in_map | exact Hseen].
    + apply incl_appl, incl_refl.
  - intros h tcs Hh Hbelow. destruct (Hh Hbelow) as [Hcorr _].
    split; [exact Hcorr | apply incl_nil_l].
  - cbn [st_conv].
    apply (correlated_below_cap_append _ _ [] []); auto using incl_nil_l.
Qed.

Lemma reachable_correlated_below_cap (a : Agent W) :
  reachable a -> correlated_below_cap [] (conversation a).
Proof.
  induction 1 as [tools p mdl cl tmp mi mh c1 c2 c3
                 | a message w _ IH | a _ IH | a t _ IH].
  - intros _. cbn. destruct p; split; try reflexivity; apply incl_nil_l.
  - now apply chat_keeps_correlated_below_cap.
  - intros _. cbn. split; [|apply incl_nil_l].
    apply correlated_from_system. apply Forall_forall.
    intros m Hm. apply filter_In in Hm. tauto.
  - exact IH.
Qed.

(** ** Correlation of tool turns: blocks, under trimming *)

Lemma drop_tool_turns_split (l : list Message) :
  exists front, l = (front ++ drop_tool_turns l)%list.
Proof.
  induction l as [|m l [front IH]]; [now exists []|].
  destruct m; try (now exists []).
  cbn [drop_tool_turns]. eexists (_ :: front). cbn [app]. now rewrite <- IH.
Qed.

Lemma drop_tool_turns_idempotent (l : list Message) :
  drop_tool_turns (drop_tool_turns l) = drop_tool_turns l.
Proof. induction l as [|m l IH]; [reflexivity|]. destruct m; auto. Qed.

Lemma drop_tool_turns_snoc (l : list Message) (m : Message) :
  drop_tool_turns (l ++ [m])
  = match drop_tool_turns l with
    | [] => drop_tool_turns [m]
    | _ => (drop_tool_turns l ++ [m])%list
    end.
Proof. induction l as [|x l IH]; [reflexivity|]. destruct x; auto. Qed.

(** Behind the front of a suffix lies a suffix of what lies behind the
    front of the whole list. *)
Lemma drop_tool_turns_suffix (d l : list Message) :
  exists d',
    drop_tool_turns (d ++ l) = (d' ++ drop_tool_turns l)%list.
Proof.
  induction d as [|x d [d' IH]]; [now exists []|].
  destruct (drop_tool_turns_split l) as [front Hfront].
  destruct x; cbn [app drop_tool_turns]; eauto;
    eexists (_ :: d ++ front)%list; cbn [app]; f_equal;
    rewrite <- app_assoc; now rewrite <- Hfront.
Qed.

Lemma answered_from_snoc (l : list Message) (m : Message) :
  forall cur,
    answered_from cur (l ++ [m])
    = answered_from cur l
      && match m with
         | MsgTool id _ _ => existsb (String.eqb id) (open_ids cur l)
         | _ => true
         end.
Proof.
  induction l as [|x l IH]; intro cur.
  - destruct m; cbn; rewrite ?andb_true_r; reflexivity.
  - destruct x; cbn [app answered_from open_ids]; rewrite IH;
      try reflexivity.
    now rewrite andb_assoc.
Qed.

Lemma open_ids_snoc (l : list Message) (m : Message) :
  forall cur,
    open_ids cur (l ++ [m])
    = match m with
      | MsgAssistantToolCalls tcs => map tc_id tcs
      | MsgTool _ _ _ => open_ids cur l
      | _ => []
      end.
Proof.
  induction l as [|x l IH]; intro cur.
  - destruct m; reflexivity.
  - destruct x; cbn [app open_ids]; apply IH.
Qed.

(** Behind the front, the block that is open at the start plays no
    part. *)
Lemma answered_from_drop (l : list Message) :
  forall cur cur',
    answered_from cur l = true ->
    answered_from cur' (drop_tool_turns l) = true.
Proof.
  induction l as [|x l IH]; intros cur cur' H; [reflexivity|].
  destruct x; cbn [drop_tool_turns answered_from] in *; try exact H.
  apply andb_prop in H. destruct H as [_ H]. now apply (IH cur).
Qed.

Lemma answered_from_suffix (d l : list Message) :
  forall cur cur',
    answered_from cur (d ++ l) = true ->
    answered_from cur' (drop_tool_turns l) = true.
Proof.
  induction d as [|x d IH]; intros cur cur' H.
  - now apply (answered_from_drop l cur).
  - destruct x; cbn [app answered_from] in H; try (now apply (IH _ _ H)).
    apply andb_prop in H. destruct H as [_ H]. now apply (IH _ _ H).
Qed.

Lemma open_ids_suffix (d l : list Message) :
  drop_tool_turns l <> [] ->
  forall cur cur',
    open_ids cur (d ++ drop_tool_turns l)
    = open_ids cur' (drop_tool_turns l).
Proof.
  intro Hne.
  assert (Hhead : forall c c',
             open_ids c (drop_tool_turns l) = open_ids c' (drop_tool_turns l)).
  { intros c c'. pose proof (drop_tool_turns_idempotent l) as Hidem.
    destruct (drop_tool_turns l) as [|x r]; [congruence|].
    destruct x; try reflexivity.
    cbn [drop_tool_turns] in Hidem.
    destruct (drop_tool_turns_split r) as [front Hfront].
    apply (f_equal (@List.length Message)) in Hidem.
    rewrite Hfront in Hidem at 2. cbn [List.length] in Hidem.
    rewrite length_app in Hidem. lia. }
  induction d as [|x d IH]; intros cur cur'; [apply Hhead|].
  destruct x; cbn [app open_ids]; apply IH.
Qed.

Lemma block_inv_suffix (pending : option (list string)) (d l : list Message) :
  block_inv pending (d ++ l) -> block_inv pending l.
Proof.
  intros [Hans Hopen].
  destruct (drop_tool_turns_suffix d l) as [d' Hd'].
  rewrite Hd' in *. split.
  - rewrite <- (drop_tool_turns_idempotent l).
    exact (answered_from_suffix d' _ [] [] Hans).
  - destruct pending as [ids|]; [|exact I].
    destruct (drop_tool_turns l) as [|x r] eqn:Hbody; [now left|]. right.
    destruct Hopen as [Hnil | Hopen].
    + destruct d'; discriminate.
    + rewrite <- Hopen, <- Hbody. symmetry. apply open_ids_suffix.
      rewrite Hbody. discriminate.
Qed.

Lemma block_inv_snoc_tool (ids : list string) (l : list Message)
      (id : string) (nm : pyval) (content : string) :
  block_inv (Some ids) l -> In id ids ->
  block_inv (Some ids) (l ++ [MsgTool id nm content]).
Proof.
  intros [Hans Hopen] Hin. unfold block_inv.
  rewrite drop_tool_turns_snoc.
  destruct (drop_tool_turns l) as [|x r] eqn:Hbody.
  - cbn. split; [reflexivity | now left].
  - rewrite <- Hbody in *.
    destruct Hopen as [Hnil | Hopen]; [congruence|].
    rewrite answered_from_snoc, open_ids_snoc, Hans, Hopen. split.
    + cbn [andb]. apply existsb_exists. exists id.
      split; [exact Hin | apply String.eqb_refl].
    + now right.
Qed.

Lemma block_inv_snoc_other (pending pending' : option (list string))
      (l : list Message) (m : Message) :
  block_inv pending l ->
  match m with
  | MsgTool _ _ _ => False
  | MsgAssistantToolCalls tcs =>
      pending' = None \/ pending' = Some (map tc_id tcs)
  | _ => pending' = None
  end ->
  block_inv pending' (l ++ [m]).
Proof.
  intros [Hans _] Hm. unfold block_inv.
  rewrite drop_tool_turns_snoc.
  destruct (drop_tool_turns l) as [|x r] eqn:Hbody.
  - destruct m; try contradiction; cbn;
      try (subst pending'; split; [reflexivity | exact I]);
      destruct Hm as [-> | ->]; split; auto.
  - rewrite <- Hbody in *. rewrite answered_from_snoc, open_ids_snoc, Hans.
    destruct m; try contradiction; cbn [andb];
      try (subst pending'; split; [reflexivity | exact I]);
      destruct Hm as [-> | ->]; split; auto.
Qed.

(** An append, with the trimming that follows it, keeps the block
    invariant of the non-system messages. *)
Lemma block_inv_append_trim (pending' : option (list string))
      (h : ConversationHistory) (m : Message) :
  is_system m = false ->
  block_inv pending' (filter not_system (_messages h) ++ [m]) ->
  block_inv pending'
    (filter not_system
       (_messages (ConversationHistory_trim_if_needed (append_message h m)))).
Proof.
  intros Hns Hinv.
  destruct (trim_non_system_suffix (append_message h m))
    as (dropped & Hsplit & _).
  assert (Hsnoc : filter not_system (_messages (append_message h m))
                  = (filter not_system (_messages h) ++ [m])%list).
  { cbn [append_message _messages]. rewrite filter_app. cbn [filter].
    unfold not_system at 2. now rewrite Hns. }
  rewrite Hsnoc in Hsplit. rewrite Hsplit in Hinv.
  exact (block_inv_suffix _ _ _ Hinv).
Qed.

Lemma chat_keeps_block_inv (a : Agent W) message w :
  block_inv None (filter not_system (messages (conversation a))) ->
  block_inv None
    (filter not_system
       (messages (conversation (run_agent (Agent_chat a message w))))).
Proof.
  intro H0. rewrite Agent_chat_unfold. cbv zeta.
  cbn [run_agent set_conversation conversation]. unfold Agent_run_loop.
  apply (run_iterations_conv a _
           (fun h => block_inv None (filter not_system (messages h)))
           (fun tcs h =>
              block_inv (Some (map tc_id tcs))
                        (filter not_system (messages h))));
    unfold messages in *.
  - intros h ch c Hh. apply block_inv_append_trim; [reflexivity|].
    now apply (block_inv_snoc_other None).
  - intros h tcs Hh. apply block_inv_append_trim; [reflexivity|].
    apply (block_inv_snoc_other None); [exact Hh | now right].
  - intros h tcs tc result Hin Hh.
    apply block_inv_append_trim; [reflexivity|].
    apply block_inv_snoc_tool; [exact Hh | now apply in_map].
  - intros h tcs [Hans _]. split; [exact Hans | exact I].
  - cbn [st_conv]. apply block_inv_append_trim; [reflexivity|].
    now apply (block_inv_snoc_other None).
Qed.

Lemma reachable_block_inv (a : Agent W) :
  reachable a ->
  block_inv None (filter not_system (messages (conversation a))).
Proof.
  induction 1 as [tools p mdl cl tmp mi mh c1 c2 c3
                 | a message w _ IH | a _ IH | a t _ IH].
  - cbn. destruct p; split; cbn; auto.
  - now apply chat_keeps_block_inv.
  - cbn [Agent_reset set_conversation conversation messages
           ConversationHistory_clear _messages].
    rewrite (filter_none not_system (filter is_system _)).
    + split; cbn; auto.
    + intros m Hm. apply filter_In in Hm. unfold not_system.
      destruct Hm as [_ ->]. reflexivity.
  - exact IH.
Qed.

(** A tool turn that answers its own block answers a preceding
    invocation. *)
Lemma answered_correlated (l : list Message) :
  forall cur seen,
    answered_from cur l = true -> incl cur seen ->
    correlated_from (Nat.leb 1) seen l = true.
Proof.
  induction l as [|x l IH]; intros cur seen Hans Hincl; [reflexivity|].
  destruct x; cbn [answered_from correlated_from tool_turn_ok
                     msg_invocation_ids andb] in *;
    rewrite ?app_nil_r;
    try (apply (IH [] _ Hans); apply incl_nil_l).
  - apply (IH _ _ Hans). apply incl_appr, incl_refl.
  - apply andb_prop in Hans. destruct Hans as [Hid Hans].
    apply existsb_exists in Hid. destruct Hid as (id & Hin & Heq).
    apply String.eqb_eq in Heq. subst id.
    pose proof (proj1 (count_occ_In string_dec seen tool_call_id)
                      (Hincl _ Hin)) as Hpos.
    rewrite (IH _ _ Hans Hincl), andb_true_r.
    destruct (count_occ string_dec seen tool_call_id); [lia | reflexivity].
Qed.

(** C5, as the code has it.  In every history reachable through the
    operations of [Agent], every tool turn that follows a user or
    assistant message carries the id of at least one invocation of a
    preceding assistant tool-invocation message; only the tool turns at
    the front of the history, right behind the system messages, may
    have lost their invocation to trimming.  While the history is below
    its cap, every tool turn of it answers a preceding invocation.
    [add_tool_result] does not look the id up: given an id that no
    message of a history below its cap has emitted, it appends the tool
    turn all the same, which leaves the history uncorrelated, and hands
    nothing to the logger; what it logs never depends on the id. *)
Theorem tool_turns_answer_a_preceding_invocation (a : Agent W) :
  reachable a ->
  let h := conversation a in
  correlated (drop_tool_turns (filter not_system (messages h))) = true
  /\ (ConversationHistory_len h < _max_messages h ->
      correlated (messages h) = true)
  /\ (forall h' id nm content,
         ConversationHistory_len h' < _max_messages h' ->
         ~ In id (invocation_ids (messages h')) ->
         messages (ConversationHistory_add_tool_result h' id nm content)
         = (messages h' ++ [MsgTool id nm content])%list
         /\ correlated
              (messages (ConversationHistory_add_tool_result h' id nm content))
            = false
         /\ ConversationHistory_add_tool_result_log h' id nm content = [])
  /\ (forall h' id id' nm content,
         ConversationHistory_add_tool_result_log h' id nm content
         = ConversationHistory_add_tool_result_log h' id' nm content).
Proof.
  intros Hreach h. split; [|split; [|split]].
  - destruct (reachable_block_inv a Hreach) as [Hans _].
    exact (answered_correlated _ [] [] Hans (incl_refl _)).
  - intro Hlt. now apply (reachable_correlated_below_cap a Hreach).
  - intros h' id nm content Hlt Hnew. unfold messages in *.
    assert (Hfits : ConversationHistory_len
                      (append_message h' (MsgTool id nm content))
                    <= _max_messages
                         (append_message h' (MsgTool id nm content))).
    { unfold ConversationHistory_len in *.
      cbn [append_message _messages _max_messages].
      rewrite length_app. cbn [List.length]. lia. }
    unfold ConversationHistory_add_tool_result,
      ConversationHistory_add_tool_result_log,
      ConversationHistory_trim_if_needed_log.
    rewrite (trim_unchanged _ Hfits).
    apply Z.leb_le in Hfits. rewrite Hfits.
    cbn [append_message _messages]. repeat split.
    unfold correlated. rewrite correlated_from_snoc. cbn [app tool_turn_ok].
    rewrite (proj1 (count_occ_not_In string_dec _ id) Hnew).
    apply andb_false_r.
  - intros h' id id' nm content.
    unfold ConversationHistory_add_tool_result_log,
      ConversationHistory_trim_if_needed_log,
      ConversationHistory_trim_if_needed, ConversationHistory_len.
    cbn [append_message _messages _max_messages].
    rewrite !length_app. cbn [List.length].
    destruct (_ <=? _); [reflexivity|].
    cbn [_messages]. rewrite !length_app.
    rewrite !filter_app. cbn [filter is_system not_system role String.eqb
                                Ascii.eqb Bool.eqb negb].
    unfold list_slice_from. rewrite !length_skipn, !length_app.
    reflexivity.
Qed.

(** ** More on the dispatch of one tool call *)




(** ** More on [Agent.chat] *)

Lemma request_tools_field (r : ToolRegistry W) :
  match (if 0 <? ToolRegistry_len r
         then Some (ToolRegistry_to_openai_tools r)
         else None) with
  | Some ((_ :: _) as ts) => Some ts
  | _ => None
  end
  = if 0 <? ToolRegistry_len r
    then Some (ToolRegistry_to_openai_tools r)
    else None.
Proof.
  unfold ToolRegistry_len, ToolRegistry_to_openai_tools.
  destruct (_tools r); reflexivity.
Qed.

Lemma first_assistant_content_not_empty (l : list Message) :
  first_assistant_content l <> Some EmptyString.
Proof.
  induction l as [|m l IH]; [discriminate|].
  destruct m as [c|c|c|tcs|id nm c]; cbn; try exact IH.
  destruct c; [exact IH | discriminate].
Qed.

(** X13.  Final-answer short-circuit.  With an iteration cap of at
    least one, when the backend's first response carries no tool call,
    [chat] returns the stripped content of its first message after that
    single backend call, runs no tool, sends the history with the user
    message appended, and appends the content, unstripped, as an
    assistant message unless it is empty. *)
Theorem final_answer_short_circuit (a : Agent W) (message : string) (w : W)
        (m : LLMMessage) (ms : list LLMMessage) :
  0 < max_iterations a ->
  let h1 := ConversationHistory_add_user_message (conversation a) message in
  snd (client a (chat_request a h1) w) = Ok (m :: ms) ->
  Agent_parse_tool_calls m = Ok None ->
  let final := match msg_content m with
               | Some c => c
               | None => EmptyString
               end in
  run_result (Agent_chat a message w) = Ok (strip final)
  /\ run_log (Agent_chat a message w)
     = [EvBackendCall (chat_request a h1) (Ok (m :: ms))]
  /\ run_world (Agent_chat a message w) = fst (client a (chat_request a h1) w)
  /\ conversation (run_agent (Agent_chat a message w))
     = match final with
       | EmptyString => h1
       | _ => ConversationHistory_add_assistant_message h1 final
       end.
Proof.
  intros Hmax h1 Hresp Hparse final.
  rewrite Agent_chat_unfold. cbv zeta. fold h1. unfold Agent_run_loop.
  destruct (Z.to_nat (max_iterations a)) as [|n] eqn:Hn; [lia|].
  pose proof (run_iterations_step a
                (if 0 <? ToolRegistry_len (registry a)
                 then Some (ToolRegistry_to_openai_tools (registry a))
                 else None)
                n (mk_state h1 w [])) as Hstep.
  cbv zeta in Hstep. rewrite request_tools_field in Hstep.
  cbn [st_conv st_world st_log app] in Hstep.
  unfold chat_request in Hresp. rewrite Hresp, Hparse in Hstep.
  rewrite Hstep.
  cbn [fst snd run_result run_log run_world run_agent set_conversation
       conversation st_conv st_world st_log chat_handlers].
  repeat split.
Qed.

(** X14.  With an iteration cap of zero or less, [chat] makes no backend
    call and runs no tool: it appends the user message and returns the
    exhaustion text at once, the last assistant content of the history
    followed by the notice, or the fixed message when there is none. *)
Theorem chat_without_iterations (a : Agent W) (message : string) (w : W) :
  max_iterations a <= 0 ->
  let h1 := ConversationHistory_add_user_message (conversation a) message in
  run_log (Agent_chat a message w) = []
  /\ run_world (Agent_chat a message w) = w
  /\ conversation (run_agent (Agent_chat a message w)) = h1
  /\ run_result (Agent_chat a message w)
     = Ok (match ConversationHistory_get_last_assistant_content h1 with
           | Some last =>
               last ++ nl ++ nl
               ++ "[Stopped: reached maximum tool iterations]"
           | None =>
               "[Agent reached maximum iterations without producing a final answer. Please try rephrasing your question.]"
           end).
Proof.
  intros Hmax h1. rewrite Agent_chat_unfold. cbv zeta. fold h1.
  unfold Agent_run_loop.
  replace (Z.to_nat (max_iterations a)) with 0%nat by lia.
  cbn [run_iterations raise fst snd run_result run_log run_world run_agent
       set_conversation conversation st_conv st_world st_log chat_handlers
       exc_type].
  repeat split.
  change (issubclass MaxIterationsError MaxIterationsError) with true.
  cbv iota.
  pose proof (first_assistant_content_not_empty (rev (_messages h1))) as Hne.
  unfold ConversationHistory_get_last_assistant_content in *.
  destruct (first_assistant_content (rev (_messages h1))) as [[|ch c]|];
    [congruence | reflexivity | reflexivity].
Qed.

Lemma run_iterations_requests (a : Agent W) (tools : option (list pyval))
      (P : Request -> Prop) :
  (forall h, P (mk_request (model a) (messages h) (temperature a)
                  (match tools with
                   | Some ((_ :: _) as ts) => Some ts
                   | _ => None
                   end))) ->
  forall n st,
    Forall (fun ev => match ev with
                      | EvBackendCall req _ => P req
                      | _ => True
                      end) (st_log st) ->
    Forall (fun ev => match ev with
                      | EvBackendCall req _ => P req
                      | _ => True
                      end) (st_log (snd (run_iterations a tools n st))).
Proof.
  intros HP. induction n as [|n IH]; intros st Hlog; [exact Hlog|].
  pose proof (run_iterations_step a tools n st) as Hstep.
  cbv zeta in Hstep.
  assert (Hlog1 : forall resp,
             Forall (fun ev => match ev with
                               | EvBackendCall req _ => P req
                               | _ => True
                               end)
                    (st_log st
                     ++ [EvBackendCall
                           (mk_request (model a) (messages (st_conv st))
                              (temperature a)
                              (match tools with
                               | Some ((_ :: _) as ts) => Some ts
                               | _ => None
                               end)) resp])).
  { intro resp. apply Forall_app. split; [exact Hlog|].
    constructor; [apply HP | constructor]. }
  destruct (client a _ (st_world st)) as [w' resp]. cbn [fst snd] in Hstep.
  specialize (Hlog1 resp).
  destruct resp as [[|m ms]|e0]; try (rewrite Hstep; exact Hlog1).
  destruct (Agent_parse_tool_calls m) as [[[|tc tcs]|]|e];
    try (rewrite Hstep; exact Hlog1).
  match type of Hstep with
  | context [execute_tool_calls a ?l ?s2] =>
      destruct (execute_tool_calls_effect a l s2)
        as ((added & Hadded & Hnb) & _ & _);
      destruct (execute_tool_calls a l s2) as [[[]|e] st3]
  end; cbn [fst snd st_log] in *; rewrite Hstep.
  - apply IH. rewrite Hadded. apply Forall_app. split; [exact Hlog1|].
    eapply Forall_impl; [|exact Hnb]. intros [req resp|t k]; cbn;
      [discriminate | trivial].
  - cbn [snd]. rewrite Hadded. apply Forall_app. split; [exact Hlog1|].
    eapply Forall_impl; [|exact Hnb]. intros [req resp|t k]; cbn;
      [discriminate | trivial].
Qed.

Lemma chat_requests (a : Agent W) (message : string) (w : W)
      (P : Request -> Prop) :
  (forall h, P (chat_request a h)) ->
  forall req resp,
    In (EvBackendCall req resp) (run_log (Agent_chat a message w)) -> P req.
Proof.
  intros HP req resp Hin. rewrite Agent_chat_unfold in Hin. cbv zeta in Hin.
  cbn [run_log] in Hin. unfold Agent_run_loop in Hin.
  match type of Hin with
  | context [run_iterations a ?tools ?n ?st0] =>
      pose proof (run_iterations_requests a tools P) as Hall;
      specialize (fun H => Hall H n st0)
  end.
  assert (Hlog := Hall
            (fun h => eq_ind_r (fun field =>
                                  P (mk_request (model a) (messages h)
                                                (temperature a) field))
                               (HP h) (request_tools_field _))
            (Forall_nil _)).
  rewrite Forall_forall in Hlog. exact (Hlog _ Hin).
Qed.

(** X15.  Every backend request of a [chat] call carries the agent's
    model and temperature and the same [tools] field: the export of the
    registry, or no field at all when the registry is empty. *)
Theorem requests_carry_the_agent_configuration
        (a : Agent W) (message : string) (w : W)
        (req : Request) (resp : Res (list LLMMessage)) :
  In (EvBackendCall req resp) (run_log (Agent_chat a message w)) ->
  req_model req = model a
  /\ req_temperature req = temperature a
  /\ req_tools req
     = if 0 <? ToolRegistry_len (registry a)
       then Some (ToolRegistry_to_openai_tools (registry a))
       else None.
Proof.
  apply (chat_requests a message w
           (fun req =>
              req_model req = model a
              /\ req_temperature req = temperature a
              /\ req_tools req
                 = if 0 <? ToolRegistry_len (registry a)
                   then Some (ToolRegistry_to_openai_tools (registry a))
                   else None)).
  intro h. unfold chat_request. cbn [req_model req_temperature req_tools].
  repeat split.
Qed.

Lemma append_trim_system (h : ConversationHistory) (m : Message) :
  is_system m = false ->
  filter is_system
         (messages (ConversationHistory_trim_if_needed (append_message h m)))
  = filter is_system (messages h).
Proof.
  intro Hm. rewrite trim_keeps_system_messages.
  unfold messages. cbn [append_message _messages].
  rewrite filter_app. cbn [filter]. rewrite Hm. apply app_nil_r.
Qed.

Lemma chat_keeps_system_messages (a : Agent W) (message : string) (w : W) :
  filter is_system (messages (conversation (run_agent (Agent_chat a message w))))
  = filter is_system (messages (conversation a)).
Proof.
  rewrite Agent_chat_unfold. cbv zeta.
  cbn [run_agent set_conversation conversation]. unfold Agent_run_loop.
  apply (run_iterations_conv a _
           (fun h => filter is_system (messages h)
                     = filter is_system (messages (conversation a)))
           (fun _ h => filter is_system (messages h)
                       = filter is_system (messages (conversation a)))).
  - intros h ch c Hh. now rewrite <- Hh, <- (append_trim_system h (MsgAssistant (String ch c))).
  - intros h tcs Hh. now rewrite <- Hh, <- (append_trim_system h (MsgAssistantToolCalls tcs)).
  - intros h tcs tc result _ Hh.
    now rewrite <- Hh, <- (append_trim_system h (MsgTool (tc_id tc) (tc_name tc) result)).
  - auto.
  - cbn [st_conv]. now apply (append_trim_system _ (MsgUser message)).
Qed.

(** X16.  [reset] undoes [chat]: the history after a reset that follows
    a [chat] call is the history after a reset without the call, and for
    an agent just constructed it is the system prompt alone (nothing,
    for an empty prompt). *)
Theorem reset_after_chat (a : Agent W) (message : string) (w : W) :
  Agent_get_history (Agent_reset (run_agent (Agent_chat a message w)))
  = Agent_get_history (Agent_reset a)
  /\ forall tools p mdl cl tmp mi mh c1 c2 c3,
       Agent_get_history
         (Agent_reset
            (run_agent
               (Agent_chat (Agent_init tools p mdl cl tmp mi mh c1 c2 c3)
                           message w)))
       = match p with
         | EmptyString => []
         | _ => [MsgSystem p]
         end.
Proof.
  assert (Hreset : forall (b : Agent W) msg w0,
             Agent_get_history (Agent_reset (run_agent (Agent_chat b msg w0)))
             = Agent_get_history (Agent_reset b)).
  { intros b msg w0. exact (chat_keeps_system_messages b msg w0). }
  split; [apply Hreset|].
  intros. rewrite Hreset. destruct p; reflexivity.
Qed.

Lemma append_trim_system_first (h : ConversationHistory) (m : Message) :
  is_system m = false ->
  messages h = (filter is_system (messages h)
                ++ filter not_system (messages h))%list ->
  let h' := ConversationHistory_trim_if_needed (append_message h m) in
  messages h' = (filter is_system (messages h')
                 ++ filter not_system (messages h'))%list.
Proof.
  intros Hm Hh h'. subst h'. unfold ConversationHistory_trim_if_needed.
  destruct (ConversationHistory_len (append_message h m)
            <=? _max_messages (append_message h m)).
  - unfold messages in *. cbn [append_message _messages].
    rewrite !filter_app. cbn [filter]. unfold not_system at 2.
    rewrite Hm. cbn [negb]. rewrite app_nil_r, app_assoc. now rewrite <- Hh.
  - unfold messages. cbn [_messages].
    now rewrite trimmed_system_part, trimmed_non_system_part.
Qed.

(** X17.  In the history of every agent reachable through the
    operations of [Agent] the system messages come first, and there is
    at most one: the system prompt, when the agent has one, is the
    first message and stays the only system message. *)
Theorem system_prompt_stays_first (a : Agent W) :
  reachable a ->
  messages (conversation a)
  = (filter is_system (messages (conversation a))
     ++ filter not_system (messages (conversation a)))%list
  /\ (List.length (filter is_system (messages (conversation a))) <= 1)%nat.
Proof.
  induction 1 as [tools p mdl cl tmp mi mh c1 c2 c3
                 | a message w _ IH | a _ IH | a t _ IH].
  - cbn. destruct p; cbn; split; (reflexivity || lia).
  - destruct IH as [Hfirst Hone]. split.
    + rewrite Agent_chat_unfold. cbv zeta.
      cbn [run_agent set_conversation conversation]. unfold Agent_run_loop.
      apply (run_iterations_conv a _
               (fun h => messages h
                         = (filter is_system (messages h)
                            ++ filter not_system (messages h))%list)
               (fun _ h => messages h
                           = (filter is_system (messages h)
                              ++ filter not_system (messages h))%list)).
      * intros h ch c Hh. now apply append_trim_system_first.
      * intros h tcs Hh. now apply append_trim_system_first.
      * intros h tcs tc result _ Hh. now apply append_trim_system_first.
      * auto.
      * cbn [st_conv]. now apply append_trim_system_first.
    + now rewrite chat_keeps_system_messages.
  - destruct IH as [Hfirst Hone].
    destruct (clear_splits (conversation a)) as [Hsys Hnon].
    cbn [Agent_reset set_conversation conversation]. split.
    + rewrite Hnon, app_nil_r. unfold ConversationHistory_clear, messages.
      cbn [_messages]. now rewrite filter_filter_same.
    + now rewrite Hsys.
  - exact IH.
Qed.

(** ** More on the textual fallback *)

Lemma parse_json_text_tool_call_id (json_str : string) (tcs : list ToolCall) :
  parse_json_text_tool_call json_str = Ok (Some tcs) ->
  exists nm args,
    tcs = [mk_tool_call
             ("call_" ++ str_of_Z (Z.abs (py_hash json_str) mod 100000))
             nm args].
Proof.
  unfold parse_json_text_tool_call, json_loads_res, py_contains, py_getitem,
    py_get, res_bind.
  intro H.
  repeat match type of H with
         | context [match ?x with _ => _ end] =>
             destruct x eqn:?; try discriminate
         end;
    inversion H; eauto.
Qed.

(** X18.  The textual fallback yields at most one tool call, and the id
    of that call is [call_] followed by a number from 0 to 99999. *)
Theorem text_fallback_yields_one_call (m : LLMMessage) (tcs : list ToolCall) :
  msg_tool_calls m = None \/ msg_tool_calls m = Some [] ->
  Agent_parse_tool_calls m = Ok (Some tcs) ->
  exists tc n,
    tcs = [tc]
    /\ 0 <= n < 100000
    /\ tc_id tc = "call_" ++ str_of_Z n.
Proof.
  intros Hcalls Hparse.
  destruct (msg_content m) as [c|] eqn:Hcontent.
  - rewrite (parse_tool_calls_text m c Hcalls Hcontent) in Hparse.
    destruct c as [|ch c]; [discriminate|]. cbv zeta in Hparse.
    match type of Hparse with
    | (if ?g then _ else _) = _ => destruct g; [|discriminate]
    end.
    unfold res_catch in Hparse.
    match type of Hparse with
    | context [parse_json_text_tool_call ?s] =>
        pose proof (parse_json_text_tool_call_id s) as Hid;
        destruct (parse_json_text_tool_call s) as [[tcs'|]|e]
    end.
    + inversion Hparse; subst tcs'.
      destruct (Hid tcs eq_refl) as (nm & args & ->).
      eexists _, _. split; [reflexivity|]. split; [|reflexivity].
      apply Z.mod_pos_bound. lia.
    + discriminate.
    + destruct (existsb _ _); discriminate.
  - unfold Agent_parse_tool_calls in Hparse. rewrite Hcontent in Hparse.
    destruct Hcalls as [Hc | Hc]; rewrite Hc in Hparse; discriminate.
Qed.

(** ** [chat] only appends, below the cap *)

Lemma append_trim_extends (h : ConversationHistory) (m : Message)
      (cap : Z) (base : list Message) :
  (_max_messages h = cap
   /\ (ConversationHistory_len h < cap ->
       exists added, messages h = (base ++ added)%list)) ->
  let h' := ConversationHistory_trim_if_needed (append_message h m) in
  _max_messages h' = cap
  /\ (ConversationHistory_len h' < cap ->
      exists added, messages h' = (base ++ added)%list).
Proof.
  intros [Hcap Hh] h'. subst h'. rewrite trim_max_messages.
  cbn [append_message _max_messages]. split; [exact Hcap|]. intro Hbelow.
  destruct (Z_le_gt_dec (ConversationHistory_len (append_message h m))
                        (_max_messages (append_message h m))) as [Hfits|Hover].
  - rewrite (trim_unchanged _ Hfits) in *.
    unfold ConversationHistory_len, messages in *.
    cbn [append_message _messages _max_messages] in *.
    rewrite length_app in Hbelow. cbn [List.length] in Hbelow.
    destruct Hh as [added Hadded]; [lia|].
    exists (added ++ [m])%list. now rewrite Hadded, app_assoc.
  - pose proof (trim_length_ge (append_message h m)) as Hge.
    cbn [append_message _max_messages] in *. lia.
Qed.

(** X19.  [chat] never changes the cap of the history, and a history
    that is below its cap after the call has only grown: it is the
    history before the call, then the user message, then what the loop
    appended. *)
Theorem chat_only_appends_below_cap (a : Agent W) (message : string) (w : W) :
  let h' := conversation (run_agent (Agent_chat a message w)) in
  _max_messages h' = _max_messages (conversation a)
  /\ (ConversationHistory_len h' < _max_messages h' ->
      exists added,
        messages h'
        = (messages (conversation a) ++ MsgUser message :: added)%list).
Proof.
  cbv zeta.
  set (cap := _max_messages (conversation a)).
  set (base := (messages (conversation a) ++ [MsgUser message])%list).
  assert (Hinv : _max_messages (conversation (run_agent (Agent_chat a message w)))
                 = cap
                 /\ (ConversationHistory_len
                       (conversation (run_agent (Agent_chat a message w))) < cap ->
                     exists added,
                       messages (conversation (run_agent (Agent_chat a message w)))
                       = (base ++ added)%list)).
  { rewrite Agent_chat_unfold. cbv zeta.
    cbn [run_agent set_conversation conversation]. unfold Agent_run_loop.
    apply (run_iterations_conv a _
             (fun h => _max_messages h = cap
                       /\ (ConversationHistory_len h < cap ->
                           exists added, messages h = (base ++ added)%list))
             (fun _ h => _max_messages h = cap
                         /\ (ConversationHistory_len h < cap ->
                             exists added, messages h = (base ++ added)%list))).
    - intros h ch c Hh. now apply append_trim_extends.
    - intros h tcs Hh. now apply append_trim_extends.
    - intros h tcs tc result _ Hh. now apply append_trim_extends.
    - auto.
    - cbn [st_conv]. unfold ConversationHistory_add_user_message.
      rewrite trim_max_messages. cbn [append_message _max_messages].
      split; [reflexivity|]. intro Hbelow.
      destruct (Z_le_gt_dec
                  (ConversationHistory_len
                     (append_message (conversation a) (MsgUser message)))
                  (_max_messages
                     (append_message (conversation a) (MsgUser message))))
        as [Hfits|Hover].
      + rewrite (trim_unchanged _ Hfits). exists []. subst base.
        unfold messages. cbn [append_message _messages]. now rewrite app_nil_r.
      + pose proof (trim_length_ge
                      (append_message (conversation a) (MsgUser message))) as Hge.
        cbn [append_message _max_messages] in *. subst cap. lia. }
  destruct Hinv as [Hcap Hgrow]. split; [exact Hcap|].
  rewrite Hcap. intro Hbelow. destruct (Hgrow Hbelow) as [added Hadded].
  exists added. rewrite Hadded. subst base. now rewrite <- app_assoc.
Qed.

(** ** The iteration cap *)

(** X20.  A [chat] call never makes more backend calls than the
    iteration cap allows (none for a cap of zero or less), and when the
    loop ends in exhaustion it has made exactly that many, none of which
    failed. *)
Theorem chat_respects_the_iteration_cap (a : Agent W) (message : string) (w : W) :
  (backend_calls (run_log (Agent_chat a message w))
   <= Z.to_nat (max_iterations a))%nat
  /\ match fst (Agent_run_loop a
                  (mk_state (ConversationHistory_add_user_message
                               (conversation a) message) w [])) with
     | Raise e =>
         if issubclass (exc_type e) MaxIterationsError
         then backend_calls (run_log (Agent_chat a message w))
              = Z.to_nat (max_iterations a)
              /\ no_failed_call (run_log (Agent_chat a message w))
         else True
     | Ok _ => True
     end.
Proof.
  destruct (Agent_chat_log a message w) as [Hcount _].
  split; [exact Hcount|].
  destruct (fst (Agent_run_loop a _)) as [s|e] eqn:Hloop; [exact I|].
  destruct (loop_exception_classes a message w e Hloop)
    as [(Hmax & Hn & Hnf) | [(Hother & _) | (Hother & _)]].
  - rewrite Hmax. split; assumption.
  - now rewrite Hother.
  - now rewrite Hother.
Qed.

(** ** The textual fallback and the loop, composed *)

(** X21.  When the text between the braces decodes to an object with a
    [name] and with a mapping under [parameters] (or, without
    [parameters], under [arguments]), and [json.loads] inverts
    [json.dumps] on that mapping, then the fallback yields one call with
    that name, and the argument payload that the loop decodes for the
    dispatch is that mapping again. *)
Theorem text_fallback_arguments_round_trip
        (json_str : string) (kvs p : list (pyval * pyval)) (nm : pyval)
        (s : string) :
  json_loads json_str = inl (PDict kvs) ->
  dict_get kvs "name" = Some nm ->
  match dict_get kvs "parameters" with
  | Some v => v
  | None => match dict_get kvs "arguments" with
            | Some v => v
            | None => PNone
            end
  end = PDict p ->
  json_dumps false None (PDict p) = Ok s ->
  json_loads s = inl (PDict p) ->
  exists tc,
    parse_json_text_tool_call json_str = Ok (Some [tc])
    /\ tc_name tc = nm
    /\ decode_arguments (tc_arguments tc) = Ok (PDict p).
Proof.
  intros Hloads Hname Hargs Hdumps Hback.
  unfold parse_json_text_tool_call, json_loads_res. rewrite Hloads.
  cbn [res_bind py_contains py_getitem py_get]. rewrite Hname.
  cbn [res_bind].
  destruct (dict_get kvs "parameters") as [v|].
  - subst v. cbn [res_bind].
    destruct (dict_get kvs "arguments"); cbn [res_bind];
      rewrite Hdumps; cbn [res_bind]; eexists; (split; [reflexivity|]);
      cbn [tc_name tc_arguments decode_arguments]; unfold json_loads_res;
      rewrite Hback; auto.
  - destruct (dict_get kvs "arguments") as [v|]; [|discriminate].
    subst v. cbn [res_bind]. rewrite Hdumps. cbn [res_bind].
    eexists; (split; [reflexivity|]).
    cbn [tc_name tc_arguments decode_arguments]. unfold json_loads_res.
    rewrite Hback. auto.
Qed.

(** ** Construction and extension of the registry *)

Lemma register_all_distinct (ts : list (Tool W)) :
  forall r,
    NoDup (registry_keys r ++ map name ts) ->
    _tools (fold_left ToolRegistry_register ts r)
    = (_tools r ++ map (fun t => (name t, t)) ts)%list.
Proof.
  induction ts as [|t ts IH]; intros r Hnd.
  - cbn. now rewrite app_nil_r.
  - cbn [fold_left map]. 
    assert (Hnew : _tools (ToolRegistry_register r t)
                   = (_tools r ++ [(name t, t)])%list).
    { unfold ToolRegistry_register. cbn [_tools].
      assert (Hnotin : ~ In (name t) (registry_keys r)).
      { intro Hin. cbn [map] in Hnd.
        apply NoDup_remove_2 in Hnd. apply Hnd. apply in_or_app. now left. }
      unfold registry_keys in Hnotin. clear - Hnotin.
      induction (_tools r) as [|[k0 v0] d IHd]; [reflexivity|].
      cbn [dict_set app]. destruct (String.eqb k0 (name t)) eqn:Hk.
      - apply String.eqb_eq in Hk. exfalso. apply Hnotin. now left.
      - f_equal. apply IHd. intro Hin. apply Hnotin. now right. }
    rewrite IH.
    + rewrite Hnew, <- app_assoc. reflexivity.
    + unfold registry_keys in *. rewrite Hnew, map_app, <- app_assoc.
      exact Hnd.
Qed.

(** X22.  An agent constructed with tools of pairwise distinct names
    registers every one of them, in the order given: its registry lists
    exactly the tools it was given. *)
Theorem Agent_init_registers_distinct_tools
        (ts : list (Tool W)) p mdl (cl : Backend W) tmp mi mh c1 c2 c3 :
  NoDup (map name ts) ->
  ToolRegistry_list_tools
    (registry (Agent_init (Some ts) p mdl cl tmp mi mh c1 c2 c3)) = ts
  /\ ToolRegistry_len
       (registry (Agent_init (Some ts) p mdl cl tmp mi mh c1 c2 c3))
     = Z.of_nat (List.length ts).
Proof.
  intro Hnd. cbn [Agent_init registry].
  unfold ToolRegistry_list_tools, ToolRegistry_len.
  rewrite (register_all_distinct ts ToolRegistry_init Hnd).
  cbn [ToolRegistry_init _tools app]. split.
  - rewrite map_map. cbn [snd]. apply map_id.
  - now rewrite length_map.
Qed.

(** X23.  A tool added with [add_tool] is offered to the backend from
    then on: every request of a later [chat] call has a [tools] field,
    and the field contains the descriptor of the added tool. *)
Theorem added_tool_is_offered (a : Agent W) (t : Tool W)
        (message : string) (w : W)
        (req : Request) (resp : Res (list LLMMessage)) :
  In (EvBackendCall req resp)
     (run_log (Agent_chat (Agent_add_tool a t) message w)) ->
  exists descriptors,
    req_tools req = Some descriptors
    /\ In (Tool_to_openai_tool t) descriptors.
Proof.
  apply (chat_requests (Agent_add_tool a t) message w
           (fun req => exists descriptors,
                         req_tools req = Some descriptors
                         /\ In (Tool_to_openai_tool t) descriptors)).
  intro h. unfold chat_request. cbn [req_tools Agent_add_tool registry].
  assert (Hin_t : In (name t, t) (_tools (ToolRegistry_register (registry a) t))).
  { unfold ToolRegistry_register. cbn [_tools].
    induction (_tools (registry a)) as [|[k0 v0] d IH]; [now left|].
    cbn [dict_set]. destruct (String.eqb k0 (name t)) eqn:Hk.
    - apply String.eqb_eq in Hk. subst k0. now left.
    - right. exact IH. }
  assert (Hlen : (0 <? ToolRegistry_len (ToolRegistry_register (registry a) t))
                 = true).
  { unfold ToolRegistry_len.
    destruct (_tools (ToolRegistry_register (registry a) t));
      [contradiction | reflexivity]. }
  rewrite Hlen. eexists. split; [reflexivity|].
  unfold ToolRegistry_to_openai_tools.
  apply (in_map (fun kv => Tool_to_openai_tool (snd kv))) in Hin_t.
  exact Hin_t.
Qed.

(** ** The default tools *)

(** X24.  Whatever the two flags, the default tools have pairwise
    distinct names, so an agent constructed from them registers every
    one of them, in order, none overwriting another; there are four of
    them plus one for each flag that is set; and the tools that need a
    browser are exactly [browse_page] and [query_copart], the latter
    also when the browser tools are switched off. *)
Theorem default_tools_are_all_registered
        (web_search fetch_page extract_links analyze_data browse_page
           query_copart : list (string * pyval) -> W -> W * Res pyval)
        (include_browser_tools include_copart : bool)
        p mdl (cl : Backend W) tmp mi mh c1 c2 c3 :
  let tools := get_default_tools web_search fetch_page extract_links
                 analyze_data browse_page query_copart
                 include_browser_tools include_copart in
  NoDup (map name tools)
  /\ List.length tools
     = (4 + (if include_browser_tools then 1 else 0)
        + (if include_copart then 1 else 0))%nat
  /\ ToolRegistry_list_tools
       (registry (Agent_init (Some tools) p mdl cl tmp mi mh c1 c2 c3))
     = tools
  /\ Forall (fun t => requires_browser t
                      = (String.eqb (name t) "browse_page"
                         || String.eqb (name t) "query_copart")%bool)
            tools.
Proof.
  intro tools.
  assert (Hnd : NoDup (map name tools)).
  { subst tools. destruct include_browser_tools, include_copart; cbn;
      repeat (constructor; [cbn; intuition discriminate|]); constructor. }
  split; [exact Hnd|]. split; [|split].
  - subst tools. destruct include_browser_tools, include_copart; reflexivity.
  - cbn [Agent_init registry]. unfold ToolRegistry_list_tools.
    rewrite (register_all_distinct tools ToolRegistry_init Hnd).
    cbn [ToolRegistry_init _tools app]. rewrite map_map. cbn [snd].
    apply map_id.
  - subst tools. destruct include_browser_tools, include_copart; cbn;
      repeat constructor.
Qed.

End Properties.

(* ================================================================== *)
(** * The code on concrete inputs *)

(** C1.  The code at an input on which the termination property fails.
    The backend answers every request with a structured call of the
    registered tool [web_search] whose argument payload is the JSON
    array [[1]], and the iteration cap is 10.  The payload decodes to a
    list, unpacking it as keyword arguments raises [TypeError] before
    [Tool.execute] is entered, and [chat] raises [AgentError] after a
    single backend call instead of reaching exhaustion after ten. *)
Theorem array_arguments_end_chat_after_one_call :
  (forall req w,
      snd (backend_array_arguments req w)
      = Ok [mk_llm_message None
              (Some [mk_native_call "call_1" "web_search" "[1]"])])
  /\ max_iterations (example_agent backend_array_arguments 10 100) = 10
  /\ run_result run_array_arguments
     = Raise (mk_exn AgentError
                "Agent failed: local_llm.agent.tool.Tool.execute() argument after ** must be a mapping, not list"
                (Some (mk_exn TypeError
                         "local_llm.agent.tool.Tool.execute() argument after ** must be a mapping, not list"
                         None)))
  /\ backend_calls (run_log run_array_arguments) = 1%nat.
Proof.
  split; [reflexivity|]. split; [reflexivity|].
  split; vm_compute; reflexivity.
Qed.

Lemma chat_exhaustion_degrades_to_text_witness :
  run_result (Agent_chat (env := example_env)
                         (run_agent run_hello) "again" (run_world run_hello))
  = Ok ("Hello!" ++ nl ++ nl ++ "[Stopped: reached maximum tool iterations]").
Proof.
  refine (eq_trans
            (chat_exhaustion_degrades_to_text
               (env := example_env) (run_agent run_hello) "again"
               (run_world run_hello)
               (new_exn MaxIterationsError "Agent exceeded 2 iterations")
               _ _ _) _).
  - unfold run_hello, example_agent. apply reach_chat, reach_init.
  - vm_compute. reflexivity.
  - reflexivity.
  - vm_compute. reflexivity.
Defined.

Lemma text_fallback_dispatches_web_search_witness :
  Agent_parse_tool_calls (env := example_env)
    (mk_llm_message (Some web_search_text) None)
  = Ok (Some [mk_tool_call "call_3126" (PStr "web_search")
                           (PStr (dq "{'query': 'x'}"))]).
Proof.
  refine (proj1
            (text_fallback_dispatches_web_search
               (env := example_env)
               (example_agent backend_text_call 2 100)
               (Some [Tool_to_openai_tool web_search_tool]) 1%nat
               example_state web_search_tool
               (mk_llm_message (Some web_search_text) None) []
               _ _ _ _ _ _)).
  - reflexivity.
  - left. reflexivity.
  - reflexivity.
  - vm_compute. reflexivity.
  - vm_compute. reflexivity.
  - vm_compute. reflexivity.
Defined.

(** C3 fails as stated: on a text between braces in which two thousand
    brackets are nested, [json.loads] raises [RecursionError]; the parse
    does not catch it, and the [chat] call ends with [AgentError]
    after a single backend call. *)
Lemma deep_text_counterexample :
  msg_tool_calls (mk_llm_message (Some deep_text) None) = None
  /\ Agent_parse_tool_calls (env := example_env)
       (mk_llm_message (Some deep_text) None)
     = Raise (new_exn RecursionError
                "maximum recursion depth exceeded while decoding a JSON array from a unicode string")
  /\ run_result run_deep_text
     = Raise (mk_exn AgentError
                "Agent failed: maximum recursion depth exceeded while decoding a JSON array from a unicode string"
                (Some (new_exn RecursionError
                         "maximum recursion depth exceeded while decoding a JSON array from a unicode string")))
  /\ backend_calls (run_log run_deep_text) = 1%nat.
Proof.
  split; [reflexivity|]. split; [vm_compute; reflexivity|].
  split; vm_compute; reflexivity.
Qed.

Lemma tool_result_truncation_witness :
  exists recorded,
    recorded = "resul" ++ nl ++ "... [truncated, 13 chars total]"
    /\ fst (record_tool_result (env := short_cap_env)
              (example_agent backend_text_call 2 100)
              (mk_tool_call "call_1" (PStr "web_search") (PStr "{}"))
              "results for x" example_state) = Ok tt.
Proof.
  destruct (tool_result_truncation
              (env := short_cap_env)
              (example_agent backend_text_call 2 100)
              (mk_tool_call "call_1" (PStr "web_search") (PStr "{}"))
              "results for x" example_state)
    as (recorded & Hrun & Hlong & _).
  - cbn. lia.
  - exists recorded. split.
    + apply Hlong. vm_compute. reflexivity.
    + rewrite Hrun. reflexivity.
Defined.

Lemma tool_turns_answer_a_preceding_invocation_witness :
  correlated (messages (conversation (run_agent run_text_call))) = true.
Proof.
  refine (proj1
            (proj2
               (tool_turns_answer_a_preceding_invocation
                  (env := example_env) (run_agent run_text_call) _))
            _).
  - unfold run_text_call, example_agent. apply reach_chat, reach_init.
  - vm_compute. reflexivity.
Defined.

(** C5 fails as stated, in three ways.  The backend answers both
    iterations with the same text, the fallback derives the same id from
    it twice, and the second tool turn of the resulting history, which
    is below its cap, answers two preceding invocations, not exactly
    one.  With a cap of four messages the same run ends in a history
    whose first tool turn has lost its invocation to trimming and
    answers no preceding invocation at all.  And [add_tool_result],
    given an id that was never emitted, stores the tool turn and hands
    nothing to the logger. *)
Lemma tool_turn_correlation_counterexample :
  (reachable (env := example_env) (run_agent run_text_call)
   /\ ConversationHistory_len (conversation (run_agent run_text_call))
      < _max_messages (conversation (run_agent run_text_call))
   /\ uniquely_correlated (messages (conversation (run_agent run_text_call)))
      = false)
  /\ (reachable (env := example_env) (run_agent run_trimmed)
      /\ messages (conversation (run_agent run_trimmed))
         = [MsgSystem "You are a helpful assistant.";
            MsgTool "call_3126" (PStr "web_search") "results for x";
            MsgAssistantToolCalls [example_web_search_call];
            MsgTool "call_3126" (PStr "web_search") "results for x"]
      /\ correlated (messages (conversation (run_agent run_trimmed))) = false)
  /\ (let h := ConversationHistory_init (Some "s") 100 in
      messages (ConversationHistory_add_tool_result
                  h "call_0" (PStr "web_search") "r")
      = [MsgSystem "s"; MsgTool "call_0" (PStr "web_search") "r"]
      /\ correlated
           (messages (ConversationHistory_add_tool_result
                        h "call_0" (PStr "web_search") "r")) = false
      /\ ConversationHistory_add_tool_result_log
           h "call_0" (PStr "web_search") "r" = []).
Proof.
  split; [|split].
  - split; [|split].
    + unfold run_text_call, example_agent. apply reach_chat, reach_init.
    + vm_compute. reflexivity.
    + vm_compute. reflexivity.
  - split; [|split].
    + unfold run_trimmed, example_agent. apply reach_chat, reach_init.
    + vm_compute. reflexivity.
    + vm_compute. reflexivity.
  - cbv zeta. split; [|split]; vm_compute; reflexivity.
Qed.

Lemma Tool_execute_absorbs_Exception_witness :
  snd (Tool_execute value_tool [] 0%nat) = Ok example_tool_value_json.
Proof.
  refine (proj2 (Tool_execute_absorbs_Exception value_tool [] 0%nat) _).
  reflexivity.
Defined.

(** C7 fails as stated: a tool whose function ends the process with
    [sys.exit(1)] raises [SystemExit], which is not derived from
    [Exception], and [Tool.execute] lets it through. *)
Lemma exit_tool_counterexample :
  snd (function exit_tool [] 0%nat) = Raise (new_exn SystemExit "1")
  /\ Tool_execute exit_tool [] 0%nat = (0%nat, Raise (new_exn SystemExit "1")).
Proof. split; reflexivity. Qed.

Lemma backend_failure_ends_chat_witness :
  run_result run_unreachable
  = Raise (mk_exn AgentError
             "Agent failed: LLM call failed: Connection error."
             (Some (mk_exn CompletionError
                      "LLM call failed: Connection error."
                      (Some (new_exn (OtherException "APIConnectionError")
                                     "Connection error."))))).
Proof.
  refine (proj1
            (proj2
               (backend_failure_ends_chat
                  (env := example_env)
                  (example_agent backend_unreachable 10 100) "hi" 0%nat
                  example_request
                  (new_exn (OtherException "APIConnectionError")
                           "Connection error.")
                  _))).
  vm_compute. left. reflexivity.
Defined.

(** C8 fails as stated: a transport failure of the backend and a
    response without choices, a fault that has nothing to do with the
    transport, both surface from [chat] as the same class,
    [AgentError]; only the exceptions chained to them differ. *)
Lemma backend_failure_kind_counterexample :
  exists e1 e2,
    run_result run_unreachable = Raise e1
    /\ run_result run_no_choices = Raise e2
    /\ Exists (fun ev => is_failed_backend_call ev = true)
              (run_log run_unreachable)
    /\ no_failed_call (run_log run_no_choices)
    /\ exc_type e1 = AgentError
    /\ exc_type e2 = AgentError
    /\ option_map exc_type (exc_context e1) = Some CompletionError
    /\ option_map exc_type (exc_context e2) = Some IndexError.
Proof.
  do 2 eexists. split; [vm_compute; reflexivity|].
  split; [vm_compute; reflexivity|].
  split; [vm_compute; left; reflexivity|].
  split; [vm_compute; repeat constructor|].
  repeat split.
Qed.

(** C9 fails as stated: when the backend's message has neither content
    nor tool calls, [chat] returns the empty string. *)
Lemma silent_backend_counterexample :
  run_result run_silent = Ok EmptyString.
Proof. vm_compute. reflexivity. Qed.

Lemma undecodable_arguments_run_with_empty_mapping_witness :
  let a := example_agent backend_bad_arguments 2 100 in
  let tools := Some [Tool_to_openai_tool web_search_tool] in
  let ntc := mk_native_call "call_7" "web_search" "query=x" in
  let response := [mk_llm_message None (Some [ntc])] in
  run_iterations (env := example_env) a tools 2 example_loop_state
  = run_iterations (env := example_env) a tools 1
      (mk_state
         (ConversationHistory_add_tool_result
            (ConversationHistory_add_assistant_tool_calls
               (st_conv example_loop_state)
               (MsgAssistantToolCalls [native_to_tool_call ntc]))
            "call_7" (PStr "web_search")
            "Error executing web_search: web_search() missing 1 required positional argument: 'query'")
         1%nat
         [EvBackendCall example_request (Ok response);
          EvToolFunction "web_search" []]).
Proof.
  exact (undecodable_arguments_run_with_empty_mapping
           (env := example_env)
           (example_agent backend_bad_arguments 2 100)
           (Some [Tool_to_openai_tool web_search_tool]) 1%nat
           example_loop_state
           (mk_state
              (ConversationHistory_add_assistant_tool_calls
                 (st_conv example_loop_state)
                 (MsgAssistantToolCalls
                    [native_to_tool_call
                       (mk_native_call "call_7" "web_search" "query=x")]))
              1%nat
              [EvBackendCall
                 example_request
                 (Ok [mk_llm_message
                        None
                        (Some [mk_native_call "call_7" "web_search"
                                              "query=x"])])])
           web_search_tool
           (mk_llm_message
              None (Some [mk_native_call "call_7" "web_search" "query=x"]))
           [] [] [] (mk_native_call "call_7" "web_search" "query=x")
           eq_refl eq_refl eq_refl eq_refl).
Defined.

(** C10 fails as stated, in two ways.  A payload of two thousand
    opening brackets is not JSON, but [json.loads] raises
    [RecursionError] on it, not [json.JSONDecodeError]: the loop does
    not catch it, no tool runs, and [chat] raises [AgentError].  And
    where the tool's function, run with the empty mapping, ends the
    process with [sys.exit(1)], nothing is recorded and [SystemExit]
    leaves [chat]. *)
Lemma undecodable_arguments_counterexample :
  (json_loads (PyEnv := example_env) deep_brackets
   = inr (NestingTooDeep
            "maximum recursion depth exceeded while decoding a JSON array from a unicode string")
   /\ run_result run_deep_arguments
      = Raise (mk_exn AgentError
                 "Agent failed: maximum recursion depth exceeded while decoding a JSON array from a unicode string"
                 (Some (new_exn RecursionError
                          "maximum recursion depth exceeded while decoding a JSON array from a unicode string")))
   /\ Forall (fun ev => is_backend_call ev = true) (run_log run_deep_arguments)
   /\ backend_calls (run_log run_deep_arguments) = 1%nat)
  /\ (json_loads (PyEnv := example_env) "now" = inr (NotJSON "Expecting value")
      /\ run_result run_exit_call = Raise (new_exn SystemExit "1")
      /\ In (EvToolFunction "exit" []) (run_log run_exit_call)
      /\ Forall (fun m => role m <> "tool")
                (messages (conversation (run_agent run_exit_call)))).
Proof.
  split.
  - split; [vm_compute; reflexivity|]. split; [vm_compute; reflexivity|].
    split; [vm_compute; repeat constructor | vm_compute; reflexivity].
  - split; [vm_compute; reflexivity|]. split; [vm_compute; reflexivity|].
    split; [vm_compute; right; left; reflexivity|].
    vm_compute. repeat constructor; discriminate.
Qed.

(** ** Witnesses of the further properties *)

Lemma listed_tools_are_found_witness :
  ToolRegistry_get (registry (run_agent run_text_call)) (PStr "web_search")
  = Ok (Some web_search_tool).
Proof.
  refine (proj2
            (listed_tools_are_found
               (env := example_env) (run_agent run_text_call) web_search_tool
               _ _)).
  - unfold run_text_call, example_agent. apply reach_chat, reach_init.
  - vm_compute. left. reflexivity.
Defined.

Lemma append_within_cap_keeps_newest_witness :
  ConversationHistory_len
    (ConversationHistory_add_assistant_tool_calls example_history (MsgUser "b"))
  <= 2.
Proof.
  refine (proj1
            (append_within_cap_keeps_newest example_history (MsgUser "b") _ _)).
  - reflexivity.
  - vm_compute. reflexivity.
Defined.

Lemma last_assistant_content_after_append_witness :
  ConversationHistory_get_last_assistant_content
    (ConversationHistory_add_assistant_message
       (ConversationHistory_init (Some "s") 100) "Hello!")
  = Some "Hello!".
Proof.
  refine (proj1
            (last_assistant_content_after_append
               (ConversationHistory_init (Some "s") 100) _) "Hello!").
  vm_compute. reflexivity.
Defined.

Lemma trim_idempotent_witness :
  ConversationHistory_trim_if_needed
    (ConversationHistory_trim_if_needed example_history_over_cap)
  = ConversationHistory_trim_if_needed example_history_over_cap.
Proof.
  apply (trim_idempotent example_history_over_cap).
  vm_compute. reflexivity.
Defined.




Lemma final_answer_short_circuit_witness :
  run_result run_hello = Ok "Hello!".
Proof.
  refine (proj1
            (final_answer_short_circuit
               (env := example_env)
               (example_agent backend_text_then_calls 2 100) "hi" 0%nat
               (mk_llm_message (Some "Hello!") None) [] _ _ _)).
  - reflexivity.
  - reflexivity.
  - vm_compute. reflexivity.
Defined.

Lemma chat_without_iterations_witness :
  run_log (Agent_chat (env := example_env)
                      (example_agent backend_text_call 0 100) "hi" 0%nat)
  = [].
Proof.
  refine (proj1
            (chat_without_iterations
               (env := example_env)
               (example_agent backend_text_call 0 100) "hi" 0%nat _)).
  vm_compute. discriminate.
Defined.

Lemma requests_carry_the_agent_configuration_witness :
  req_model example_request = "llama3.1:8b".
Proof.
  refine (proj1
            (requests_carry_the_agent_configuration
               (env := example_env)
               (example_agent backend_unreachable 10 100) "hi" 0%nat
               example_request
               (Raise (new_exn (OtherException "APIConnectionError")
                              "Connection error."))
               _)).
  vm_compute. left. reflexivity.
Defined.

Lemma system_prompt_stays_first_witness :
  (List.length
     (filter is_system (messages (conversation (run_agent run_text_call))))
   <= 1)%nat.
Proof.
  refine (proj2
            (system_prompt_stays_first
               (env := example_env) (run_agent run_text_call) _)).
  unfold run_text_call, example_agent. apply reach_chat, reach_init.
Defined.

Lemma text_fallback_yields_one_call_witness :
  exists tc n,
    [example_web_search_call] = [tc]
    /\ 0 <= n < 100000
    /\ tc_id tc = "call_" ++ str_of_Z n.
Proof.
  refine (text_fallback_yields_one_call
            (env := example_env)
            (mk_llm_message (Some web_search_text) None)
            [example_web_search_call] _ _).
  - left. reflexivity.
  - vm_compute. reflexivity.
Defined.

Lemma text_fallback_arguments_round_trip_witness :
  exists tc,
    parse_json_text_tool_call (env := example_env) web_search_text
    = Ok (Some [tc])
    /\ tc_name tc = PStr "web_search"
    /\ decode_arguments (env := example_env) (tc_arguments tc)
       = Ok (PDict [(PStr "query", PStr "x")]).
Proof.
  refine (text_fallback_arguments_round_trip
            (env := example_env) web_search_text
            [(PStr "name", PStr "web_search");
             (PStr "parameters", PDict [(PStr "query", PStr "x")])]
            [(PStr "query", PStr "x")] (PStr "web_search")
            (dq "{'query': 'x'}") _ _ _ _ _);
    vm_compute; reflexivity.
Defined.

Lemma Agent_init_registers_distinct_tools_witness :
  ToolRegistry_list_tools (registry (example_agent backend_text_call 2 100))
  = [web_search_tool].
Proof.
  refine (proj1
            (Agent_init_registers_distinct_tools
               [web_search_tool] "You are a helpful assistant." "llama3.1:8b"
               backend_text_call (PFloat "0.1") 2 100 None None None _)).
  repeat constructor. intros [].
Defined.

Lemma added_tool_is_offered_witness :
  exists descriptors,
    req_tools example_request = Some descriptors
    /\ In (Tool_to_openai_tool web_search_tool) descriptors.
Proof.
  refine (added_tool_is_offered
            (env := example_env)
            (example_agent backend_unreachable 10 100) web_search_tool
            "hi" 0%nat example_request
            (Raise (new_exn (OtherException "APIConnectionError")
                           "Connection error."))
            _).
  vm_compute. left. reflexivity.
Defined.

Lemma chat_only_appends_below_cap_witness :
  exists added,
    messages (conversation (run_agent run_hello))
    = (messages (conversation (example_agent backend_text_then_calls 2 100))
       ++ MsgUser "hi" :: added)%list.
Proof.
  refine (proj2
            (chat_only_appends_below_cap
               (env := example_env)
               (example_agent backend_text_then_calls 2 100) "hi" 0%nat) _).
  vm_compute. reflexivity.
Defined.
